(** * ur_module_ros: the dashboard client, the finger-gripper controller and
    the UR task facade, embedded in Rocq.

    Sources embedded here:
    - [src/ur5_driver/ur5_driver/ur_dashboard.py]  (module [Dashboard])
    - [src/ur_driver/ur_driver/ur_tools/gripper_controller.py] (module [Gripper])
    - [src/ur_driver/ur_driver/ur_driver.py] (modules [Link] and [Driver])

    Python text is a list of Unicode code points, Python floats are binary64
    primitive floats, and the effects of the code (printing, sleeping, socket
    traffic, calls into the motion and gripper SDKs) are recorded in a log by a
    small state-and-exception monad.  What the outside world answers is read
    from an oracle, so that every theorem quantifies over all behaviours of
    the robot. *)

From Stdlib Require Import ZArith NArith List String Ascii DecimalString Lia Floats.
From stdpp Require Import base list.

Set Warnings "-inexact-float".

(* ===================================================================== *)
(** * Python values *)
(* ===================================================================== *)

Module Py.

(** A Python [str]: its code points. *)
Definition str := list N.

(** A literal of the source. *)
Definition py (s : string) : str :=
  List.map N_of_ascii (list_ascii_of_string s).

Definition LF : N := 10%N.

Arguments py : simpl never.

Fixpoint eqb (a b : str) : bool :=
  match a, b with
  | [], [] => true
  | x :: a', y :: b' => N.eqb x y && eqb a' b'
  | _, _ => false
  end.

(** [str.isspace] on one code point: the characters [str.strip()] removes. *)
Definition is_space (c : N) : bool :=
  ((9 <=? c) && (c <=? 13) || (28 <=? c) && (c <=? 32)
   || (c =? 133) || (c =? 160) || (c =? 5760)
   || (8192 <=? c) && (c <=? 8202)
   || (c =? 8232) || (c =? 8233) || (c =? 8239) || (c =? 8287)
   || (c =? 12288))%N.

Fixpoint lstrip (s : str) : str :=
  match s with
  | c :: s' => if is_space c then lstrip s' else s
  | [] => []
  end.

Definition rstrip (s : str) : str := rev (lstrip (rev s)).

(** [s.strip()] *)
Definition strip (s : str) : str := rstrip (lstrip s).

(** [s.startswith(p)] *)
Fixpoint startswith (s p : str) {struct p} : bool :=
  match p, s with
  | [], _ => true
  | x :: p', y :: s' => N.eqb x y && startswith s' p'
  | _ :: _, [] => false
  end.

Fixpoint find_from (s sub : str) (i : Z) : Z :=
  if startswith s sub then i
  else match s with
       | [] => (-1)%Z
       | _ :: s' => find_from s' sub (i + 1)%Z
       end.

(** [s.find(sub)]: the lowest index where [sub] starts, or [-1]. *)
Definition find (s sub : str) : Z := find_from s sub 0%Z.

(** [sub in s] *)
Definition contains (s sub : str) : Prop := exists pre post, s = pre ++ sub ++ post.

(** [s[n:]] for a non-negative literal [n]. *)
Definition slice_from (n : nat) (s : str) : str := drop n s.

(** [s[:-1]] *)
Definition but_last (s : str) : str := take (length s - 1) s.

(** [s.split(' ')]: split at every single space; the result is never empty. *)
Fixpoint split_space (s : str) : list str :=
  match s with
  | [] => [[]]
  | c :: s' =>
      if N.eqb c 32 then [] :: split_space s'
      else match split_space s' with
           | w :: ws => (c :: w) :: ws
           | [] => [[c]]
           end
  end.

(** [s.encode("ascii")] succeeds exactly on text below code point 128. *)
Definition is_ascii (s : str) : bool := forallb (fun c => (c <? 128)%N) s.

(** Exceptions: the class [Exception] and its subclasses.  Exceptions that the
    interpreter raises carry a label naming the failing operation instead of
    the interpreter's message text. *)
Inductive exn : Type :=
| Exception (msg : str)
| ValueError (msg : str)
| TypeError (what : string)
| AttributeError (what : string)
| IndexError (what : string)
| NameError (name : string)
| UnboundLocalError (name : string)
| UnicodeEncodeError
| RecursionError
| Foreign (cls : string) (msg : str).

(** What a call does: it returns, it raises, or (for the [while] loops, whose
    definitions take fuel) it is still running when the fuel is spent. *)
Inductive outcome (A : Type) : Type :=
| Ok (a : A)
| Raise (e : exn)
| Running.
Arguments Ok {A} a.
Arguments Raise {A} e.
Arguments Running {A}.

(** The parts of the Python runtime that are left abstract: Unicode case
    mapping, the ['%.2f'] float format, and the durations [time.sleep]
    refuses ([sleep_error s] is the exception it raises for [s]: a NaN, a
    negative number, a duration too long for the platform).  A duration
    between zero and a minute is never refused. *)
Class Builtins : Type := {
  upper : str -> str;
  lower : str -> str;
  fmt2f : float -> str;
  sleep_error : float -> option exn;
  sleep_short : forall s : float,
    (0 <=? s)%float = true -> (s <=? 60)%float = true -> sleep_error s = None
}.

(** An executable runtime, exact on ASCII text: [a-z] and [A-Z] are mapped onto
    each other and every other code point is left alone.  ['%.2f'] rounds the
    exact binary value to two decimals, ties to even. *)
Definition ascii_upper (s : str) : str :=
  List.map (fun c => if ((97 <=? c) && (c <=? 122))%N then (c - 32)%N else c) s.

Definition ascii_lower (s : str) : str :=
  List.map (fun c => if ((65 <=? c) && (c <=? 90))%N then (c + 32)%N else c) s.

Definition decimal (n : N) : str :=
  py (DecimalString.NilZero.string_of_uint (N.to_uint n)).

(** [round(m * 2^e * 100)] to the nearest integer, ties to even. *)
Definition hundredths (m : positive) (e : Z) : N :=
  let num := (Npos m * 100)%N in
  match e with
  | Z0 => num
  | Zpos p => (num * 2 ^ Npos p)%N
  | Zneg p =>
      let den := (2 ^ Npos p)%N in
      let q := (num / den)%N in
      let r := (num mod den)%N in
      match (2 * r ?= den)%N with
      | Gt => (q + 1)%N
      | Eq => if N.odd q then (q + 1)%N else q
      | Lt => q
      end
  end.

Definition two_digits (n : N) : str :=
  decimal (n / 10) ++ decimal (n mod 10).

Definition fixed2 (negative : bool) (h : N) : str :=
  (if negative then py "-" else []) ++ decimal (h / 100) ++ py "." ++ two_digits (h mod 100).

Definition ascii_fmt2f (x : float) : str :=
  match Prim2SF x with
  | S754_nan => py "nan"
  | S754_infinity s => if s then py "-inf" else py "inf"
  | S754_zero s => fixed2 s 0
  | S754_finite s m e => fixed2 s (hundredths m e)
  end.

(** [time.sleep] takes a short duration, and any up to nine billion seconds. *)
Definition plain_sleep_error (s : float) : option exn :=
  if ((0 <=? s) && ((s <=? 60) || (s <=? 9000000000)))%float then None
  else if PrimFloat.is_nan s then Some (ValueError (py "Invalid value NaN (not a number)"))
  else if (s <? 0)%float then Some (ValueError (py "sleep length must be non-negative"))
  else Some (Foreign "OverflowError" (py "timestamp too large to convert to C _PyTime_t")).

Lemma plain_sleep_short (s : float) :
  (0 <=? s)%float = true -> (s <=? 60)%float = true -> plain_sleep_error s = None.
Proof. intros H0 H60. unfold plain_sleep_error. rewrite H0, H60. reflexivity. Qed.

Definition ascii_runtime : Builtins :=
  {| upper := ascii_upper; lower := ascii_lower; fmt2f := ascii_fmt2f;
     sleep_error := plain_sleep_error; sleep_short := plain_sleep_short |}.

End Py.
Export Py.

(* ===================================================================== *)
(** * Effects *)
(* ===================================================================== *)

Module Eff.

(** A computation over a state [S]: the state is returned on every outcome, so
    that what was done before an exception stays done. *)
Definition M (S A : Type) : Type := S -> outcome A * S.

Definition ret {S A} (a : A) : M S A := fun s => (Ok a, s).

Definition bind {S A B} (m : M S A) (k : A -> M S B) : M S B :=
  fun s =>
    match m s with
    | (Ok a, s') => k a s'
    | (Raise e, s') => (Raise e, s')
    | (Running, s') => (Running, s')
    end.

Definition raise {S A} (e : exn) : M S A := fun s => (Raise e, s).

Definition get {S} : M S S := fun s => (Ok s, s).
Definition modify {S} (f : S -> S) : M S unit := fun s => (Ok tt, f s).

(** [try: body / except Exception as err: handler err] *)
Definition try_except {S A} (body : M S A) (handler : exn -> M S A) : M S A :=
  fun s =>
    match body s with
    | (Raise e, s') => handler e s'
    | r => r
    end.

(** [try: body / finally: final]: [final] runs after [body] however it ends,
    and an exception of [final] replaces the outcome of [body]. *)
Definition try_finally {S A} (body : M S A) (final : M S unit) : M S A :=
  fun s =>
    match body s with
    | (Running, s') => (Running, s')
    | (r, s') =>
        match final s' with
        | (Ok _, s'') => (r, s'')
        | (Raise e, s'') => (Raise e, s'')
        | (Running, s'') => (Running, s'')
        end
    end.

#[global] Instance M_ret {S} : MRet (M S) := fun A a => ret a.
#[global] Instance M_bind {S} : MBind (M S) := fun A B k m => bind m k.

End Eff.
Export Eff.

(* ===================================================================== *)
(** * The log *)
(* ===================================================================== *)

Module Log.

(** One argument of a [print] call. *)
Inductive pitem : Type :=
| Text (s : str)
| Err (e : exn).

(** A call into the motion SDK (urx), the gripper driver, or a tool controller
    whose code is not part of the embedded sources. *)
Inductive call : Type :=
| ur_movel (pose : option (list float)) (acc vel : float)
| ur_movej (joints : list float) (acc vel : float)
| ur_getj
| ur_getl
| ur_speedl_tool (velocities : list float) (acc min_time : float)
| ur_translate_tool (vect : list float) (acc vel : float)
| RobotiqGripper_new
| gripper_connect (hostname : str) (port : Z)
| gripper_is_active
| gripper_activate
| gripper_move_and_wait_for_pos (position speed force : Z)
| gripper_disconnect
| external (name : string).

(** What an SDK call hands back. *)
Inductive value : Type :=
| VNone
| VBool (b : bool)
| VList (l : list float).

Inductive reply : Type :=
| Returns (v : value)
| Raises (e : exn).

Inductive event : Type :=
| Printed (items : list pitem)
| Slept (seconds : float)
| SocketConnect
| SocketClose
| Sendall (command : str)
| Called (c : call) (r : reply).

End Log.
Export Log.

(* ===================================================================== *)
(** * ur_dashboard.py *)
(* ===================================================================== *)

Module Dashboard.

(** What the socket does with one command (lines 36-38 of [send_command]):
    [sendall] raises, or the command goes out and [recv]/[decode] raises, or
    the decoded response arrives. *)
Inductive wire : Type :=
| SendError (e : exn)
| RecvError (e : exn)
| Received (response : str).

(** The robot controller and the host as seen from the client: the answer to
    the [k]-th transmission of each command, and what the [k]-th call of
    [connect] meets: whether [socket.socket] raises (line 16), and whether,
    once the socket object is made, [settimeout] or the TCP connect raises
    (lines 17-18). *)
Record robot : Type := {
  exchange : str -> nat -> wire;
  creating : nat -> option exn;
  connecting : nat -> option exn
}.

(** [UR_DASHBOARD] instance state.  [connection] tells whether
    [self.connection] holds a socket object ([false] is [None]). *)
Record dashboard : Type := {
  connection : bool;
  events : list event
}.

Definition log (e : event) : M dashboard unit :=
  modify (fun d => {| connection := connection d; events := events d ++ [e] |}).

Definition print (items : list pitem) : M dashboard unit := log (Printed items).

Definition set_connection (b : bool) : M dashboard unit :=
  modify (fun d => {| connection := b; events := events d |}).

(** How often [command] has been handed to [sendall] so far. *)
Fixpoint sent (command : str) (l : list event) : nat :=
  match l with
  | [] => 0
  | Sendall c :: l' => (if Py.eqb c command then 1 else 0) + sent command l'
  | _ :: l' => sent command l'
  end.

Fixpoint connects (l : list event) : nat :=
  match l with
  | [] => 0
  | SocketConnect :: l' => S (connects l')
  | _ :: l' => connects l'
  end.

(** The commands handed to [sendall], in order. *)
Fixpoint commands (l : list event) : list str :=
  match l with
  | [] => []
  | Sendall c :: l' => c :: commands l'
  | _ :: l' => commands l'
  end.

Definition banner : str := py "Connected: Universal Robots Dashboard Server".

Section Client.
Context {B : Builtins}.
Variable R : robot.

(** [time.sleep(seconds)] *)
Definition sleep (seconds : float) : M dashboard unit :=
  match sleep_error seconds with
  | None => log (Slept seconds)
  | Some e => raise e
  end.

(** [connect].  [SocketConnect] records the attempt.  When [socket.socket]
    raises, nothing is assigned and [self.connection] stays what it was;
    otherwise the socket object is assigned before [settimeout] and the TCP
    connect are tried.  Every failure is printed and swallowed. *)
Definition connect : M dashboard unit :=
  try_except
    (d ← get;
     log SocketConnect;;
     match creating R (connects (events d)) with
     | Some err => raise err
     | None =>
         set_connection true;;
         match connecting R (connects (events d)) with
         | Some err => raise err
         | None => mret tt
         end
     end)
    (fun err =>
       print [Text (py "UR dashboard could not establish connection")];;
       print [Err err]).

(** [disconnect]: [self.connection.close()] *)
Definition disconnect : M dashboard unit :=
  d ← get;
  if connection d then log SocketClose
  else raise (AttributeError "'NoneType' object has no attribute 'close'").

(** Lines 36-38: [sendall] of the encoded command and the newline that ends
    it, [sleep(response_delay)], [recv(4096).decode("utf-8")].  The method
    [sendall] is looked up on [self.connection] before the command is
    encoded, so a client without a socket object fails on the lookup.  The
    event [Sendall] is the call of [sendall], whether it goes through or
    raises, and carries the command without that newline. *)
Definition transmit (command : str) (response_delay : float) : M dashboard str :=
  d ← get;
  if connection d then
    if is_ascii command then
      log (Sendall command);;
      match exchange R command (sent command (events d)) with
      | SendError e => raise e
      | RecvError e => sleep response_delay;; raise e
      | Received response => sleep response_delay;; mret response
      end
    else raise UnicodeEncodeError
  else raise (AttributeError "'NoneType' object has no attribute 'sendall'").

Definition send_command (command : str) (response_delay : float)
  : M dashboard (option str) :=
  print [Text (py ">> " ++ command)];;
  try_except
    (d ← get;
     (if negb (connection d) then connect else mret tt);;
     response ← transmit command response_delay;
     response ← (if negb (find response banner =? -1)%Z then
                   print [Text banner];;
                   mret (slice_from 45 response)
                 else mret response);
     print [Text (py "<< " ++ but_last response)];;
     mret (Some (strip response)))
    (fun err => print [Err err];; mret None).

(** [output.split(' ')[1]] on what [send_command] returned. *)
Definition second_word (output : option str) : M dashboard str :=
  match output with
  | None => raise (AttributeError "'NoneType' object has no attribute 'split'")
  | Some text =>
      match split_space text !! 1 with
      | Some w => mret w
      | None => raise (IndexError "list index out of range")
      end
  end.

(** [x.upper()] on what [send_command] returned. *)
Definition upper_of (x : option str) : M dashboard str :=
  match x with
  | None => raise (AttributeError "'NoneType' object has no attribute 'upper'")
  | Some text => mret (upper text)
  end.

Definition robot_mode : M dashboard str :=
  output ← send_command (py "robotmode") 0.5;
  second_word output.

Definition safety_status : M dashboard str :=
  output ← send_command (py "safetystatus") 0.5;
  second_word output.

Definition brake_release : M dashboard (option str) :=
  output ← send_command (py "brake release") 0.5;
  sleep 20;;
  mret output.

Definition unlock_protective_stop : M dashboard (option str) :=
  send_command (py "unlock protective stop") 0.5.

Definition close_safety_popup : M dashboard (option str) :=
  send_command (py "close safety popup") 0.5.

Definition is_in_remote_control : M dashboard (option str) :=
  send_command (py "is in remote control") 0.5.

Definition restart_safety : M dashboard (option str) :=
  output ← send_command (py "restart safety") 0.5;
  sleep 10;;
  disconnect;;
  connect;;
  output2 ← brake_release;
  mret output.

Definition get_operational_mode : M dashboard (option str) :=
  send_command (py "get operational mode") 0.5.

Definition set_operational_mode (mode : str) : M dashboard (option str) :=
  send_command (py "set operational mode " ++ mode) 0.5.

(** [remote_control_status == False]: a [str] or [None] never equals [False]. *)
Definition eq_False (x : option str) : bool := false.

(** [initialize].  The method ends by calling itself (line 81), so every
    pass is one more activation on the interpreter's stack, and the
    interpreter raises [RecursionError] at the call that would go beyond its
    recursion limit ([sys.getrecursionlimit()], a thousand frames unless it
    was changed).  [room] is the number of passes that limit leaves room for
    when [initialize] is called: every pass is taken to need the same room,
    the frames of the calls it makes included, and the call for which there
    is no room raises. *)
Fixpoint initialize (room : nat) : M dashboard unit :=
  match room with
  | 0 => raise RecursionError
  | S room' =>
      robot_mode ← robot_mode;
      operation_mode ← get_operational_mode;
      safety_status ← safety_status;
      remote_control_status ← is_in_remote_control;
      (if Py.eqb (upper safety_status) (py "PROTECTIVE_STOP") then
         print [Text (py "Unlocking protective stop")];;
         unlock_protective_stop;; mret tt
       else if negb (Py.eqb (upper safety_status) (py "NORMAL")) then
         print [Text (py "Restarting safety")];;
         close_safety_popup;;
         output ← restart_safety;
         mret tt
       else mret tt);;
      operation_mode_upper ← upper_of operation_mode;
      (if Py.eqb operation_mode_upper (py "MANUAL") then
         print [Text (py "Operation mode is currently set to MANUAL, switching to AUTOMATIC")];;
         set_operational_mode (py "automatic");; mret tt
       else mret tt);;
      (if eq_False remote_control_status then
         print [Text (py "Robot is not in remote control")]
       else mret tt);;
      if Py.eqb (upper robot_mode) (py "RUNNING")
         && Py.eqb (upper safety_status) (py "NORMAL") then
        print [Text (py "Robot is initialized")]
      else
        (if Py.eqb (upper robot_mode) (py "POWER_OFF")
            || Py.eqb (upper robot_mode) (py "BOOTING")
            || Py.eqb (upper robot_mode) (py "POWER_ON")
            || Py.eqb (upper robot_mode) (py "IDLE") then
           print [Text (py "Powering on the robot and releasing brakes")];;
           output ← brake_release;
           mret tt
         else mret tt);;
        initialize room'
  end.

(** [UR_DASHBOARD(IP, PORT)] (lines 7-11): [self.connection = None], then
    [self.connect()]. *)
Definition init : M dashboard unit :=
  set_connection false;;
  connect.

End Client.

(** A freshly constructed client whose socket object exists. *)
Definition fresh : dashboard := {| connection := true; events := [] |}.

(** A client whose [connection] is [None]. *)
Definition unconnected : dashboard := {| connection := false; events := [] |}.

(** ** Vocabulary of the statements below *)

(** What [send_command] makes of what the socket did. *)
Definition reply_text (w : wire) : option str :=
  match w with
  | Received response =>
      Some (strip (if (find response banner =? -1)%Z then response
                   else slice_from 45 response))
  | _ => None
  end.

(** The second word of a reply, as [robot_mode] and [safety_status] read it. *)
Definition word2 (text : option str) : option str :=
  match text with
  | Some t => split_space t !! 1
  | None => None
  end.

(** The answer the robot gives to [command] when it is sent for the [j]-th
    time from the state [d] on. *)
Definition answer (R : robot) (d : dashboard) (j : nat) (command : str) : option str :=
  reply_text (exchange R command (sent command (events d) + j)).

(** A socket object is at hand for the next call of [send_command]: the
    client holds one, or [socket.socket] returns one when [send_command] calls
    [connect]. *)
Definition at_hand (R : robot) (d : dashboard) : bool :=
  connection d
  || match creating R (connects (events d)) with
     | None => true
     | Some _ => false
     end.

(** The four status queries of one pass of [initialize]. *)
Definition status_queries : list str :=
  [py "robotmode"; py "get operational mode"; py "safetystatus";
   py "is in remote control"].

Section Ready.
Context {B : Builtins}.

(** What [send_command] hands back, given what the socket does and whether
    [time.sleep] takes the delay. *)
Definition handed_back (w : wire) (delay : float) : option str :=
  match w, sleep_error delay with
  | Received _, None => reply_text w
  | _, _ => None
  end.

(** The exception [send_command] prints, if one is raised on the way. *)
Definition raised_on_the_way (w : wire) (delay : float) : option exn :=
  match w, sleep_error delay with
  | SendError e, _ => Some e
  | _, Some e => Some e
  | RecvError e, None => Some e
  | Received _, None => None
  end.

(** Pass [j] from [d] on sees robot mode RUNNING together with safety status
    NORMAL. *)
Definition ready_at (R : robot) (d : dashboard) (j : nat) : Prop :=
  exists mode safety,
    word2 (answer R d j (py "robotmode")) = Some mode /\
    word2 (answer R d j (py "safetystatus")) = Some safety /\
    upper mode = py "RUNNING" /\ upper safety = py "NORMAL".


(** The commands one pass of [initialize] sends after its four queries, given
    the robot mode, safety status and operational mode it has read. *)
Definition recovery_commands (mode safety operation_mode : str) : list str :=
  (if Py.eqb (upper safety) (py "PROTECTIVE_STOP") then [py "unlock protective stop"]
   else if negb (Py.eqb (upper safety) (py "NORMAL")) then
     [py "close safety popup"; py "restart safety"; py "brake release"]
   else [])
  ++ (if Py.eqb (upper operation_mode) (py "MANUAL") then
        [py "set operational mode automatic"]
      else [])
  ++ (if Py.eqb (upper mode) (py "RUNNING") && Py.eqb (upper safety) (py "NORMAL") then []
      else if Py.eqb (upper mode) (py "POWER_OFF") || Py.eqb (upper mode) (py "BOOTING")
              || Py.eqb (upper mode) (py "POWER_ON") || Py.eqb (upper mode) (py "IDLE")
      then [py "brake release"]
      else []).

(** The test that ends [initialize]. *)
Definition is_ready (mode safety : str) : bool :=
  Py.eqb (upper mode) (py "RUNNING") && Py.eqb (upper safety) (py "NORMAL").

End Ready.

(** [d'] is [d] after more events, in which [sendall] was called with the
    commands [cs], and holds a socket object. *)
Definition steps (d d' : dashboard) (cs : list str) : Prop :=
  connection d' = true /\
  exists l, events d' = events d ++ l /\ commands l = cs.

(** How often [c] is among [cs]. *)
Fixpoint occurrences (c : str) (cs : list str) : nat :=
  match cs with
  | [] => 0
  | x :: cs' => (if Py.eqb x c then 1 else 0) + occurrences c cs'
  end.


(** The text has the shape of a status reply: a label, one space, a value and
    trailing whitespace, with no whitespace inside the label or the value. *)
Definition status_reply (label value trailing : str) : str :=
  label ++ [32%N] ++ value ++ trailing.

Definition solid (s : str) : Prop :=
  s <> [] /\ forall c, In c s -> is_space c = false.

Definition blank (s : str) : Prop :=
  forall c, In c s -> is_space c = true.

(** Greets with the banner in front of the response. *)
Definition greeting_once : robot :=
  {| exchange := fun _ _ => Received (banner ++ [LF] ++ py "Robotmode: RUNNING" ++ [LF]);
     creating := fun _ => None;
     connecting := fun _ => None |}.

(** ** Robots to run the client against *)

(** Answers every query as a running, healthy robot does, and reports the
    operational mode [mode]. *)
Definition running_robot (mode : str) : robot :=
  {| exchange := fun command _ =>
       if Py.eqb command (py "robotmode") then Received (py "Robotmode: RUNNING" ++ [LF])
       else if Py.eqb command (py "safetystatus") then Received (py "Safetystatus: NORMAL" ++ [LF])
       else if Py.eqb command (py "get operational mode") then Received (mode ++ [LF])
       else if Py.eqb command (py "is in remote control") then Received (py "true" ++ [LF])
       else Received [LF];
     creating := fun _ => None;
     connecting := fun _ => None |}.

(** Greets with the banner in front of every response, twice. *)
Definition greeting_twice : robot :=
  {| exchange := fun _ _ =>
       Received (banner ++ [LF] ++ banner ++ [LF] ++ py "Robotmode: RUNNING" ++ [LF]);
     creating := fun _ => None;
     connecting := fun _ => None |}.




(** Runs in automatic mode and reports the safety status [status]. *)
Definition stopped_robot (status : str) : robot :=
  {| exchange := fun command _ =>
       if Py.eqb command (py "robotmode") then Received (py "Robotmode: RUNNING" ++ [LF])
       else if Py.eqb command (py "safetystatus") then
         Received (py "Safetystatus: " ++ status ++ [LF])
       else if Py.eqb command (py "get operational mode") then Received (py "AUTOMATIC" ++ [LF])
       else Received (py "ok" ++ [LF]);
     creating := fun _ => None;
     connecting := fun _ => None |}.


(** A running robot behind a host that has no file descriptor left:
    [socket.socket] raises every time. *)
Definition starved_host : robot :=
  {| exchange := exchange (running_robot (py "AUTOMATIC"));
     creating := fun _ =>
       Some (Foreign "OSError" (py "[Errno 24] Too many open files"));
     connecting := fun _ => None |}.

End Dashboard.

(* ===================================================================== *)
(** * The robot behind the motion and gripper SDKs *)
(* ===================================================================== *)

Module World.

(** [oracle k] is what the [k]-th SDK call of the run does; [clock] counts the
    calls made so far and [trace] records everything observable. *)
Record world : Type := {
  oracle : nat -> reply;
  clock : nat;
  trace : list event
}.

(** A state that holds the world. *)
Class HasWorld (S : Type) : Type := {
  world_of : S -> world;
  with_world : world -> S -> S
}.

#[global] Instance world_HasWorld : HasWorld world :=
  {| world_of := fun w => w; with_world := fun w _ => w |}.

#[global] Instance pair_HasWorld {X} : HasWorld (X * world) :=
  {| world_of := snd; with_world := fun w s => (fst s, w) |}.

Definition record (e : event) (w : world) : world :=
  {| oracle := oracle w; clock := clock w; trace := trace w ++ [e] |}.

Definition tick (w : world) : world :=
  {| oracle := oracle w; clock := S (clock w); trace := trace w |}.

Section Primitives.
Context {S : Type} `{HasWorld S}.

Definition emit (e : event) : M S unit :=
  modify (fun s => with_world (record e (world_of s)) s).

Definition print (items : list pitem) : M S unit := emit (Printed items).

(** [time.sleep(seconds)] *)
Definition sleep {B : Builtins} (seconds : float) : M S unit :=
  match sleep_error seconds with
  | None => emit (Slept seconds)
  | Some e => raise e
  end.

(** One call into an SDK: the oracle decides whether it returns or raises. *)
Definition sdk (c : call) : M S value :=
  fun s =>
    let w := world_of s in
    let r := oracle w (clock w) in
    let s' := with_world (tick (record (Called c r) w)) s in
    match r with
    | Returns v => (Ok v, s')
    | Raises e => (Raise e, s')
    end.

End Primitives.

(** Truth value of what an SDK call returned. *)
Definition truthy (v : value) : bool :=
  match v with
  | VNone => false
  | VBool b => b
  | VList l => negb (Nat.eqb (length l) 0)
  end.

(** Truth value of an optional list argument: [None] and [[]] are false. *)
Definition given {A} (l : option (list A)) : bool :=
  match l with
  | Some (_ :: _) => true
  | _ => false
  end.

(** Truth value of an optional integer argument: [None] and [0] are false. *)
Definition nonzero (n : option Z) : bool :=
  match n with
  | Some z => negb (z =? 0)%Z
  | None => false
  end.

(** [l[i] += d] on a list that may be [None], an index that may be [None] and
    an increment that may be [None]; the item is read before the sum is taken. *)
Definition iadd_item {S} (l : option (list float)) (i : option nat) (d : option float)
  : M S (list float) :=
  match l with
  | None => raise (TypeError "object is not subscriptable")
  | Some l =>
      match i with
      | None => raise (TypeError "list indices must be integers or slices, not NoneType")
      | Some i =>
          match l !! i with
          | None => raise (IndexError "list index out of range")
          | Some x =>
              match d with
              | None => raise (TypeError "unsupported operand type(s) for +=: 'float' and 'NoneType'")
              | Some d => mret (<[i := (x + d)%float]> l)
              end
          end
      end
  end.

(** [l[i]] on what an SDK call returned. *)
Definition getitem {S} (v : value) (i : nat) : M S float :=
  match v with
  | VList l =>
      match l !! i with
      | Some x => mret x
      | None => raise (IndexError "list index out of range")
      end
  | _ => raise (TypeError "object is not subscriptable")
  end.

(** [l[i] = x] on a list that may be [None]. *)
Definition setitem {S} (l : option (list float)) (i : nat) (x : float) : M S (list float) :=
  match l with
  | None => raise (TypeError "object does not support item assignment")
  | Some l =>
      if (i <? length l)%nat then mret (<[i := x]> l)
      else raise (IndexError "list assignment index out of range")
  end.

(** The list an SDK call returned, if it is one. *)
Definition as_list (v : value) : option (list float) :=
  match v with
  | VList l => Some l
  | _ => None
  end.

(** A robot on which every SDK call succeeds; the gripper reports that it is
    active, and every other call returns [answer]. *)
Definition obliging (answer : value) : world :=
  {| oracle := fun _ => Returns answer; clock := 0; trace := [] |}.

(** A robot on which every SDK call fails with [e]. *)
Definition refusing (e : exn) : world :=
  {| oracle := fun _ => Raises e; clock := 0; trace := [] |}.

(** The SDK calls of a log, in order. *)
Fixpoint calls (l : list event) : list call :=
  match l with
  | [] => []
  | Called c _ :: l' => c :: calls l'
  | _ :: l' => calls l'
  end.

(** The positions the gripper was told to move to, in order. *)
Fixpoint gripper_positions (l : list event) : list Z :=
  match l with
  | [] => []
  | Called (gripper_move_and_wait_for_pos position _ _) _ :: l' =>
      position :: gripper_positions l'
  | _ :: l' => gripper_positions l'
  end.

End World.
Export World.

(* ===================================================================== *)
(** * ur_tools/gripper_controller.py *)
(* ===================================================================== *)

Module Gripper.

(** The fields of a [FingerGripperController].  [gripper] tells whether the
    attribute [self.gripper] exists.  [gripper_open] is no field of the class:
    it is the attribute that [ur_driver.py] assigns from outside, absent until
    then; the class itself reads [griper_open]. *)
Record FingerGripperController : Type := {
  host : str;
  PORT : Z;
  gripper : bool;
  gripper_close : Z;
  griper_open : Z;
  gripper_speed : Z;
  gripper_force : Z;
  acceleration : float;
  velocity : float;
  gripper_open : option Z
}.

Definition G (A : Type) : Type := M (FingerGripperController * world) A.

Definition self : G FingerGripperController := fun s => (Ok (fst s), s).

Definition set_gripper : G unit :=
  modify (fun s : FingerGripperController * world =>
            let g := fst s in
            ({| host := host g; PORT := PORT g; gripper := true;
                gripper_close := gripper_close g; griper_open := griper_open g;
                gripper_speed := gripper_speed g; gripper_force := gripper_force g;
                acceleration := acceleration g; velocity := velocity g;
                gripper_open := gripper_open g |}, snd s)).

(** A method of [self.gripper]: the attribute has to exist. *)
Definition on_gripper (c : call) : G value :=
  g ← self;
  if gripper g then sdk c
  else raise (AttributeError "'FingerGripperController' object has no attribute 'gripper'").

Definition connect_gripper : G unit :=
  connected ← try_except
    (sdk RobotiqGripper_new;;
     set_gripper;;
     print [Text (py "Connecting to gripper...")];;
     g ← self;
     on_gripper (gripper_connect (host g) (PORT g));;
     mret true)
    (fun err => print [Text (py "Gripper error: "); Err err];; mret false);
  if connected : bool then
    active ← on_gripper gripper_is_active;
    if truthy active then print [Text (py "Gripper already active")]
    else
      print [Text (py "Activating gripper...")];;
      on_gripper gripper_activate;;
      print [Text (py "Opening gripper...")];;
      g ← self;
      on_gripper (gripper_move_and_wait_for_pos (griper_open g) (gripper_speed g) (gripper_force g));;
      mret tt
  else mret tt.

(** [FingerGripperController(hostname, port, ur)]; [ur] tells whether a
    connection object was passed. *)
Definition init (hostname : str) (port : Z) (ur : bool) : M world FingerGripperController :=
  if negb ur then raise (Exception (py "UR connection is not established"))
  else
    let g := {| host := hostname; PORT := port; gripper := false;
                gripper_close := 130; griper_open := 0;
                gripper_speed := 150; gripper_force := 0;
                acceleration := 0.5; velocity := 0.2;
                gripper_open := None |} in
    fun w =>
      match connect_gripper (g, w) with
      | (Ok _, (g', w')) => (Ok g', w')
      | (Raise e, (_, w')) => (Raise e, w')
      | (Running, (_, w')) => (Running, w')
      end.

Definition disconnect_gripper : G unit :=
  closed ← try_except
    (on_gripper gripper_disconnect;; mret true)
    (fun err => print [Text (py "Gripper error: "); Err err];; mret false);
  if closed : bool then print [Text (py "Gripper conenction is closed")]
  else mret tt.

(** [-approach_distance] *)
Definition negate {S} (d : option float) : M S (option float) :=
  match d with
  | Some d => mret (Some (- d)%float)
  | None => raise (TypeError "bad operand type for unary -: 'NoneType'")
  end.

Section Methods.
Context {B : Builtins}.

(** The chain of comparisons that [pick] (lines 83-96) and [place] (lines
    120-133) both run: the axis index, [None] when no branch is taken, and
    the signed approach distance. *)
Definition select_axis {S} (approach_axis : option str) (approach_distance : option float)
  : M S (option nat * option float) :=
  match approach_axis with
  | None | Some [] => mret (Some 2, approach_distance)
  | Some a =>
      if Py.eqb (lower a) (py "z") then mret (Some 2, approach_distance)
      else if Py.eqb (lower a) (py "y") then mret (Some 1, approach_distance)
      else if Py.eqb (lower a) (py "-y") then
        d ← negate approach_distance; mret (Some 1, d)
      else if Py.eqb (lower a) (py "x") then mret (Some 0, approach_distance)
      else if Py.eqb (lower a) (py "-x") then
        d ← negate approach_distance; mret (Some 0, d)
      else mret (None, approach_distance)
  end.

(** Lines 83-99 and 120-136: the pose above the goal. *)
Definition above {S} (goal : option (list float)) (approach_axis : option str)
    (approach_distance : option float) : M S (list float) :=
  '(axis, approach_distance) ← select_axis approach_axis approach_distance;
  iadd_item goal axis approach_distance.

(** [pick] and [place] take every argument explicitly: a caller that leaves
    [approach_axis] or [approach_distance] out passes the defaults ["z"] and
    [0.05] of the signature. *)
Definition pick (pick_goal : option (list float)) (approach_axis : option str)
    (approach_distance : option float) : G unit :=
  match pick_goal with
  | Some ((_ :: _) as goal) =>
      above_goal ← above pick_goal approach_axis approach_distance;
      g ← self;
      print [Text (py "Moving to above goal position")];;
      sdk (ur_movel (Some above_goal) (acceleration g) (velocity g));;
      print [Text (py "Moving to goal position")];;
      sdk (ur_movel (Some goal) (acceleration g) (velocity g));;
      print [Text (py "Closing gripper")];;
      on_gripper (gripper_move_and_wait_for_pos (gripper_close g) (gripper_speed g) (gripper_force g));;
      print [Text (py "Moving back to above goal position")];;
      sdk (ur_movel (Some above_goal) (acceleration g) (velocity g));;
      mret tt
  | _ => raise (Exception (py "Please provide the source loaction"))
  end.

Definition place (place_goal : option (list float)) (approach_axis : option str)
    (approach_distance : option float) : G unit :=
  match place_goal with
  | Some ((_ :: _) as goal) =>
      above_goal ← above place_goal approach_axis approach_distance;
      g ← self;
      print [Text (py "Moving to above goal position")];;
      sdk (ur_movel (Some above_goal) (acceleration g) (velocity g));;
      print [Text (py "Moving to goal position")];;
      sdk (ur_movel (Some goal) (acceleration g) (velocity g));;
      print [Text (py "Opennig gripper")];;
      on_gripper (gripper_move_and_wait_for_pos (griper_open g) (gripper_speed g) (gripper_force g));;
      print [Text (py "Moving back to above goal position")];;
      sdk (ur_movel (Some above_goal) (acceleration g) (velocity g));;
      mret tt
  | _ => raise (Exception (py "Please provide the target loaction"))
  end.

Definition transfer (source target : option (list float))
    (source_approach_axis target_approach_axis : option str)
    (source_approach_distance target_approach_distance : option float) : G unit :=
  pick source source_approach_axis source_approach_distance;;
  print [Text (py "Pick up completed")];;
  place target target_approach_axis target_approach_distance;;
  print [Text (py "Place completed")].

End Methods.

(** ** Vocabulary of the statements below *)

(** The first thing [op] does from the state [(g, w)] is to announce and
    command a linear move to [pose], with the controller's own acceleration
    and velocity. *)
Definition moves_first_to (op : G unit) (g : FingerGripperController) (w : world)
    (pose : list float) : Prop :=
  exists rest,
    trace (snd (snd (op (g, w))))
    = trace w
      ++ Printed [Text (py "Moving to above goal position")]
      :: Called (ur_movel (Some pose) (acceleration g) (velocity g)) (oracle w (clock w))
      :: rest.

(** The axis names the comparisons of [pick] and [place] know. *)
Definition known_axes : list str := [py "z"; py "y"; py "-y"; py "x"; py "-x"].

(** A controller as the constructor leaves it once the gripper is connected. *)
Definition connected_controller : FingerGripperController :=
  {| host := py "146.137.240.38"; PORT := 63352; gripper := true;
     gripper_close := 130; griper_open := 0;
     gripper_speed := 150; gripper_force := 0;
     acceleration := 0.5; velocity := 0.2;
     gripper_open := None |}.

(** The goal pose of the scenario [pick at [0.1,0.2,0.3,0,0,0]]. *)
Definition scenario_pose : list float := [0.1; 0.2; 0.3; 0; 0; 0]%float.

(** The keyword parameters [transfer] accepts, and the methods the class has. *)
Definition transfer_parameters : list string :=
  ["source"; "target"; "source_approach_axis"; "target_approach_axis";
   "source_approach_distance"; "target_approach_distance"]%string.

Definition methods : list string :=
  ["connect_gripper"; "disconnect_gripper"; "pick"; "place"; "transfer"]%string.

(** The four SDK calls of a [pick] or a [place] that goes through: to the
    pose above the goal, to the goal, the gripper to [position], back up. *)
Definition visit (g : FingerGripperController) (pose goal : list float) (position : Z)
  : list call :=
  [ur_movel (Some pose) (acceleration g) (velocity g);
   ur_movel (Some goal) (acceleration g) (velocity g);
   gripper_move_and_wait_for_pos position (gripper_speed g) (gripper_force g);
   ur_movel (Some pose) (acceleration g) (velocity g)].

(** The SDK calls of [connect_gripper] up to the question whether the gripper
    is active, and the two that activate and open it. *)
Definition greeting (g : FingerGripperController) : list call :=
  [RobotiqGripper_new; gripper_connect (host g) (PORT g); gripper_is_active].

Definition activation (g : FingerGripperController) : list call :=
  [gripper_activate;
   gripper_move_and_wait_for_pos (griper_open g) (gripper_speed g) (gripper_force g)].

(** A controller whose gripper driver was never constructed. *)
Definition unconnected_controller : FingerGripperController :=
  {| host := py "146.137.240.38"; PORT := 63352; gripper := false;
     gripper_close := 130; griper_open := 0;
     gripper_speed := 150; gripper_force := 0;
     acceleration := 0.5; velocity := 0.2;
     gripper_open := None |}.

End Gripper.

(* ===================================================================== *)
(** * ur_driver.py: the class [Connection] *)
(* ===================================================================== *)

Module Link.

(** The fields of a [Connection].  [connection] tells whether
    [self.connection] holds a robot ([false] is [None]). *)
Record Connection : Type := {
  hostname : str;
  PORT : Z;
  connection : bool
}.

Definition C (A : Type) : Type := M (Connection * world) A.

Definition self : C Connection := fun s => (Ok (fst s), s).

(** [self.connection = r] for a robot [r]. *)
Definition set_connection : C unit :=
  modify (fun s : Connection * world =>
            ({| hostname := hostname (fst s); PORT := PORT (fst s); connection := true |},
             snd s)).

Section Methods.
Context {B : Builtins}.

(** Which exceptions are instances of [socket.error]. *)
Variable socket_error : exn -> bool.

(** One pass of the loop of [connect_ur] (lines 32-41).  The result tells
    whether the loop goes on: it does after a socket error, and the [else]
    branch leaves it with [break]. *)
Definition attempt : C bool :=
  connected ← try_except
    (sdk (external "urx.Robot");;
     set_connection;;
     mret true)
    (fun err =>
       if socket_error err then
         print [Text (py "Trying robot connection ...")];;
         sleep 10;;
         mret false
       else raise err);
  if connected : bool then
    print [Text (py "Successful ur connection")];;
    mret false
  else mret true.

(** [for i in range(passes)]: the passes of the loop that are left. *)
Fixpoint attempts (passes : nat) : C unit :=
  match passes with
  | 0 => mret tt
  | S passes' =>
      go_on ← attempt;
      if go_on : bool then attempts passes' else mret tt
  end.

Definition connect_ur : C unit := attempts 10.

Definition disconnect_ur : C unit :=
  c ← self;
  if connection c then
    sdk (external "connection.close");;
    print [Text (py "Robot connection is closed.")]
  else raise (AttributeError "'NoneType' object has no attribute 'close'").

(** [Connection(hostname, PORT)] *)
Definition init (hostname : str) (PORT : Z) : M world Connection :=
  fun w =>
    match connect_ur ({| hostname := hostname; PORT := PORT; connection := false |}, w) with
    | (Ok _, (c, w')) => (Ok c, w')
    | (Raise e, (_, w')) => (Raise e, w')
    | (Running, (_, w')) => (Running, w')
    end.

End Methods.

(** ** Vocabulary of the statements below *)

(** What [k] attempts that end in a socket error leave in the log of [w]: the
    call, the message and a sleep of ten seconds each. *)
Fixpoint refusals (w : world) (k : nat) : list event :=
  match k with
  | 0 => []
  | S k' =>
      refusals w k'
      ++ [Called (external "urx.Robot") (oracle w (clock w + k'));
          Printed [Text (py "Trying robot connection ...")];
          Slept 10]
  end.

(** The [k] SDK calls from [w] on all fail with a socket error. *)
Definition refused (socket_error : exn -> bool) (w : world) (k : nat) : Prop :=
  forall j, j < k ->
    exists e, oracle w (clock w + j) = Raises e /\ socket_error e = true.

(** The world after [k] more SDK calls that have left [l] in the log. *)
Definition later (w : world) (k : nat) (l : list event) : world :=
  {| oracle := oracle w; clock := clock w + k; trace := trace w ++ l |}.

(** Timeouts as the only socket errors. *)
Definition timeouts (e : exn) : bool :=
  match e with
  | Foreign cls _ => String.eqb cls "socket.timeout"
  | _ => false
  end.

Definition timed_out : exn := Foreign "socket.timeout" (py "timed out").

(** A robot that answers from the [k]-th SDK call on, and times out before. *)
Definition late (k : nat) : world :=
  {| oracle := fun j => if (j <? k)%nat then Raises timed_out else Returns VNone;
     clock := 0; trace := [] |}.

(** Only the first SDK call is answered; every later one times out. *)
Definition early : world :=
  {| oracle := fun j => match j with 0 => Returns VNone | _ => Raises timed_out end;
     clock := 0; trace := [] |}.

(** A connection object that holds no robot. *)
Definition unconnected : Connection :=
  {| hostname := py "164.54.116.129"; PORT := 29999; connection := false |}.

End Link.

(* ===================================================================== *)
(** * ur_driver.py *)
(* ===================================================================== *)

Module Driver.

(** The fields of a [UR] instance that the task methods read or write. *)
Record UR : Type := {
  hostname : str;
  acceleration : float;
  velocity : float;
  robot_current_joint_angles : option (list str)
}.

(** The module-level names two task methods refer to.  They are bound only
    when the file runs as a script: [hex_key] to a pose, [robot] to the facade. *)
Record globals : Type := {
  hex_key : option (list float);
  robot : bool
}.

(** The state a task method runs in: the instance, the module globals, the
    method's local [gripper_controller] ([None] while it is unbound) and the
    world. *)
Record frame : Type := {
  this : UR;
  module : globals;
  gripper_controller : option Gripper.FingerGripperController;
  outside : world
}.

#[global] Instance frame_HasWorld : HasWorld frame :=
  {| world_of := outside;
     with_world := fun w f =>
       {| this := this f; module := module f;
          gripper_controller := gripper_controller f; outside := w |} |}.

Definition T (A : Type) : Type := M frame A.

(** [gripper_controller = c], where [c] constructs the controller. *)
Definition assign_gripper_controller (c : M world Gripper.FingerGripperController) : T unit :=
  fun f =>
    match c (outside f) with
    | (Ok g, w) =>
        (Ok tt, {| this := this f; module := module f;
                   gripper_controller := Some g; outside := w |})
    | (Raise e, w) => (Raise e, with_world w f)
    | (Running, w) => (Running, with_world w f)
    end.

(** [gripper_controller.m(...)]: the local has to be bound; what the method
    does to the controller stays done whatever its outcome. *)
Definition on_gripper_controller {A} (m : Gripper.G A) : T A :=
  fun f =>
    match gripper_controller f with
    | None => (Raise (UnboundLocalError "gripper_controller"), f)
    | Some g =>
        match m (g, outside f) with
        | (r, (g', w)) =>
            (r, {| this := this f; module := module f;
                   gripper_controller := Some g'; outside := w |})
        end
    end.

(** [gripper_controller.gripper_open = v] and [gripper_controller.gripper_close = v] *)
Definition set_gripper_open (v : option Z) : Gripper.G unit :=
  modify (fun s : Gripper.FingerGripperController * world =>
            let g := fst s in
            ({| Gripper.host := Gripper.host g; Gripper.PORT := Gripper.PORT g;
                Gripper.gripper := Gripper.gripper g;
                Gripper.gripper_close := Gripper.gripper_close g;
                Gripper.griper_open := Gripper.griper_open g;
                Gripper.gripper_speed := Gripper.gripper_speed g;
                Gripper.gripper_force := Gripper.gripper_force g;
                Gripper.acceleration := Gripper.acceleration g;
                Gripper.velocity := Gripper.velocity g;
                Gripper.gripper_open := v |}, snd s)).

Definition set_gripper_close (v : Z) : Gripper.G unit :=
  modify (fun s : Gripper.FingerGripperController * world =>
            let g := fst s in
            ({| Gripper.host := Gripper.host g; Gripper.PORT := Gripper.PORT g;
                Gripper.gripper := Gripper.gripper g;
                Gripper.gripper_close := v;
                Gripper.griper_open := Gripper.griper_open g;
                Gripper.gripper_speed := Gripper.gripper_speed g;
                Gripper.gripper_force := Gripper.gripper_force g;
                Gripper.acceleration := Gripper.acceleration g;
                Gripper.velocity := Gripper.velocity g;
                Gripper.gripper_open := Gripper.gripper_open g |}, snd s)).

(** Lines 144-147 (and their copies in the other gripper tasks). *)
Definition override (gripper_open gripper_close : option Z) : T unit :=
  (if nonzero gripper_open then on_gripper_controller (set_gripper_open gripper_open)
   else mret tt);;
  (if nonzero gripper_close then
     on_gripper_controller (set_gripper_close (default 0%Z gripper_close))
   else mret tt).

(** A call with keyword arguments [keywords] to a method whose parameters are
    [parameters]: an unknown keyword raises before the body runs. *)
Definition with_keywords {S A} (parameters keywords : list string) (body : M S A) : M S A :=
  if forallb (fun k => existsb (String.eqb k) parameters) keywords then body
  else raise (TypeError "got an unexpected keyword argument").

(** [gripper_controller.name()]: the attribute lookup, which raises for a name
    the class does not define ([open_gripper] and [close_gripper] are such
    names). *)
Definition method_lookup (name : string) : Gripper.G unit :=
  if existsb (String.eqb name) Gripper.methods then mret tt
  else raise (AttributeError name).

Definition default_home : list float :=
  [-1.355567757283346; -2.5413090191283167; 1.8447726408587855;
   -0.891581193809845; -1.5595606009112757; 3.3403327465057373]%float.

Definition home (home_location : option (list float)) : T unit :=
  print [Text (py "Homing the robot...")];;
  let home_loc := match home_location with
                  | Some ((_ :: _) as l) => l
                  | _ => default_home
                  end in
  sdk (ur_movej home_loc 2 2);;
  print [Text (py "Robot homed")].

(** [math.radians] *)
Definition radians (x : float) : float := (x * (3.141592653589793 / 180))%float.

Section Tasks.
Context {B : Builtins}.

(** The first two statements of every gripper task:
    [gripper_controller = FingerGripperController(hostname = self.hostname,
    ur = self.ur_connection)] and [gripper_controller.connect_gripper()]. *)
Definition new_gripper_controller : T unit :=
  f ← get;
  assign_gripper_controller (Gripper.init (hostname (this f)) 63352 true);;
  on_gripper_controller Gripper.connect_gripper.

(** ** gripper_transfer *)

Definition gripper_transfer_try
    (home_ source target : option (list float))
    (source_approach_axis target_approach_axis : option str)
    (source_approach_distance target_approach_distance : option float)
    (gripper_open gripper_close : option Z) : T unit :=
  new_gripper_controller;;
  override gripper_open gripper_close;;
  on_gripper_controller
    (with_keywords Gripper.transfer_parameters
       ["home"; "source"; "target"; "source_approach_axis"; "target_approach_axis";
        "source_approach_distance"; "target_approach_distance"]%string
       (Gripper.transfer source target source_approach_axis target_approach_axis
          source_approach_distance target_approach_distance));;
  print [Text (py "Finished transfer")];;
  on_gripper_controller Gripper.disconnect_gripper.

Definition gripper_transfer
    (home_ source target : option (list float))
    (source_approach_axis target_approach_axis : option str)
    (source_approach_distance target_approach_distance : option float)
    (gripper_open gripper_close : option Z) : T unit :=
  if negb (given source) || negb (given target) then
    raise (Exception (py "Please provide both the source and target loactions to make a transfer"))
  else
    home home_;;
    try_finally
      (try_except
         (gripper_transfer_try home_ source target source_approach_axis
            target_approach_axis source_approach_distance target_approach_distance
            gripper_open gripper_close)
         (fun err => print [Err err]))
      (on_gripper_controller Gripper.disconnect_gripper;;
       home home_).

(** ** gripper_screw_transfer *)

Definition gripper_screw_transfer_try
    (home_ target screwdriver_loc screw_loc : option (list float)) (screw_time : float)
    (gripper_open gripper_close : option Z) : T unit :=
  new_gripper_controller;;
  override gripper_open gripper_close;;
  on_gripper_controller (Gripper.pick screwdriver_loc (Some (py "z")) (Some 0.05%float));;
  home home_;;
  f ← get;
  above_goal ← iadd_item screw_loc (Some 2) (Some 0.06%float);
  sdk (ur_movel (Some above_goal) (acceleration (this f)) (velocity (this f)));;
  sdk (ur_movel screw_loc 0.2 0.2);;
  sdk (ur_movel (Some above_goal) (acceleration (this f)) (velocity (this f)));;
  above_target ← iadd_item target (Some 2) (Some 0.03%float);
  sdk (ur_movel (Some above_target) (acceleration (this f)) (velocity (this f)));;
  sdk (ur_movel target 0.2 0.2);;
  let target_pose := [0; 0; 0.00021; 0; 0; 3.14]%float in
  print [Text (py "Screwing down")];;
  sdk (ur_speedl_tool target_pose 2 screw_time);;
  sleep (screw_time + 0.5)%float;;
  sdk (ur_translate_tool [0; 0; -0.03]%float 0.5 0.5);;
  home home_;;
  match hex_key (module f) with
  | None => raise (NameError "hex_key")
  | Some key =>
      on_gripper_controller (Gripper.place (Some key) (Some (py "z")) (Some 0.05%float))
  end;;
  home home_.

Definition gripper_screw_transfer
    (home_ target screwdriver_loc screw_loc : option (list float)) (screw_time : float)
    (gripper_open gripper_close : option Z) : T unit :=
  home home_;;
  try_finally
    (try_except
       (gripper_screw_transfer_try home_ target screwdriver_loc screw_loc screw_time
          gripper_open gripper_close)
       (fun err => print [Err err]))
    (on_gripper_controller Gripper.disconnect_gripper).

(** ** remove_cap *)

Definition remove_cap_try (home_ source target : option (list float))
    (gripper_open gripper_close : option Z) : T unit :=
  new_gripper_controller;;
  override gripper_open gripper_close;;
  on_gripper_controller (method_lookup "open_gripper");;
  f ← get;
  above_goal ← iadd_item source (Some 2) (Some 0.06%float);
  sdk (ur_movel (Some above_goal) (acceleration (this f)) (velocity (this f)));;
  sdk (ur_movel source 0.2 0.2);;
  on_gripper_controller (method_lookup "close_gripper");;
  let target_pose := [0; 0; -0.001; 0; 0; -3.14]%float in
  print [Text (py "Removing cap")];;
  let screw_time := 7%float in
  sdk (ur_speedl_tool target_pose 2 screw_time);;
  sleep (screw_time + 0.5)%float;;
  sdk (ur_translate_tool [0; 0; -0.03]%float 0.5 0.5);;
  home home_;;
  on_gripper_controller (Gripper.place target (Some (py "z")) (Some 0.05%float));;
  home home_.

Definition remove_cap (home_ source target : option (list float))
    (gripper_open gripper_close : option Z) : T unit :=
  home home_;;
  try_except
    (remove_cap_try home_ source target gripper_open gripper_close)
    (fun err => print [Err err]).

(** ** place_cap *)

Definition place_cap_try (home_ source target : option (list float))
    (gripper_open gripper_close : option Z) : T unit :=
  new_gripper_controller;;
  override gripper_open gripper_close;;
  on_gripper_controller (Gripper.pick source (Some (py "z")) (Some 0.05%float));;
  home home_;;
  f ← get;
  above_goal ← iadd_item target (Some 2) (Some 0.06%float);
  sdk (ur_movel (Some above_goal) (acceleration (this f)) (velocity (this f)));;
  sdk (ur_movel target 0.1 0.1);;
  let target_pose := [0; 0; 0.0001; 0; 0; 3.14]%float in
  print [Text (py "Placing cap")];;
  let screw_time := 6%float in
  sdk (ur_speedl_tool target_pose 2 screw_time);;
  sleep (screw_time + 0.5)%float;;
  on_gripper_controller (method_lookup "open_gripper");;
  sdk (ur_translate_tool [0; 0; -0.03]%float 0.5 0.5);;
  home home_.

Definition place_cap (home_ source target : option (list float))
    (gripper_open gripper_close : option Z) : T unit :=
  home home_;;
  try_except
    (place_cap_try home_ source target gripper_open gripper_close)
    (fun err => print [Err err]).

(** ** pick_and_flip_object *)

Definition pick_and_flip_object_try (home_ target : option (list float))
    (approach_axis : option str) (target_approach_distance : option float)
    (gripper_open gripper_close : option Z) : T unit :=
  new_gripper_controller;;
  override gripper_open gripper_close;;
  on_gripper_controller (Gripper.pick target approach_axis (Some 0.05%float));;
  cur_j ← sdk ur_getj;
  rotate_j ← iadd_item (as_list cur_j) (Some 5) (Some (radians 180));
  f ← get;
  (if robot (module f) then sdk (ur_movej rotate_j 0.6 0.6)
   else raise (NameError "robot"));;
  cur_l ← sdk ur_getl;
  x ← getitem cur_l 3;
  target ← setitem target 3 x;
  x ← getitem cur_l 4;
  target ← setitem (Some target) 4 x;
  x ← getitem cur_l 5;
  target ← setitem (Some target) 5 x;
  on_gripper_controller (Gripper.place (Some target) approach_axis (Some 0.05%float));;
  home home_.

Definition pick_and_flip_object (home_ target : option (list float))
    (approach_axis : option str) (target_approach_distance : option float)
    (gripper_open gripper_close : option Z) : T unit :=
  home home_;;
  try_finally
    (try_except
       (pick_and_flip_object_try home_ target approach_axis target_approach_distance
          gripper_open gripper_close)
       (fun er => print [Err er]))
    (on_gripper_controller Gripper.disconnect_gripper).

(** ** robotiq_screwdriver_transfer: the screwdriver controller is outside the
    embedded sources, its constructor and methods are SDK calls. *)

Definition robotiq_screwdriver_transfer_try : T unit :=
  sdk (external "ScrewdriverController");;
  sdk (external "sr.screwdriver.activate_screwdriver");;
  sdk (external "sr.transfer");;
  sdk (external "sr.screwdriver.disconnect");;
  mret tt.

Definition robotiq_screwdriver_transfer (home_ : option (list float)) : T unit :=
  home home_;;
  try_except robotiq_screwdriver_transfer_try (fun err => print [Err err]);;
  home home_.

(** ** pipette_transfer: the pipette controller is outside the embedded
    sources as well. *)

Definition pipette_transfer_try (home_ : option (list float)) : T unit :=
  sdk (external "TricontinentPipetteController");;
  sdk (external "pipette.connect_pipette");;
  sdk (external "pipette.pick_tip");;
  home home_;;
  sdk (external "pipette.transfer_sample");;
  sdk (external "pipette.eject_tip");;
  sdk (external "pipette.disconnect_pipette");;
  print [Text (py "Disconnecting from the pipette")].

Definition pipette_transfer (home_ tip_loc source : option (list float)) : T unit :=
  if negb (given tip_loc) || negb (given source) then
    raise (Exception (py "Please provide both the source and target loactions to make a transfer"))
  else
    try_finally
      (try_except (pipette_transfer_try home_) (fun err => print [Err err]))
      (mret tt).

(** ** get_movement_state and run_urp_program.  The dashboard client that
    [ur_driver.py] imports is not the one embedded above (it is constructed
    with [hostname] and has [transfer_program]); its methods are SDK calls
    here. *)

Definition set_angles (a : list str) : T unit :=
  modify (fun f =>
            {| this := {| hostname := hostname (this f);
                          acceleration := acceleration (this f);
                          velocity := velocity (this f);
                          robot_current_joint_angles := Some a |};
               module := module f;
               gripper_controller := gripper_controller f;
               outside := outside f |}).

Fixpoint angles_eqb (a b : list str) : bool :=
  match a, b with
  | [], [] => true
  | x :: a', y :: b' => Py.eqb x y && angles_eqb a' b'
  | _, _ => false
  end.

Definition get_movement_state : T str :=
  current_location ← sdk ur_getj;
  current_location ←
    match current_location with
    | VList l => mret (List.map fmt2f l)
    | _ => raise (TypeError "object is not iterable")
    end;
  f ← get;
  let movement_state :=
    match robot_current_joint_angles (this f) with
    | Some previous =>
        if angles_eqb previous current_location then py "READY" else py "BUSY"
    | None => py "BUSY"
    end in
  set_angles current_location;;
  mret movement_state.

(** One pass through the body of the [while] loop (lines 402-408). *)
Definition poll (program_status : str) (ready_status_count : Z) : T (str * Z) :=
  movement_state ← get_movement_state;
  let '(program_status, ready_status_count) :=
    if Py.eqb movement_state (py "READY") then
      let ready_status_count := (ready_status_count + 1)%Z in
      (if (6 <=? ready_status_count)%Z then py "READY" else program_status,
       ready_status_count)
    else (program_status, 0%Z) in
  sleep 3;;
  mret (program_status, ready_status_count).

(** The [while program_status == "BUSY"] loop; [fuel] bounds the passes. *)
Fixpoint polling (fuel : nat) (program_status : str) (ready_status_count : Z) : T unit :=
  if Py.eqb program_status (py "BUSY") then
    match fuel with
    | 0 => fun f => (Running, f)
    | S fuel' =>
        '(program_status, ready_status_count) ← poll program_status ready_status_count;
        polling fuel' program_status ready_status_count
    end
  else mret tt.

Definition run_urp_program (fuel : nat) (transfer_file_path program_name : option str)
  : T (list (str * str)) :=
  match program_name with
  | Some ((_ :: _) as program_name) =>
      let ur_program_path := py "/programs/" ++ program_name in
      match transfer_file_path with
      | Some (_ :: _) => sdk (external "ur_dashboard.transfer_program");; sleep 2
      | _ => mret tt
      end;;
      sdk (external "ur_dashboard.load_program");;
      sleep 2;;
      sdk (external "ur_dashboard.run_program");;
      sleep 5;;
      print [Text (py "Running the URP program: "); Text program_name];;
      let time_elapsed := 0%N in
      polling fuel (py "BUSY") 0;;
      mret [(py "output_code", py "0");
            (py "output_msg", py "Successfully finished " ++ program_name);
            (py "output_log", py "seconds_elapsed:" ++ decimal time_elapsed)]
  | _ => raise (ValueError (py "Provide program name!"))
  end.

(** ** The task methods as one family *)

(** A call of one of the seven task methods, with its arguments. *)
Inductive task : Type :=
| GripperTransfer (home_ source target : option (list float))
    (source_approach_axis target_approach_axis : option str)
    (source_approach_distance target_approach_distance : option float)
    (gripper_open gripper_close : option Z)
| GripperScrewTransfer (home_ target screwdriver_loc screw_loc : option (list float))
    (screw_time : float) (gripper_open gripper_close : option Z)
| RemoveCap (home_ source target : option (list float)) (gripper_open gripper_close : option Z)
| PlaceCap (home_ source target : option (list float)) (gripper_open gripper_close : option Z)
| PickAndFlipObject (home_ target : option (list float)) (approach_axis : option str)
    (target_approach_distance : option float) (gripper_open gripper_close : option Z)
| RobotiqScrewdriverTransfer (home_ : option (list float))
| PipetteTransfer (home_ tip_loc source : option (list float)).

Definition run (t : task) : T unit :=
  match t with
  | GripperTransfer h s tg sa ta sd td go gc => gripper_transfer h s tg sa ta sd td go gc
  | GripperScrewTransfer h tg sl sc st go gc => gripper_screw_transfer h tg sl sc st go gc
  | RemoveCap h s tg go gc => remove_cap h s tg go gc
  | PlaceCap h s tg go gc => place_cap h s tg go gc
  | PickAndFlipObject h tg a d go gc => pick_and_flip_object h tg a d go gc
  | RobotiqScrewdriverTransfer h => robotiq_screwdriver_transfer h
  | PipetteTransfer h tip s => pipette_transfer h tip s
  end.

(** What a task method does before its [try]: the argument check and the
    first homing move, where it has them. *)
Definition entry (t : task) : T unit :=
  match t with
  | GripperTransfer h s tg _ _ _ _ _ _ =>
      if negb (given s) || negb (given tg) then
        raise (Exception (py "Please provide both the source and target loactions to make a transfer"))
      else home h
  | PipetteTransfer _ tip s =>
      if negb (given tip) || negb (given s) then
        raise (Exception (py "Please provide both the source and target loactions to make a transfer"))
      else mret tt
  | GripperScrewTransfer h _ _ _ _ _ _ | RemoveCap h _ _ _ _ | PlaceCap h _ _ _ _
  | PickAndFlipObject h _ _ _ _ _ | RobotiqScrewdriverTransfer h => home h
  end.

(** The body of its [try]. *)
Definition attempt (t : task) : T unit :=
  match t with
  | GripperTransfer h s tg sa ta sd td go gc => gripper_transfer_try h s tg sa ta sd td go gc
  | GripperScrewTransfer h tg sl sc st go gc => gripper_screw_transfer_try h tg sl sc st go gc
  | RemoveCap h s tg go gc => remove_cap_try h s tg go gc
  | PlaceCap h s tg go gc => place_cap_try h s tg go gc
  | PickAndFlipObject h tg a d go gc => pick_and_flip_object_try h tg a d go gc
  | RobotiqScrewdriverTransfer h => robotiq_screwdriver_transfer_try
  | PipetteTransfer h _ _ => pipette_transfer_try h
  end.

(** What it does once its handler has printed an exception: the [finally]
    block, or the statement after the [try], or nothing. *)
Definition aftermath (t : task) : T unit :=
  match t with
  | GripperTransfer h _ _ _ _ _ _ _ _ =>
      on_gripper_controller Gripper.disconnect_gripper;; home h
  | GripperScrewTransfer _ _ _ _ _ _ _ | PickAndFlipObject _ _ _ _ _ _ =>
      on_gripper_controller Gripper.disconnect_gripper
  | RobotiqScrewdriverTransfer h => home h
  | RemoveCap _ _ _ _ _ | PlaceCap _ _ _ _ _ | PipetteTransfer _ _ _ => mret tt
  end.

(** The handler of every task method: [print(err)]. *)
Definition printed (e : exn) (f : frame) : frame :=
  with_world (record (Printed [Err e]) (outside f)) f.

(** ** Polling, as the statements below speak of it *)

(** The formatted joint angles that the [j]-th poll from [f] on reads. *)
Definition polled (f : frame) (j : nat) : option (list str) :=
  match oracle (outside f) (clock (outside f) + j) with
  | Returns (VList l) => Some (List.map fmt2f l)
  | _ => None
  end.

(** The joint angles remembered when the [j]-th poll starts. *)
Definition remembered (f : frame) (j : nat) : option (list str) :=
  match j with
  | 0 => robot_current_joint_angles (this f)
  | Datatypes.S i => polled f i
  end.

(** The [j]-th poll reports READY, as [get_movement_state] computes it. *)
Definition unchanged (f : frame) (j : nat) : bool :=
  match remembered f j, polled f j with
  | Some previous, Some current => angles_eqb previous current
  | _, _ => false
  end.

(** The [j]-th poll finds the joint angles unchanged: it reads the angles
    that were remembered, the same texts in the same order once formatted
    with two decimals. *)
Definition same_reading (f : frame) (j : nat) : Prop :=
  exists angles, remembered f j = Some angles /\ polled f j = Some angles.

(** The six polls [n-5 .. n] all find the joint angles unchanged. *)
Definition six_ready (f : frame) (n : nat) : Prop :=
  5 <= n /\ forall i, n - 5 <= i <= n -> same_reading f i.

(** What [k] polls from [f] on leave in the log: a [getj] and a sleep of three
    seconds each. *)
Fixpoint polls_log (f : frame) (k : nat) : list event :=
  match k with
  | 0 => []
  | Datatypes.S k' =>
      polls_log f k'
      ++ [Called ur_getj (oracle (outside f) (clock (outside f) + k')); Slept 3]
  end.

(** The value of [ready_status_count] when the [k]-th poll starts, as long
    as the loop runs: the number of READY polls in a row just before it. *)
Fixpoint ready_count (f : frame) (k : nat) : Z :=
  match k with
  | 0 => 0
  | Datatypes.S i => if unchanged f i then (ready_count f i + 1)%Z else 0%Z
  end.

(** The facade after [k] polls from [f] on. *)
Definition after_polls (f : frame) (k : nat) : frame :=
  {| this := {| hostname := hostname (this f);
                acceleration := acceleration (this f);
                velocity := velocity (this f);
                robot_current_joint_angles := remembered f k |};
     module := module f;
     gripper_controller := gripper_controller f;
     outside := {| oracle := oracle (outside f);
                   clock := clock (outside f) + k;
                   trace := trace (outside f) ++ polls_log f k |} |}.

End Tasks.

Section Construction.
Context {B : Builtins}.
Variable socket_error : exn -> bool.

(** The facade as the constructor has it when it calls [get_movement_state]
    (lines 67-81); the module-level names are not bound yet when the script
    constructs the facade. *)
Definition under_construction (name : str) (w : world) : frame :=
  {| this := {| hostname := name; acceleration := 0.5; velocity := 0.5;
                robot_current_joint_angles := None |};
     module := {| hex_key := None; robot := false |};
     gripper_controller := None;
     outside := w |}.

(** Line 82: [self.get_movement_state()] on the facade under construction,
    which is then the facade the constructor returns. *)
Definition first_reading (name : str) : M world UR :=
  fun w =>
    match get_movement_state (under_construction name w) with
    | (Ok _, f) => (Ok (this f), outside f)
    | (Raise e, f) => (Raise e, outside f)
    | (Running, f) => (Running, outside f)
    end.

(** [UR(hostname, PORT)] (lines 62-82).  The dashboard client is constructed
    by an SDK call, as its methods are called in [run_urp_program]. *)
Definition init (hostname : option str) (PORT : Z) : M world UR :=
  match hostname with
  | Some ((_ :: _) as name) =>
      sdk (external "UR_DASHBOARD");;
      ur ← Link.init socket_error name PORT;
      (if Link.connection ur then sdk (external "ur_connection.set_tcp");; mret tt
       else raise (AttributeError "'NoneType' object has no attribute 'set_tcp'"));;
      first_reading name
  | _ => raise (TypeError "Hostname cannot be None Type!")
  end.

End Construction.

(** ** Kinds of events *)

(** The events a transfer is made of: a linear move of the arm, and the
    message that ends it. *)
Definition transfer_event (e : event) : bool :=
  match e with
  | Called (ur_movel _ _ _) _ => true
  | Printed [Text t] => Py.eqb t (py "Finished transfer")
  | _ => false
  end.

(** Motion of the tool other than a joint move. *)
Definition tool_motion (e : event) : bool :=
  match e with
  | Called (ur_movel _ _ _) _
  | Called (ur_speedl_tool _ _ _) _
  | Called (ur_translate_tool _ _ _) _ => true
  | _ => false
  end.

(** The tool drawing back along its own axis. *)
Definition retraction (e : event) : bool :=
  match e with
  | Called (ur_translate_tool _ _ _) _ => true
  | _ => false
  end.

(** The message by which [place] announces that it opens the gripper. *)
Definition placing (e : event) : bool :=
  match e with
  | Printed [Text t] => Py.eqb t (py "Opennig gripper")
  | _ => false
  end.

(** The log that [run_urp_program] returns for the program [program_name]. *)
Definition success_log (program_name : str) : list (str * str) :=
  [(py "output_code", py "0");
   (py "output_msg", py "Successfully finished " ++ program_name);
   (py "output_log", py "seconds_elapsed:0")].

(** ** The script at the end of the file *)

Definition script_home : list float :=
  [0.5431541204452515; -1.693524023095602; -0.7301170229911804;
   -2.2898713550963343; 1.567720651626587; -1.0230830351458948]%float.

Definition script_hex_key : list float :=
  [0.40061621427107863; -0.19851389684726614; 0.2185475541919895;
   3.1374987322951102; -0.009368331063787221; -0.0007768712432287358]%float.

Definition script_cell_screw : list float :=
  [0.28742456966563107; -0.2863121497438419; 0.3180272525328063;
   3.1380212198586985; -0.009448362088018303; -0.0006280218794236092]%float.

Definition script_assembly_above : list float :=
  [0.31914521296697795; -0.2855210106568889; 0.3477093639368639;
   3.1380580674341614; -0.009396149170921641; -0.0006625851593942707]%float.

Definition script_cell_holder : list float :=
  [0.43785674873555014; -0.1363043381282072; 0.21998506102422555;
   3.1380513355558466; -0.009323037734842953; -0.0006690858747472434]%float.

Definition script_assembly_deck : list float :=
  [0.3174903285108201; -0.08258211007606345; 0.11525282484663647;
   1.2274734115134542; 1.190534780943193; -1.1813375188608897]%float.

Definition script_vial_cap : list float :=
  [0.46318998963189156; -0.0618242346521575; 0.22044247577669074;
   3.1380871312109466; -0.009283145361593024; -0.0008304449494246685]%float.

Definition script_vial_cap_holder : list float :=
  [0.3496362594442045; -0.19833129786349898; 0.21851956360142491;
   3.1380370691898447; -0.00907338154155439; -0.0006817652068428923]%float.

(** Joint angles of an arm at rest. *)
Definition resting_joints : list float :=
  [-1.36; -2.54; 1.84; -0.89; -1.56; 3.34]%float.

(** A facade that has not read the joint angles yet, on an arm at rest:
    every [getj] answers the same angles. *)
Definition resting_frame : frame :=
  {| this := {| hostname := py "164.54.116.129"; acceleration := 0.5; velocity := 0.5;
                robot_current_joint_angles := None |};
     module := {| hex_key := None; robot := false |};
     gripper_controller := None;
     outside := obliging (VList resting_joints) |}.

(** Joint angles of the same arm a moment before it comes to rest. *)
Definition arriving_joints : list float :=
  [-1.36; -2.54; 1.79; -0.89; -1.56; 3.34]%float.

(** A facade that has not read the joint angles yet, on an arm that comes to
    rest between the second and the third [getj]. *)
Definition settling_frame : frame :=
  {| this := {| hostname := py "164.54.116.129"; acceleration := 0.5; velocity := 0.5;
                robot_current_joint_angles := None |};
     module := {| hex_key := None; robot := false |};
     gripper_controller := None;
     outside := {| oracle := fun k => Returns (VList (if k <? 2 then arriving_joints
                                                      else resting_joints));
                   clock := 0;
                   trace := [] |} |}.

(** The facade as the script runs it, on a robot on which every call
    succeeds and the gripper is already active. *)
Definition script_frame : frame :=
  {| this := {| hostname := py "164.54.116.129"; acceleration := 0.5; velocity := 0.5;
                robot_current_joint_angles := None |};
     module := {| hex_key := Some script_hex_key; robot := true |};
     gripper_controller := None;
     outside := obliging (VBool true) |}.

(** The same facade on a robot whose gripper stops answering after the
    connect: the fourth SDK call of a task, [is_active] in the constructor of
    the controller, times out. *)
Definition mute_gripper_frame : frame :=
  {| this := this script_frame;
     module := module script_frame;
     gripper_controller := None;
     outside := {| oracle := fun k =>
                     if Nat.eqb k 3 then Raises (Foreign "socket.timeout" (py "timed out"))
                     else Returns (VBool true);
                   clock := 0; trace := [] |} |}.

(** The facade in a program that imports the module: the names that the
    script binds at module level are not bound. *)
Definition library_frame : frame :=
  {| this := this script_frame;
     module := {| hex_key := None; robot := false |};
     gripper_controller := None;
     outside := obliging (VBool true) |}.

(** The call of [gripper_transfer] in the script (line 459). *)
Definition script_gripper_transfer : task :=
  GripperTransfer (Some script_home) (Some script_cell_holder) (Some script_assembly_deck)
    (Some (py "z")) (Some (py "y")) None None (Some 190%Z) (Some 240%Z).

(** The call of [remove_cap] in the script (line 462). *)
Definition script_remove_cap : task :=
  RemoveCap (Some script_home) (Some script_vial_cap) (Some script_vial_cap_holder)
    (Some 120%Z) (Some 200%Z).

End Driver.

(* ===================================================================== *)
(** * What a computation can leave in the log *)
(* ===================================================================== *)

Module Footprint.

(** The world that was put into a state is the world got out of it. *)
Class Lawful (S : Type) `{HasWorld S} : Prop :=
  get_put : forall (w : world) (s : S), world_of (with_world w s) = w.

#[global] Instance world_Lawful : Lawful world := fun _ _ => eq_refl.

#[global] Instance pair_Lawful {X} : Lawful (X * world) := fun _ _ => eq_refl.

#[global] Instance frame_Lawful : Lawful Driver.frame := fun _ _ => eq_refl.

Section Only.
Context {S : Type} `{Lawful S}.

(** Whatever the state and the outcome, [m] adds to the log only events that
    satisfy [P]. *)
Definition only {A} (P : event -> Prop) (m : M S A) : Prop :=
  forall s, exists l,
    trace (world_of (snd (m s))) = trace (world_of s) ++ l /\ Forall P l.

(** [m] never returns. *)
Definition stops {A} (m : M S A) : Prop :=
  forall s a, fst (m s) <> Ok a.

End Only.


(** Neither motion of the tool, nor the end of a transfer, nor the opening of
    the gripper by [place]. *)
Definition calm (e : event) : Prop :=
  Driver.tool_motion e = false /\ Driver.transfer_event e = false
  /\ Driver.placing e = false.

(** [m] leaves the module-level names as they are. *)
Definition keeps_module {A} (m : Driver.T A) : Prop :=
  forall f, Driver.module (snd (m f)) = Driver.module f.

(** From a frame whose module-level names satisfy [I], [m] adds to the log
    only events that satisfy [P]. *)
Definition only_from {A} (I : Driver.globals -> Prop) (P : event -> Prop)
    (m : Driver.T A) : Prop :=
  forall f, I (Driver.module f) ->
    exists l,
      trace (Driver.outside (snd (m f))) = trace (Driver.outside f) ++ l /\ Forall P l.

End Footprint.

(* ===================================================================== *)
(** * Facts about Python text *)
(* ===================================================================== *)

Module PyFacts.

Lemma eqb_eq (a b : str) : Py.eqb a b = true <-> a = b.
Proof.
  revert b; induction a as [|x a IH]; intros [|y b]; simpl; try easy.
  rewrite andb_true_iff, N.eqb_eq, IH. split.
  - intros [-> ->]; reflexivity.
  - intros [= -> ->]; auto.
Qed.

Lemma eqb_neq (a b : str) : Py.eqb a b = false <-> a <> b.
Proof.
  rewrite <- eqb_eq. destruct (Py.eqb a b); split; congruence.
Qed.

Lemma startswith_spec (s p : str) :
  startswith s p = true <-> exists post, s = p ++ post.
Proof.
  revert s; induction p as [|x p IH]; intros s; simpl.
  - split; [intros _; exists s; reflexivity | reflexivity].
  - destruct s as [|y s]; simpl.
    + split; [discriminate | intros [post H]; discriminate].
    + rewrite andb_true_iff, N.eqb_eq, IH. split.
      * intros [-> [post ->]]. exists post; reflexivity.
      * intros [post [= -> ->]]. split; [reflexivity | exists post; reflexivity].
Qed.

Lemma contains_cons (c : N) (s sub : str) :
  contains (c :: s) sub <-> startswith (c :: s) sub = true \/ contains s sub.
Proof.
  rewrite startswith_spec. split.
  - intros ([|x pre] & post & E); simpl in E.
    + left; eauto.
    + injection E as -> ->. right; exists pre, post; reflexivity.
  - intros [[post E] | (pre & post & ->)].
    + exists [], post; exact E.
    + exists (c :: pre), post; reflexivity.
Qed.

Lemma contains_nil (sub : str) : contains [] sub <-> startswith [] sub = true.
Proof.
  rewrite startswith_spec. split.
  - intros (pre & post & E). destruct pre; [eauto|discriminate].
  - intros [post E]. exists [], post; exact E.
Qed.

Lemma find_from_spec (s sub : str) (i : Z) :
  (0 <= i)%Z -> find_from s sub i <> (-1)%Z <-> contains s sub.
Proof.
  revert i; induction s as [|c s IH]; intros i Hi.
  - rewrite contains_nil. simpl. destruct (startswith [] sub); split; try easy; lia.
  - rewrite contains_cons. simpl. destruct (startswith (c :: s) sub).
    + split; [auto | lia].
    + rewrite IH by lia. split; [auto | intros [|]; [discriminate | assumption]].
Qed.

(** [find] answers [-1] exactly when the text does not occur. *)
Lemma find_spec (s sub : str) : find s sub <> (-1)%Z <-> contains s sub.
Proof. apply find_from_spec; lia. Qed.

Lemma find_eqb (s sub : str) :
  (find s sub =? -1)%Z = false <-> contains s sub.
Proof. rewrite Z.eqb_neq. apply find_spec. Qed.

Lemma lstrip_suffix (s : str) : exists pre, s = pre ++ lstrip s.
Proof.
  induction s as [|c s [pre IH]]; simpl.
  - exists []; reflexivity.
  - destruct (is_space c).
    + exists (c :: pre); simpl; congruence.
    + exists []; reflexivity.
Qed.

Lemma lstrip_keeps (pre rest : str) (c : N) :
  is_space c = false -> exists pre', lstrip (pre ++ c :: rest) = pre' ++ c :: rest.
Proof.
  intros Hc; induction pre as [|x pre [pre' IH]]; simpl.
  - rewrite Hc. exists []; reflexivity.
  - destruct (is_space x); [eauto|]. exists (x :: pre); reflexivity.
Qed.

Lemma rstrip_prefix (s : str) : exists post, s = rstrip s ++ post.
Proof.
  unfold rstrip. destruct (lstrip_suffix (rev s)) as [pre E].
  exists (rev pre). rewrite <- rev_app_distr, <- E, rev_involutive. reflexivity.
Qed.

Lemma rstrip_keeps (pre post : str) (c : N) :
  is_space c = false -> exists post', rstrip (pre ++ c :: post) = pre ++ c :: post'.
Proof.
  intros Hc. unfold rstrip.
  rewrite rev_app_distr. simpl. rewrite <- app_assoc. simpl.
  destruct (lstrip_keeps (rev post) (rev pre) c Hc) as [p' E].
  rewrite E, rev_app_distr. simpl. rewrite rev_involutive, <- app_assoc. simpl.
  exists (rev p'); reflexivity.
Qed.

(** Stripping never removes an occurrence of a text that starts and ends with
    a character that is no whitespace, and never creates one. *)
Lemma strip_contains (s sub : str) (a z : N) (mid : str) :
  sub = a :: mid ++ [z] -> is_space a = false -> is_space z = false ->
  contains (strip s) sub <-> contains s sub.
Proof.
  intros -> Ha Hz. unfold strip. split.
  - intros (pre & post & E).
    destruct (lstrip_suffix s) as [p Es].
    destruct (rstrip_prefix (lstrip s)) as [q Eq].
    exists (p ++ pre), (post ++ q).
    rewrite Es at 1. rewrite Eq at 1. rewrite E.
    rewrite <- !app_assoc. reflexivity.
  - intros (pre & post & ->).
    destruct (lstrip_keeps pre ((mid ++ [z]) ++ post) a Ha) as [pre' E].
    simpl. rewrite E.
    replace (pre' ++ a :: (mid ++ [z]) ++ post)
      with ((pre' ++ a :: mid) ++ z :: post)
      by (rewrite <- !app_assoc; reflexivity).
    destruct (rstrip_keeps (pre' ++ a :: mid) post z Hz) as [post' E'].
    rewrite E'. exists pre', post'.
    simpl. rewrite <- !app_assoc. reflexivity.
Qed.

(** ** Stripping and splitting *)

Lemma lstrip_head (s : str) (c : N) (rest : str) :
  lstrip s = c :: rest -> is_space c = false.
Proof.
  induction s as [|x s IH]; simpl; [discriminate|].
  destruct (is_space x) eqn:Hx; [exact IH|].
  intros [= <- <-]. exact Hx.
Qed.

Lemma lstrip_solid_head (c : N) (s : str) :
  is_space c = false -> lstrip (c :: s) = c :: s.
Proof. intros H. simpl. rewrite H. reflexivity. Qed.

Lemma lstrip_blank (pre rest : str) (c : N) :
  (forall x, In x pre -> is_space x = true) -> is_space c = false ->
  lstrip (pre ++ c :: rest) = c :: rest.
Proof.
  intros Hpre Hc. induction pre as [|x pre IH]; simpl.
  - rewrite Hc. reflexivity.
  - rewrite (Hpre x) by (left; reflexivity). apply IH.
    intros y Hy. apply Hpre. right. exact Hy.
Qed.

Lemma rstrip_blank (s post : str) (c : N) :
  (forall x, In x post -> is_space x = true) -> is_space c = false ->
  rstrip (s ++ c :: post) = s ++ [c].
Proof.
  intros Hpost Hc. unfold rstrip.
  rewrite rev_app_distr. simpl. rewrite <- app_assoc. simpl.
  rewrite lstrip_blank; [|intros x Hx; apply Hpost, in_rev, Hx|exact Hc].
  simpl. rewrite rev_involutive. reflexivity.
Qed.

Lemma rstrip_last (s : str) (c : N) :
  last (rstrip s) = Some c -> is_space c = false.
Proof.
  unfold rstrip. destruct (lstrip (rev s)) as [|x rest] eqn:E; simpl; [discriminate|].
  rewrite last_app. simpl. intros [= <-]. exact (lstrip_head _ _ _ E).
Qed.

Lemma strip_head (s : str) (c : N) :
  head (strip s) = Some c -> is_space c = false.
Proof.
  unfold strip. destruct (rstrip_prefix (lstrip s)) as [post E].
  destruct (rstrip (lstrip s)) as [|x r]; simpl; [discriminate|].
  intros [= <-]. simpl in E. exact (lstrip_head _ _ _ E).
Qed.

Lemma strip_last (s : str) (c : N) :
  last (strip s) = Some c -> is_space c = false.
Proof. apply rstrip_last. Qed.

Lemma lstrip_fixed (s : str) :
  (forall c, head s = Some c -> is_space c = false) -> lstrip s = s.
Proof.
  destruct s as [|x s]; [reflexivity|]. intros H. simpl. rewrite (H x eq_refl). reflexivity.
Qed.

Lemma rstrip_fixed (s : str) :
  (forall c, last s = Some c -> is_space c = false) -> rstrip s = s.
Proof.
  intros H. unfold rstrip. rewrite lstrip_fixed; [apply rev_involutive|].
  intros c Hc. apply H.
  destruct (rev s) as [|x r] eqn:E; [discriminate|]. injection Hc as ->.
  rewrite <- (rev_involutive s), E. simpl. rewrite last_app. reflexivity.
Qed.

(** What [strip] returns is left alone by [strip]. *)
Lemma strip_strip (s : str) : strip (strip s) = strip s.
Proof.
  unfold strip at 1.
  rewrite (lstrip_fixed (strip s)) by apply strip_head.
  apply rstrip_fixed, strip_last.
Qed.

Lemma split_space_solid (w : str) :
  (forall c, In c w -> c <> 32%N) -> split_space w = [w].
Proof.
  induction w as [|c w IH]; intros H; simpl; [reflexivity|].
  destruct (N.eqb_spec c 32) as [E|_]; [exfalso; apply (H c); [left; reflexivity|exact E]|].
  rewrite IH; [reflexivity|]. intros x Hx. apply H. right. exact Hx.
Qed.

Lemma split_space_app (w rest : str) :
  (forall c, In c w -> c <> 32%N) ->
  split_space (w ++ 32%N :: rest) = w :: split_space rest.
Proof.
  induction w as [|c w IH]; intros H; simpl; [reflexivity|].
  destruct (N.eqb_spec c 32) as [E|_]; [exfalso; apply (H c); [left; reflexivity|exact E]|].
  rewrite IH; [reflexivity|]. intros x Hx. apply H. right. exact Hx.
Qed.

Lemma split_space_nonempty (s : str) : exists w ws, split_space s = w :: ws.
Proof.
  induction s as [|c s (w & ws & IH)]; simpl; [eauto|].
  destruct (c =? 32)%N; [eauto|]. rewrite IH. eauto.
Qed.

(** [split(' ')] gives a second word exactly when the text has a space. *)
Lemma split_space_second (s : str) :
  split_space s !! 1 = None <-> ~ In 32%N s.
Proof.
  induction s as [|c s IH]; simpl.
  - split; [intros _ []|reflexivity].
  - destruct (split_space_nonempty s) as (w & ws & E). rewrite E in *.
    destruct (N.eqb_spec c 32) as [->|Hc]; simpl in *.
    + split; [discriminate|]. intros H; exfalso; apply H; left; reflexivity.
    + rewrite IH. split.
      * intros H [E'|H']; [exact (Hc E')|exact (H H')].
      * intros H H'. apply H. right. exact H'.
Qed.

Lemma solid_no_space (s : str) (c : N) :
  (forall x, In x s -> is_space x = false) -> In c s -> c <> 32%N.
Proof. intros H Hc ->. specialize (H _ Hc). discriminate H. Qed.

(** ** What stripping cuts off *)




End PyFacts.

(* ===================================================================== *)
(** * The dashboard client: [send_command] *)
(* ===================================================================== *)

Module DashboardFacts.
Import Dashboard PyFacts Footprint.

#[local] Opaque py.

Ltac run :=
  cbv [mbind mret M_bind M_ret bind ret raise get modify try_except try_finally
       log Dashboard.print Dashboard.sleep set_connection];
  cbn [events connection negb].

Ltac flat := cbn [events connection]; repeat rewrite <- List.app_assoc; cbn [app].

Lemma sent_app (c : str) (l l' : list event) :
  sent c (l ++ l') = sent c l + sent c l'.
Proof.
  induction l as [|e l IH]; simpl; [reflexivity|].
  destruct e; rewrite ?IH; lia.
Qed.

Lemma commands_app (l l' : list event) :
  commands (l ++ l') = commands l ++ commands l'.
Proof.
  induction l as [|e l IH]; simpl; [reflexivity|].
  destruct e; rewrite ?IH; reflexivity.
Qed.

Lemma connects_app (l l' : list event) :
  connects (l ++ l') = connects l + connects l'.
Proof.
  induction l as [|e l IH]; simpl; [reflexivity|].
  destruct e; rewrite ?IH; reflexivity.
Qed.

Lemma at_hand_held (R : robot) (d : dashboard) : connection d = true -> at_hand R d = true.
Proof. intros H. unfold at_hand. rewrite H. reflexivity. Qed.

Section Client.
Context {B : Builtins} (R : robot).

(** [connect] never raises and calls [sendall] for nothing; it leaves a
    socket object behind when [socket.socket] returned one, and the client as
    it was when it did not. *)
Lemma connect_run (b : bool) (l0 : list event) :
  exists l, connect R {| connection := b; events := l0 |}
            = (Ok tt, {| connection := at_hand R {| connection := b; events := l0 |};
                         events := l0 ++ l |})
            /\ commands l = [] /\ connects l = 1 /\ head l = Some SocketConnect.
Proof.
  unfold connect, at_hand. run.
  destruct (creating R (connects l0)) as [err|]; run;
    [|destruct (connecting R (connects l0)) as [err|]; run];
    rewrite ?orb_true_r, ?orb_false_r;
    eexists; (split; [flat; reflexivity|]); auto.
Qed.

(** What [send_command] does, in every case.  It returns; with a socket
    object at hand and a command that can be encoded it calls [sendall] with
    the command, once, and otherwise not at all; it calls [connect] exactly
    when the client holds no socket object; and an exception raised on the
    way is printed last. *)
Lemma send_command_run (command : str) (delay : float) (d : dashboard) :
  exists l,
    send_command R command delay d
    = (Ok (if at_hand R d && is_ascii command
           then handed_back (exchange R command (sent command (events d))) delay
           else None),
       {| connection := at_hand R d; events := events d ++ l |})
    /\ commands l = (if at_hand R d && is_ascii command then [command] else [])
    /\ connects l = (if connection d then 0 else 1)
    /\ (forall e,
          (if at_hand R d then
             if is_ascii command
             then raised_on_the_way (exchange R command (sent command (events d))) delay
             else Some UnicodeEncodeError
           else Some (AttributeError "'NoneType' object has no attribute 'sendall'"))
          = Some e ->
          last l = Some (Printed [Err e])).
Proof.
  destruct d as [b l0].
  unfold send_command, transmit, connect, Dashboard.sleep, at_hand,
    handed_back, raised_on_the_way.
  run.
  destruct b; cbn [negb orb]; run;
    [|rewrite ?connects_app; cbn [connects]; rewrite ?Nat.add_0_r;
      destruct (creating R (connects l0)) as [err|]; run;
      [|destruct (connecting R (connects l0)) as [err|]; run]];
    try (destruct (is_ascii command); cbn [andb]; run;
         [ rewrite ?sent_app; cbn [sent]; rewrite ?Nat.add_0_r;
           destruct (exchange R command (sent command l0)) as [e1|e1|response]; run;
           [ | destruct (sleep_error delay) as [e2|]; run
             | destruct (sleep_error delay) as [e2|]; run;
               [ | cbn [reply_text];
                   destruct (find response banner =? -1)%Z; run ] ]
         | ]);
    (eexists; split; [flat; reflexivity|]);
    (split; [reflexivity|]); (split; [reflexivity|]);
    try discriminate;
    intros e0 [= <-]; reflexivity.
Qed.

End Client.


(** C5, as the code has it.  When a socket object is at hand and a response
    arrives that contains the banner, [send_command] returns the response
    without its first 45 characters, trimmed; the returned text contains the
    banner exactly when the banner occurs in the response after those 45
    characters. *)
Theorem send_command_cuts_banner_prefix {B : Builtins}
    (R : robot) (command : str) (delay : float) (d : dashboard) (response : str) :
  at_hand R d = true ->
  is_ascii command = true ->
  sleep_error delay = None ->
  exchange R command (sent command (events d)) = Received response ->
  contains response banner ->
  exists text d',
    send_command R command delay d = (Ok (Some text), d') /\
    text = strip (slice_from 45 response) /\
    (contains text banner <-> contains (slice_from 45 response) banner).
Proof.
  intros Hsocket Hascii Hsleep Hw Hb.
  destruct (send_command_run R command delay d) as (l & E & _).
  unfold handed_back in E. rewrite Hsocket, Hascii, Hw, Hsleep in E.
  cbn [andb reply_text] in E.
  apply find_eqb in Hb. rewrite Hb in E.
  do 2 eexists. split; [exact E|]. split; [reflexivity|].
  apply (strip_contains _ banner 67%N 114%N
           (py "onnected: Universal Robots Dashboard Serve")); reflexivity.
Qed.

(** ** [initialize], one pass at a time *)

Lemma bind_run {S A C} (m : M S A) (k : A -> M S C) (s s' : S) (a : A) :
  m s = (Ok a, s') -> (m ≫= k) s = k a s'.
Proof. intros E. unfold mbind, M_bind, bind. rewrite E. reflexivity. Qed.

Lemma bind_raise {S A C} (m : M S A) (k : A -> M S C) (s s' : S) (e : exn) :
  m s = (Raise e, s') -> (m ≫= k) s = (Raise e, s').
Proof. intros E. unfold mbind, M_bind, bind. rewrite E. reflexivity. Qed.

Lemma bind_returns {S A C} (m : M S A) (k : A -> M S C) (s s' : S) (c : C) :
  (m ≫= k) s = (Ok c, s') -> exists a s1, m s = (Ok a, s1) /\ k a s1 = (Ok c, s').
Proof.
  unfold mbind, M_bind, bind. destruct (m s) as [[a|e|] s1]; try discriminate. eauto.
Qed.

Lemma steps_refl (d : dashboard) : connection d = true -> steps d d [].
Proof. intros H. split; [exact H|]. exists []. rewrite app_nil_r. auto. Qed.

Lemma steps_trans (d d' d'' : dashboard) (cs cs' : list str) :
  steps d d' cs -> steps d' d'' cs' -> steps d d'' (cs ++ cs').
Proof.
  intros (_ & l & E & Hl) (Hc & l' & E' & Hl'). split; [exact Hc|].
  exists (l ++ l'). rewrite E', E, app_assoc, commands_app, Hl, Hl'. auto.
Qed.

Lemma steps_log (d : dashboard) (e : event) :
  connection d = true -> commands [e] = [] ->
  steps d {| connection := connection d; events := events d ++ [e] |} [].
Proof. intros H He. split; [exact H|]. exists [e]. auto. Qed.

Lemma sent_occurrences (c : str) (l : list event) :
  sent c l = occurrences c (commands l).
Proof.
  induction l as [|e l IH]; [reflexivity|].
  destruct e; cbn [sent commands occurrences]; rewrite ?IH; reflexivity.
Qed.

Lemma occurrences_app (c : str) (cs cs' : list str) :
  occurrences c (cs ++ cs') = occurrences c cs + occurrences c cs'.
Proof. induction cs as [|x cs IH]; simpl; [reflexivity|]. rewrite IH. lia. Qed.

Lemma steps_sent (d d' : dashboard) (cs : list str) (c : str) :
  steps d d' cs -> sent c (events d') = sent c (events d) + occurrences c cs.
Proof.
  intros (_ & l & -> & <-). rewrite sent_app, sent_occurrences with (l := l). reflexivity.
Qed.

Lemma steps_commands (d d' : dashboard) (cs : list str) :
  steps d d' cs -> commands (events d') = commands (events d) ++ cs.
Proof. intros (_ & l & -> & <-). apply commands_app. Qed.

Section Passes.
Context {B : Builtins} (R : robot).

Lemma send_command_steps (command : str) (delay : float) (d : dashboard) :
  at_hand R d = true ->
  is_ascii command = true ->
  sleep_error delay = None ->
  exists d', send_command R command delay d = (Ok (answer R d 0 command), d')
             /\ steps d d' [command].
Proof.
  intros Hsocket Hascii Hsleep.
  destruct (send_command_run R command delay d) as (l & E & Hl & _).
  rewrite Hsocket, Hascii in E, Hl. cbn [andb] in E, Hl.
  eexists. split.
  - unfold answer. rewrite Nat.add_0_r. rewrite E. unfold handed_back.
    rewrite Hsleep. destruct (exchange R command (sent command (events d))); reflexivity.
  - split; [reflexivity|]. exists l. auto.
Qed.

Lemma send_command_held (command : str) (d : dashboard) :
  connection d = true ->
  is_ascii command = true ->
  exists d', send_command R command 0.5 d = (Ok (answer R d 0 command), d')
             /\ steps d d' [command].
Proof.
  intros C Hascii.
  apply send_command_steps; [apply at_hand_held, C|exact Hascii|].
  apply sleep_short; reflexivity.
Qed.

Lemma half_a_second : sleep_error 0.5 = None.
Proof. apply sleep_short; reflexivity. Qed.

Lemma sleep_steps (seconds : float) (d : dashboard) :
  sleep_error seconds = None ->
  connection d = true ->
  exists d', Dashboard.sleep seconds d = (Ok tt, d') /\ steps d d' [].
Proof.
  intros Hs H. unfold Dashboard.sleep. rewrite Hs.
  eexists. split; [reflexivity|]. apply steps_log; auto.
Qed.

Lemma print_steps (items : list pitem) (d : dashboard) :
  connection d = true ->
  exists d', Dashboard.print items d = (Ok tt, d') /\ steps d d' [].
Proof.
  intros H. eexists. split; [reflexivity|]. apply steps_log; auto.
Qed.

Lemma steps_connection (d d' : dashboard) (cs : list str) :
  steps d d' cs -> connection d' = true.
Proof. intros [H _]; exact H. Qed.

Lemma brake_release_steps (d : dashboard) :
  connection d = true ->
  exists a d', brake_release R d = (Ok a, d') /\ steps d d' [py "brake release"].
Proof.
  intros C. unfold brake_release.
  destruct (send_command_held (py "brake release") d C eq_refl) as (d1 & E1 & S1).
  destruct (sleep_steps 20 d1 (sleep_short 20%float eq_refl eq_refl) (steps_connection _ _ _ S1))
    as (d2 & E2 & S2).
  do 2 eexists. split.
  - rewrite (bind_run _ _ _ _ _ E1), (bind_run _ _ _ _ _ E2). reflexivity.
  - apply (steps_trans _ _ _ _ _ S1 S2).
Qed.

Lemma restart_safety_steps (d : dashboard) :
  connection d = true ->
  exists a d', restart_safety R d = (Ok a, d')
               /\ steps d d' [py "restart safety"; py "brake release"].
Proof.
  intros C. unfold restart_safety.
  destruct (send_command_held (py "restart safety") d C eq_refl) as (d1 & E1 & S1).
  destruct (sleep_steps 10 d1 (sleep_short 10%float eq_refl eq_refl) (steps_connection _ _ _ S1))
    as (d2 & E2 & S2).
  pose proof (steps_trans _ _ _ _ _ S1 S2) as S12.
  assert (E3 : exists d3, disconnect d2 = (Ok tt, d3) /\ steps d2 d3 []).
  { unfold disconnect. run. rewrite (steps_connection _ _ _ S2).
    eexists. split; [reflexivity|]. apply steps_log; [exact (steps_connection _ _ _ S2)|auto]. }
  destruct E3 as (d3 & E3 & S3).
  pose proof (steps_trans _ _ _ _ _ S12 S3) as S13.
  pose proof (steps_connection _ _ _ S3) as C3.
  destruct d3 as [b3 l3]. cbn [connection] in C3. subst b3.
  destruct (connect_run R true l3) as (l4 & E4 & Hl4 & _).
  rewrite (at_hand_held R {| connection := true; events := l3 |} eq_refl) in E4.
  assert (S4 : steps {| connection := true; events := l3 |}
                 {| connection := true; events := l3 ++ l4 |} []).
  { split; [reflexivity|]. exists l4. auto. }
  pose proof (steps_trans _ _ _ _ _ S13 S4) as S14.
  destruct (brake_release_steps {| connection := true; events := l3 ++ l4 |} eq_refl)
    as (a5 & d5 & E5 & S5).
  do 2 eexists. split.
  - rewrite (bind_run _ _ _ _ _ E1), (bind_run _ _ _ _ _ E2), (bind_run _ _ _ _ _ E3),
      (bind_run _ _ _ _ _ E4), (bind_run _ _ _ _ _ E5). reflexivity.
  - apply (steps_trans _ _ _ _ _ S14 S5).
Qed.

Lemma answer_steps (d d' : dashboard) (cs : list str) (j : nat) (c : str) :
  steps d d' cs -> answer R d' j c = answer R d (occurrences c cs + j) c.
Proof.
  intros H. unfold answer. rewrite (steps_sent _ _ _ c H), Nat.add_assoc. reflexivity.
Qed.

Lemma second_word_run (a : option str) (d : dashboard) :
  second_word a d
  = match word2 a with
    | Some w => (Ok w, d)
    | None =>
        (Raise (match a with
                | None => AttributeError "'NoneType' object has no attribute 'split'"
                | Some _ => IndexError "list index out of range"
                end), d)
    end.
Proof.
  destruct a as [t|]; [|reflexivity]. cbn [second_word word2].
  destruct (split_space t !! 1); reflexivity.
Qed.

Ltac step E := rewrite (bind_run _ _ _ _ _ E); cbv beta.

(** The branch on the safety status (lines 58-65). *)
Lemma safety_branch (safety : str) (d : dashboard) :
  connection d = true ->
  exists d',
    (if Py.eqb (upper safety) (py "PROTECTIVE_STOP") then
       Dashboard.print [Text (py "Unlocking protective stop")];;
       unlock_protective_stop R;; mret tt
     else if negb (Py.eqb (upper safety) (py "NORMAL")) then
       Dashboard.print [Text (py "Restarting safety")];;
       close_safety_popup R;;
       output ← restart_safety R;
       mret tt
     else mret tt) d = (Ok tt, d')
    /\ steps d d'
         (if Py.eqb (upper safety) (py "PROTECTIVE_STOP") then [py "unlock protective stop"]
          else if negb (Py.eqb (upper safety) (py "NORMAL")) then
            [py "close safety popup"; py "restart safety"; py "brake release"]
          else []).
Proof.
  intros C.
  destruct (Py.eqb (upper safety) (py "PROTECTIVE_STOP")).
  - destruct (print_steps [Text (py "Unlocking protective stop")] d C) as (d1 & E1 & S1).
    destruct (send_command_held (py "unlock protective stop") d1
                (steps_connection _ _ _ S1) eq_refl)
      as (d2 & E2 & S2).
    exists d2. split.
    + step E1. unfold unlock_protective_stop. step E2. reflexivity.
    + apply (steps_trans _ _ _ _ _ S1 S2).
  - destruct (negb (Py.eqb (upper safety) (py "NORMAL"))).
    + destruct (print_steps [Text (py "Restarting safety")] d C) as (d1 & E1 & S1).
      destruct (send_command_held (py "close safety popup") d1
                  (steps_connection _ _ _ S1) eq_refl)
        as (d2 & E2 & S2).
      destruct (restart_safety_steps d2 (steps_connection _ _ _ S2)) as (a3 & d3 & E3 & S3).
      exists d3. split.
      * step E1. unfold close_safety_popup. step E2. step E3. reflexivity.
      * apply (steps_trans _ _ _ _ _ (steps_trans _ _ _ _ _ S1 S2) S3).
    + exists d. split; [reflexivity | apply steps_refl, C].
Qed.

(** The branch on the operational mode (lines 67-69). *)
Lemma manual_branch (operation_mode_upper : str) (d : dashboard) :
  connection d = true ->
  exists d',
    (if Py.eqb operation_mode_upper (py "MANUAL") then
       Dashboard.print [Text (py "Operation mode is currently set to MANUAL, switching to AUTOMATIC")];;
       set_operational_mode R (py "automatic");; mret tt
     else mret tt) d = (Ok tt, d')
    /\ steps d d'
         (if Py.eqb operation_mode_upper (py "MANUAL") then
            [py "set operational mode automatic"]
          else []).
Proof.
  intros C.
  destruct (Py.eqb operation_mode_upper (py "MANUAL")).
  - destruct (print_steps
                [Text (py "Operation mode is currently set to MANUAL, switching to AUTOMATIC")]
                d C) as (d1 & E1 & S1).
    destruct (send_command_held (py "set operational mode " ++ py "automatic") d1
                (steps_connection _ _ _ S1) eq_refl)
      as (d2 & E2 & S2).
    exists d2. split.
    + step E1. unfold set_operational_mode. step E2. reflexivity.
    + apply (steps_trans _ _ _ _ _ S1 S2).
  - exists d. split; [reflexivity | apply steps_refl, C].
Qed.

(** The branch on the robot mode when the robot is not ready (lines 77-79). *)
Lemma power_branch (mode : str) (d : dashboard) :
  connection d = true ->
  exists d',
    (if Py.eqb (upper mode) (py "POWER_OFF")
        || Py.eqb (upper mode) (py "BOOTING")
        || Py.eqb (upper mode) (py "POWER_ON")
        || Py.eqb (upper mode) (py "IDLE") then
       Dashboard.print [Text (py "Powering on the robot and releasing brakes")];;
       output ← brake_release R;
       mret tt
     else mret tt) d = (Ok tt, d')
    /\ steps d d'
         (if Py.eqb (upper mode) (py "POWER_OFF") || Py.eqb (upper mode) (py "BOOTING")
             || Py.eqb (upper mode) (py "POWER_ON") || Py.eqb (upper mode) (py "IDLE")
          then [py "brake release"] else []).
Proof.
  intros C.
  destruct (Py.eqb (upper mode) (py "POWER_OFF") || Py.eqb (upper mode) (py "BOOTING")
            || Py.eqb (upper mode) (py "POWER_ON") || Py.eqb (upper mode) (py "IDLE")).
  - destruct (print_steps [Text (py "Powering on the robot and releasing brakes")] d C)
      as (d1 & E1 & S1).
    destruct (brake_release_steps d1 (steps_connection _ _ _ S1)) as (a2 & d2 & E2 & S2).
    exists d2. split.
    + step E1. step E2. reflexivity.
    + apply (steps_trans _ _ _ _ _ S1 S2).
  - exists d. split; [reflexivity | apply steps_refl, C].
Qed.

(** One pass of [initialize]: a missing or malformed answer makes it raise;
    otherwise it sends the four queries and the recovery commands, and then
    returns when the robot is ready and goes round again when it is not. *)
Lemma initialize_pass (room : nat) (d : dashboard) :
  at_hand R d = true ->
  match word2 (answer R d 0 (py "robotmode")),
        answer R d 0 (py "get operational mode"),
        word2 (answer R d 0 (py "safetystatus")) with
  | Some mode, Some operation_mode, Some safety =>
      exists d',
        steps d d' (status_queries ++ recovery_commands mode safety operation_mode) /\
        initialize R (S room) d
        = if is_ready mode safety then (Ok tt, d') else initialize R room d'
  | _, _, _ => exists e d', initialize R (S room) d = (Raise e, d')
  end.
Proof.
  intros Hsocket. cbn [initialize].
  (* the four queries *)
  destruct (send_command_steps (py "robotmode") 0.5 d Hsocket eq_refl half_a_second)
    as (d1 & E1 & S1).
  destruct (send_command_held (py "get operational mode") d1 (steps_connection _ _ _ S1) eq_refl)
    as (d2 & E2 & S2).
  pose proof (steps_trans _ _ _ _ _ S1 S2) as S12.
  destruct (send_command_held (py "safetystatus") d2 (steps_connection _ _ _ S2) eq_refl)
    as (d3 & E3 & S3).
  pose proof (steps_trans _ _ _ _ _ S12 S3) as S13.
  destruct (send_command_held (py "is in remote control") d3 (steps_connection _ _ _ S3) eq_refl)
    as (d4 & E4 & S4).
  pose proof (steps_trans _ _ _ _ _ S13 S4) as S14.
  rewrite (answer_steps _ _ _ 0 _ S1) in E2.
  rewrite (answer_steps _ _ _ 0 _ S12) in E3.
  change (occurrences _ _ + 0) with 0 in E2, E3.
  pose proof (steps_connection _ _ _ S4) as C4.
  assert (Q1 : robot_mode R d
               = second_word (answer R d 0 (py "robotmode")) d1).
  { unfold robot_mode. step E1. reflexivity. }
  assert (Q3 : safety_status R d2
               = second_word (answer R d 0 (py "safetystatus")) d3).
  { unfold safety_status. step E3. reflexivity. }
  rewrite second_word_run in Q1, Q3.
  destruct (word2 (answer R d 0 (py "robotmode"))) as [mode|].
  2: { do 2 eexists. apply (bind_raise _ _ _ _ _ Q1). }
  step Q1. unfold get_operational_mode. step E2.
  destruct (word2 (answer R d 0 (py "safetystatus"))) as [safety|].
  2: { destruct (answer R d 0 (py "get operational mode"));
       do 2 eexists; apply (bind_raise _ _ _ _ _ Q3). }
  step Q3. unfold is_in_remote_control. step E4.
  destruct (safety_branch safety d4 C4) as (d5 & E5 & S5).
  pose proof (steps_trans _ _ _ _ _ S14 S5) as S15.
  pose proof (steps_connection _ _ _ S5) as C5.
  step E5.
  destruct (answer R d 0 (py "get operational mode")) as [operation_mode|].
  2: { do 2 eexists. reflexivity. }
  step (eq_refl : upper_of (Some operation_mode) d5 = (Ok (upper operation_mode), d5)).
  destruct (manual_branch (upper operation_mode) d5 C5) as (d6 & E6 & S6).
  pose proof (steps_trans _ _ _ _ _ S15 S6) as S16.
  pose proof (steps_connection _ _ _ S6) as C6.
  step E6. cbn [eq_False].
  step (eq_refl : (mret tt : M dashboard unit) d6 = (Ok tt, d6)).
  unfold recovery_commands. fold (is_ready mode safety).
  destruct (is_ready mode safety).
  - destruct (print_steps [Text (py "Robot is initialized")] d6 C6) as (d7 & E7 & S7).
    exists d7. split; [|exact E7].
    pose proof (steps_trans _ _ _ _ _ S16 S7) as S17.
    rewrite !app_nil_r in *. exact S17.
  - destruct (power_branch mode d6 C6) as (d7 & E7 & S7).
    exists d7. split; [|step E7; reflexivity].
    pose proof (steps_trans _ _ _ _ _ S16 S7) as S17.
    unfold status_queries. rewrite <- !app_assoc in *. exact S17.
Qed.

Lemma is_ready_spec (mode safety : str) :
  is_ready mode safety = true
  <-> upper mode = py "RUNNING" /\ upper safety = py "NORMAL".
Proof. unfold is_ready. rewrite andb_true_iff, !eqb_eq. reflexivity. Qed.








End Passes.

(** ** Every call of the client comes to an end *)








Section Endings.
Context {B : Builtins} (R : robot).






End Endings.

(** C1, as the code has it.  When a socket object is at hand, the robot
    reports robot mode RUNNING and safety status NORMAL and answers the
    operational-mode query with anything but MANUAL, [initialize] returns in
    its first pass and only the four status queries have gone on the wire,
    whatever the answer to the remote-control query is. *)
Theorem initialize_when_ready {B : Builtins}
    (R : robot) (room : nat) (d : dashboard) (mode safety operation_mode : str) :
  at_hand R d = true ->
  word2 (answer R d 0 (py "robotmode")) = Some mode ->
  word2 (answer R d 0 (py "safetystatus")) = Some safety ->
  answer R d 0 (py "get operational mode") = Some operation_mode ->
  upper mode = py "RUNNING" ->
  upper safety = py "NORMAL" ->
  upper operation_mode <> py "MANUAL" ->
  exists d',
    initialize R (S room) d = (Ok tt, d') /\
    commands (events d') = commands (events d) ++ status_queries.
Proof.
  intros Hsocket Hm Hs Ho Hrun Hnormal Hmanual.
  pose proof (initialize_pass R room d Hsocket) as P.
  rewrite Hm, Ho, Hs in P. destruct P as (d' & S1 & P).
  assert (Hr : is_ready mode safety = true) by (apply is_ready_spec; auto).
  rewrite Hr in P. exists d'. split; [exact P|].
  rewrite (steps_commands _ _ _ S1). f_equal.
  unfold recovery_commands. fold (is_ready mode safety).
  apply eqb_neq in Hmanual.
  rewrite Hr, Hmanual, Hnormal. vm_compute. reflexivity.
Qed.


(** ** The wire and the socket *)



Section Session.
Context {B : Builtins} (R : robot).





End Session.


(** X4. The text [send_command] returns is trimmed: stripping it again
    changes nothing, and neither its first nor its last character is
    whitespace. *)
Theorem send_command_returns_trimmed_text {B : Builtins}
    (R : robot) (command : str) (delay : float) (d d' : dashboard) (text : str) :
  send_command R command delay d = (Ok (Some text), d') ->
  strip text = text /\
  forall c, head text = Some c \/ last text = Some c -> is_space c = false.
Proof.
  intros E.
  assert (H : exists s, text = strip s).
  { destruct (send_command_run R command delay d) as (l & E' & _).
    rewrite E' in E. injection E as E _. unfold handed_back in E.
    destruct (at_hand R d && is_ascii command); [|discriminate E].
    destruct (exchange R command (sent command (events d))); try discriminate E.
    destruct (sleep_error delay); [discriminate E|].
    cbn [reply_text] in E. injection E as <-. eauto. }
  destruct H as [s ->]. split; [apply strip_strip|].
  intros c [Hc|Hc]; [exact (strip_head _ _ Hc) | exact (strip_last _ _ Hc)].
Qed.

(** ** Status replies *)

Lemma status_reply_space (label value trailing : str) (i : nat) (c : N) :
  solid label -> solid value ->
  status_reply label value trailing !! i = Some c -> is_space c = true ->
  i = length label \/ length label + length value < i.
Proof.
  intros [_ Hl] [_ Hv] Hi Hc. unfold status_reply, str in *.
  destruct (Nat.lt_ge_cases i (length label)) as [H|H].
  - rewrite lookup_app_l in Hi by exact H.
    apply list_elem_of_lookup_2, list_elem_of_In, Hl in Hi. congruence.
  - rewrite lookup_app_r in Hi by exact H.
    destruct (i - length label) as [|k] eqn:Ek; [left; lia|]. right.
    change ((value ++ trailing) !! k = Some c) in Hi.
    destruct (Nat.lt_ge_cases k (length value)) as [H'|H']; [|lia].
    rewrite lookup_app_l in Hi by exact H'.
    apply list_elem_of_lookup_2, list_elem_of_In, Hv in Hi. congruence.
Qed.

Lemma status_reply_trailing (label value trailing : str) (i : nat) (c : N) :
  blank trailing ->
  status_reply label value trailing !! i = Some c ->
  length label + length value < i -> is_space c = true.
Proof.
  intros Ht Hi H. unfold status_reply, str in *.
  rewrite lookup_app_r in Hi by lia.
  destruct (i - length label) as [|k] eqn:Ek; [lia|].
  change ((value ++ trailing) !! k = Some c) in Hi.
  rewrite lookup_app_r in Hi by lia.
  apply list_elem_of_lookup_2, list_elem_of_In, Ht in Hi. exact Hi.
Qed.

(** A status reply never carries the banner: the banner has a word between
    two spaces and a word after them. *)
Lemma status_reply_without_banner (label value trailing : str) :
  solid label -> solid value -> blank trailing ->
  (find (status_reply label value trailing) banner =? -1)%Z = true.
Proof.
  intros Hl Hv Ht.
  destruct (find (status_reply label value trailing) banner =? -1)%Z eqn:E; [reflexivity|].
  exfalso. apply find_eqb in E. destruct E as (pre & post & E).
  assert (L : forall k c, banner !! k = Some c ->
                status_reply label value trailing !! (length pre + k) = Some c).
  { intros k c Hk. unfold str in *. rewrite E, lookup_app_r by lia.
    replace (length pre + k - length pre) with k by lia.
    apply lookup_app_l_Some, Hk. }
  pose proof (L 10 32%N eq_refl) as H1.
  pose proof (L 20 32%N eq_refl) as H2.
  pose proof (L 21 82%N eq_refl) as H3.
  destruct (status_reply_space _ _ _ _ _ Hl Hv H2 eq_refl) as [P2|P2].
  - destruct (status_reply_space _ _ _ _ _ Hl Hv H1 eq_refl) as [P1|P1]; lia.
  - assert (is_space 82 = true) as C; [|discriminate C].
    apply (status_reply_trailing _ _ _ _ _ Ht H3). lia.
Qed.

Lemma strip_status_reply (label value trailing : str) :
  solid label -> solid value -> blank trailing ->
  strip (status_reply label value trailing) = label ++ [32%N] ++ value.
Proof.
  intros [Hl0 Hl] [Hv0 Hv] Ht. unfold strip, status_reply.
  destruct label as [|x label]; [congruence|].
  cbn [app]. rewrite lstrip_solid_head by (apply Hl; left; reflexivity).
  destruct (exists_last Hv0) as (value' & c & ->).
  replace (x :: label ++ 32%N :: (value' ++ [c]) ++ trailing)
    with ((x :: label ++ 32%N :: value') ++ c :: trailing)
    by (cbn [app]; rewrite <- !app_assoc; reflexivity).
  rewrite rstrip_blank; [|exact Ht|apply Hv, in_or_app; right; left; reflexivity].
  cbn [app]. rewrite <- !app_assoc. reflexivity.
Qed.

Lemma second_word_status_reply (label value : str) :
  solid label -> solid value ->
  split_space (label ++ [32%N] ++ value) !! 1 = Some value.
Proof.
  intros [_ Hl] [_ Hv]. cbn [app].
  rewrite split_space_app by (intros c Hc; exact (solid_no_space _ _ Hl Hc)).
  rewrite split_space_solid by (intros c Hc; exact (solid_no_space _ _ Hv Hc)).
  reflexivity.
Qed.

(** What [send_command] makes of a status reply, with or without the
    greeting line in front. *)
Lemma reply_text_status_reply (label value trailing : str) (w : wire) :
  solid label -> solid value -> blank trailing ->
  w = Received (status_reply label value trailing)
  \/ w = Received (banner ++ [LF] ++ status_reply label value trailing) ->
  word2 (reply_text w) = Some value.
Proof.
  intros Hl Hv Ht [-> | ->]; cbn [reply_text word2].
  - rewrite status_reply_without_banner, strip_status_reply by assumption.
    apply second_word_status_reply; assumption.
  - assert (E : (find (banner ++ [LF] ++ status_reply label value trailing) banner =? -1)%Z
                = false).
    { apply find_eqb. exists [], ([LF] ++ status_reply label value trailing). reflexivity. }
    rewrite E. unfold slice_from.
    replace (drop 45 (banner ++ [LF] ++ status_reply label value trailing))
      with (status_reply label value trailing)
      by (rewrite app_assoc; symmetry; apply (drop_app_length (banner ++ [LF]))).
    rewrite strip_status_reply by assumption.
    apply second_word_status_reply; assumption.
Qed.

Section Queries.
Context {B : Builtins} (R : robot).

(** What [send_command] hands back with the default delay. *)
Lemma send_command_half (command : str) (d : dashboard) :
  is_ascii command = true ->
  exists l,
    send_command R command 0.5 d
    = (Ok (if at_hand R d then answer R d 0 command else None),
       {| connection := at_hand R d; events := events d ++ l |})
    /\ commands l = (if at_hand R d then [command] else []).
Proof.
  intros Hascii.
  destruct (send_command_run R command 0.5 d) as (l & E & Hl & _).
  rewrite Hascii, andb_true_r in E, Hl.
  exists l. split; [|exact Hl].
  rewrite E. unfold answer, handed_back. rewrite Nat.add_0_r, half_a_second.
  destruct (at_hand R d); [|reflexivity].
  destruct (exchange R command (sent command (events d))); reflexivity.
Qed.

Lemma robot_mode_run (d : dashboard) :
  exists d',
    robot_mode R d
    = second_word (if at_hand R d then answer R d 0 (py "robotmode") else None) d'.
Proof.
  destruct (send_command_half (py "robotmode") d eq_refl) as (l & E & _).
  eexists. unfold robot_mode. rewrite (bind_run _ _ _ _ _ E). reflexivity.
Qed.

Lemma safety_status_run (d : dashboard) :
  exists d',
    safety_status R d
    = second_word (if at_hand R d then answer R d 0 (py "safetystatus") else None) d'.
Proof.
  destruct (send_command_half (py "safetystatus") d eq_refl) as (l & E & _).
  eexists. unfold safety_status. rewrite (bind_run _ _ _ _ _ E). reflexivity.
Qed.

Lemma second_word_cases (a : option str) (d : dashboard) :
  match a with
  | None =>
      second_word a d
      = (Raise (AttributeError "'NoneType' object has no attribute 'split'"), d)
  | Some text =>
      if existsb (N.eqb 32) text then exists value, second_word a d = (Ok value, d)
      else second_word a d = (Raise (IndexError "list index out of range"), d)
  end.
Proof.
  rewrite second_word_run. destruct a as [text|]; [|reflexivity]. cbn [word2].
  destruct (existsb (N.eqb 32) text) eqn:E.
  - destruct (split_space text !! 1) as [w|] eqn:Hw; [eauto|].
    apply split_space_second in Hw. exfalso. apply Hw.
    apply existsb_exists in E as (x & Hx & Ex). apply N.eqb_eq in Ex. subst x. exact Hx.
  - destruct (split_space text !! 1) as [w|] eqn:Hw; [|reflexivity].
    exfalso. assert (H : split_space text !! 1 <> None) by congruence.
    apply H, split_space_second. intros Hin.
    assert (existsb (N.eqb 32) text = true) as C; [|congruence].
    apply existsb_exists. exists 32%N. split; [exact Hin|reflexivity].
Qed.

End Queries.

(** X5. When a socket object is at hand and the robot answers with a label,
    one space, a value and trailing whitespace (label and value non-empty and
    without whitespace), with or without the banner line in front,
    [robot_mode] and [safety_status] return the value. *)
Theorem status_queries_read_the_value {B : Builtins}
    (R : robot) (d : dashboard) (label value trailing : str) :
  at_hand R d = true ->
  solid label -> solid value -> blank trailing ->
  let arrives command :=
    exchange R command (sent command (events d))
    = Received (status_reply label value trailing)
    \/ exchange R command (sent command (events d))
       = Received (banner ++ [LF] ++ status_reply label value trailing) in
  (arrives (py "robotmode") -> exists d', robot_mode R d = (Ok value, d')) /\
  (arrives (py "safetystatus") -> exists d', safety_status R d = (Ok value, d')).
Proof.
  intros Hsocket Hl Hv Ht arrives. split; intros H.
  - destruct (robot_mode_run R d) as (d' & E). exists d'.
    rewrite E, Hsocket, second_word_run. unfold answer. rewrite Nat.add_0_r.
    rewrite (reply_text_status_reply label value trailing _ Hl Hv Ht H). reflexivity.
  - destruct (safety_status_run R d) as (d' & E). exists d'.
    rewrite E, Hsocket, second_word_run. unfold answer. rewrite Nat.add_0_r.
    rewrite (reply_text_status_reply label value trailing _ Hl Hv Ht H). reflexivity.
Qed.

(** X6. [robot_mode] and [safety_status] let through what [send_command]
    swallows: when there was no socket object or the exchange failed they
    raise [AttributeError] on the [None] they got, when the trimmed reply has
    no space they raise [IndexError], and otherwise they return. *)
Theorem status_queries_raise_on_a_bad_reply {B : Builtins} (R : robot) (d : dashboard) :
  let outcome_of (query : M dashboard str) (command : str) :=
    match (if at_hand R d then answer R d 0 command else None) with
    | None =>
        exists d',
          query d = (Raise (AttributeError "'NoneType' object has no attribute 'split'"), d')
    | Some text =>
        if existsb (N.eqb 32) text then exists value d', query d = (Ok value, d')
        else exists d', query d = (Raise (IndexError "list index out of range"), d')
    end in
  outcome_of (robot_mode R) (py "robotmode") /\
  outcome_of (safety_status R) (py "safetystatus").
Proof.
  intros outcome_of. unfold outcome_of. split.
  - destruct (robot_mode_run R d) as (d' & E).
    pose proof (second_word_cases
                  (if at_hand R d then answer R d 0 (py "robotmode") else None) d') as C.
    destruct (if at_hand R d then answer R d 0 (py "robotmode") else None) as [text|].
    + destruct (existsb (N.eqb 32) text).
      * destruct C as [value C]. exists value, d'. congruence.
      * exists d'. congruence.
    + exists d'. congruence.
  - destruct (safety_status_run R d) as (d' & E).
    pose proof (second_word_cases
                  (if at_hand R d then answer R d 0 (py "safetystatus") else None) d') as C.
    destruct (if at_hand R d then answer R d 0 (py "safetystatus") else None) as [text|].
    + destruct (existsb (N.eqb 32) text).
      * destruct C as [value C]. exists value, d'. congruence.
      * exists d'. congruence.
    + exists d'. congruence.
Qed.

(** X7. A pass of [initialize] that has a socket object at hand and reads a
    safety status other than NORMAL never returns: right after the four
    queries it sends [unlock protective stop] when the status is
    PROTECTIVE_STOP, and [close safety popup], [restart safety],
    [brake release] for any other status; then at most the switch to automatic
    mode and a brake release follow, and the method starts over. *)
Theorem initialize_recovers_by_safety_status {B : Builtins}
    (R : robot) (room : nat) (d : dashboard) (mode safety operation_mode : str) :
  at_hand R d = true ->
  word2 (answer R d 0 (py "robotmode")) = Some mode ->
  word2 (answer R d 0 (py "safetystatus")) = Some safety ->
  answer R d 0 (py "get operational mode") = Some operation_mode ->
  upper safety <> py "NORMAL" ->
  exists d' rest,
    initialize R (S room) d = initialize R room d' /\
    commands (events d')
    = commands (events d) ++ status_queries
      ++ (if Py.eqb (upper safety) (py "PROTECTIVE_STOP") then [py "unlock protective stop"]
          else [py "close safety popup"; py "restart safety"; py "brake release"])
      ++ rest /\
    (forall c, In c rest ->
               c = py "set operational mode automatic" \/ c = py "brake release").
Proof.
  intros Hsocket Hm Hs Ho Hn.
  pose proof (initialize_pass R room d Hsocket) as P.
  rewrite Hm, Ho, Hs in P. destruct P as (d' & S1 & P).
  apply eqb_neq in Hn.
  assert (Hr : is_ready mode safety = false)
    by (unfold is_ready; rewrite Hn; apply andb_false_r).
  rewrite Hr in P.
  exists d'. eexists. split; [exact P|].
  rewrite (steps_commands _ _ _ S1). unfold recovery_commands.
  rewrite Hn. cbn [negb]. rewrite andb_false_r.
  split.
  - destruct (Py.eqb (upper safety) (py "PROTECTIVE_STOP")); reflexivity.
  - intros c Hc. apply in_app_or in Hc as [Hc|Hc].
    + destruct (Py.eqb (upper operation_mode) (py "MANUAL")); [|destruct Hc].
      destruct Hc as [<-|[]]. left; reflexivity.
    + destruct (Py.eqb (upper mode) (py "POWER_OFF") || Py.eqb (upper mode) (py "BOOTING")
                || Py.eqb (upper mode) (py "POWER_ON") || Py.eqb (upper mode) (py "IDLE"));
        [|destruct Hc].
      destruct Hc as [<-|[]]. right; reflexivity.
Qed.

Section Convergence.
Context {B : Builtins} (R : robot).


End Convergence.


(** X9. [restart_safety] returns the reply to [restart safety], not the one
    to [brake release].  With a socket object at hand it does not raise: it
    calls [sendall] with [restart safety], sleeps ten seconds, closes the
    socket, makes a connect attempt, calls [sendall] with [brake release] and
    sleeps twenty seconds.  With none it raises [AttributeError] at the
    [close], after the ten seconds, and [sendall] was not called. *)
Theorem restart_safety_reconnects {B : Builtins} (R : robot) (d : dashboard) :
  if at_hand R d then
    exists l1 l2 l3,
      restart_safety R d
      = (Ok (answer R d 0 (py "restart safety")),
         {| connection := true;
            events := events d ++ l1 ++ [Slept 10; SocketClose] ++ l2 ++ l3 ++ [Slept 20] |}) /\
      commands l1 = [py "restart safety"] /\
      head l2 = Some SocketConnect /\ commands l2 = [] /\
      commands l3 = [py "brake release"]
  else
    exists l1,
      restart_safety R d
      = (Raise (AttributeError "'NoneType' object has no attribute 'close'"),
         {| connection := false; events := events d ++ l1 ++ [Slept 10] |}) /\
      commands l1 = [].
Proof.
  destruct (send_command_half R (py "restart safety") d eq_refl) as (l1 & E1 & H1).
  destruct (at_hand R d).
  - destruct (connect_run R true ((events d ++ l1) ++ [Slept 10] ++ [SocketClose]))
      as (l2 & E2 & H2 & _ & H2').
    unfold at_hand in E2. cbn [connection orb] in E2.
    destruct (send_command_half R (py "brake release")
                {| connection := true;
                   events := ((events d ++ l1) ++ [Slept 10] ++ [SocketClose]) ++ l2 |} eq_refl)
      as (l3 & E3 & H3).
    unfold at_hand in E3, H3. cbn [connection orb] in E3, H3.
    exists l1, l2, l3. split; [|auto].
    unfold restart_safety, brake_release, disconnect, Dashboard.sleep.
    rewrite (sleep_short 10%float eq_refl eq_refl), (sleep_short 20%float eq_refl eq_refl).
    rewrite (bind_run _ _ _ _ _ E1). run.
    revert E2 E3. run. flat. intros E2 E3. rewrite E2.
    revert E3. flat. intros E3. rewrite E3. flat. rewrite <- ?app_assoc. reflexivity.
  - exists l1. split; [|exact H1].
    unfold restart_safety, disconnect, Dashboard.sleep.
    rewrite (sleep_short 10%float eq_refl eq_refl).
    rewrite (bind_run _ _ _ _ _ E1). run. flat. reflexivity.
Qed.

End DashboardFacts.

(* ===================================================================== *)
(** * The finger gripper: approach poses *)
(* ===================================================================== *)

Module GripperFacts.
Import Gripper PyFacts.

#[local] Opaque py.

Ltac grun :=
  cbv [mbind mret M_bind M_ret bind ret raise get modify try_except try_finally
       emit World.print World.sleep sdk record tick world_of with_world
       pair_HasWorld world_HasWorld self on_gripper negate iadd_item];
  cbn [fst snd oracle clock trace].

Ltac fin :=
  eexists; cbn [fst snd trace]; repeat rewrite <- List.app_assoc; reflexivity.

(** IEEE subtraction is addition of the opposite. *)
Lemma SFsub_add_opp (prec emax : Z) (x y : SpecFloat.spec_float) :
  SpecFloat.SFsub prec emax x y = SpecFloat.SFadd prec emax x (SpecFloat.SFopp y).
Proof.
  destruct x as [sx|sx| |sx mx ex], y as [sy|sy| |sy my ey]; simpl; try reflexivity;
    destruct sx, sy; reflexivity.
Qed.

Lemma float_sub_add_opp (x y : float) : (x - y = x + (- y))%float.
Proof.
  rewrite <- (SF2Prim_Prim2SF (x - y)), <- (SF2Prim_Prim2SF (x + - y)).
  f_equal. rewrite sub_spec, add_spec, opp_spec. apply SFsub_add_opp.
Qed.

Lemma insert_alter_lookup {A} (f : A -> A) (l : list A) (i : nat) (x : A) :
  l !! i = Some x -> <[i := f x]> l = alter f i l.
Proof.
  revert i; induction l as [|y l IH]; intros [|i] H; try discriminate.
  - injection H as ->. reflexivity.
  - simpl in *. f_equal. apply IH, H.
Qed.

Section Approach.
Context {B : Builtins} {S : Type}.

Lemma above_minus_y (goal : list float) (a : str) (d y : float) (s : S) :
  a <> [] -> lower a = py "-y" -> goal !! 1 = Some y ->
  above (Some goal) (Some a) (Some d) s
  = (Ok (alter (fun y => (y - d)%float) 1 goal), s).
Proof.
  intros Ha Hl Hy. unfold above, select_axis.
  destruct a as [|c a]; [congruence|]. rewrite Hl.
  change (Py.eqb (py "-y") (py "z")) with false.
  change (Py.eqb (py "-y") (py "y")) with false.
  change (Py.eqb (py "-y") (py "-y")) with true.
  grun. rewrite Hy.
  rewrite <- float_sub_add_opp, (insert_alter_lookup (fun y => (y - d)%float) _ _ _ Hy).
  reflexivity.
Qed.

Lemma above_z (goal : list float) (a : str) (d z : float) (s : S) :
  lower a = py "z" -> goal !! 2 = Some z ->
  above (Some goal) (Some a) (Some d) s
  = (Ok (alter (fun z => (z + d)%float) 2 goal), s).
Proof.
  intros Hl Hz. unfold above, select_axis.
  destruct a as [|c a].
  - grun. rewrite Hz, (insert_alter_lookup (fun z => (z + d)%float) _ _ _ Hz). reflexivity.
  - rewrite Hl. change (Py.eqb (py "z") (py "z")) with true.
    grun. rewrite Hz, (insert_alter_lookup (fun z => (z + d)%float) _ _ _ Hz). reflexivity.
Qed.

(** An axis name that no comparison knows leaves the index [None], and the
    indexing with it raises. *)
Lemma above_unknown_axis (goal : list float) (a : str) (d : option float) (s : S) :
  a <> [] -> ~ In (lower a) known_axes ->
  above (Some goal) (Some a) d s
  = (Raise (TypeError "list indices must be integers or slices, not NoneType"), s).
Proof.
  intros Ha Hl. unfold above, select_axis.
  destruct a as [|c a]; [congruence|].
  assert (H : forall k, In k known_axes -> Py.eqb (lower (c :: a)) k = false).
  { intros k Hk. apply eqb_neq. intros E. apply Hl. rewrite E. exact Hk. }
  rewrite !H by (unfold known_axes; simpl; auto 10).
  reflexivity.
Qed.

End Approach.

Section Moves.
Context {B : Builtins}.

Lemma pick_moves_first (g : FingerGripperController) (w : world)
    (goal pose : list float) (a : option str) (d : option float) :
  goal <> [] ->
  above (Some goal) a d (g, w) = (Ok pose, (g, w)) ->
  moves_first_to (pick (Some goal) a d) g w pose.
Proof.
  intros Hg Habove. unfold moves_first_to, pick.
  destruct goal as [|x goal]; [congruence|].
  rewrite (DashboardFacts.bind_run _ _ _ _ _ Habove). grun.
  destruct (oracle w (clock w)); grun; [|fin].
  destruct (oracle w (Datatypes.S (clock w))); grun; [|fin].
  destruct (gripper g); grun; [|fin].
  destruct (oracle w (Datatypes.S (Datatypes.S (clock w)))); grun; [|fin].
  destruct (oracle w (Datatypes.S (Datatypes.S (Datatypes.S (clock w))))); grun; fin.
Qed.

Lemma place_moves_first (g : FingerGripperController) (w : world)
    (goal pose : list float) (a : option str) (d : option float) :
  goal <> [] ->
  above (Some goal) a d (g, w) = (Ok pose, (g, w)) ->
  moves_first_to (place (Some goal) a d) g w pose.
Proof.
  intros Hg Habove. unfold moves_first_to, place.
  destruct goal as [|x goal]; [congruence|].
  rewrite (DashboardFacts.bind_run _ _ _ _ _ Habove). grun.
  destruct (oracle w (clock w)); grun; [|fin].
  destruct (oracle w (Datatypes.S (clock w))); grun; [|fin].
  destruct (gripper g); grun; [|fin].
  destruct (oracle w (Datatypes.S (Datatypes.S (clock w)))); grun; [|fin].
  destruct (oracle w (Datatypes.S (Datatypes.S (Datatypes.S (clock w))))); grun; fin.
Qed.

End Moves.

(** C6. For a goal pose of six coordinates, [pick] and [place] with an
    approach axis that reads "-y" first move to the goal with the approach
    distance subtracted from its y-coordinate (index 1), and with an axis that
    reads "z" to the goal with the distance added to its z-coordinate (index
    2); every other coordinate is the goal's. *)
Theorem pick_and_place_approach_pose {B : Builtins}
    (g : FingerGripperController) (w : world) (goal : list float) (a : str) (d : float) :
  length goal = 6 ->
  a <> [] ->
  (lower a = py "-y" ->
   let pose := alter (fun y => (y - d)%float) 1 goal in
   moves_first_to (pick (Some goal) (Some a) (Some d)) g w pose /\
   moves_first_to (place (Some goal) (Some a) (Some d)) g w pose)
  /\
  (lower a = py "z" ->
   let pose := alter (fun z => (z + d)%float) 2 goal in
   moves_first_to (pick (Some goal) (Some a) (Some d)) g w pose /\
   moves_first_to (place (Some goal) (Some a) (Some d)) g w pose).
Proof.
  intros Hlen Ha.
  destruct goal as [|x0 [|x1 [|x2 rest]]]; try discriminate Hlen.
  split; intros Hl pose.
  - assert (E : above (Some (x0 :: x1 :: x2 :: rest)) (Some a) (Some d) (g, w)
                = (Ok pose, (g, w)))
      by (apply (above_minus_y _ _ _ x1); auto).
    split; [apply pick_moves_first | apply place_moves_first]; auto; discriminate.
  - assert (E : above (Some (x0 :: x1 :: x2 :: rest)) (Some a) (Some d) (g, w)
                = (Ok pose, (g, w)))
      by (apply (above_z _ _ _ x2); auto).
    split; [apply pick_moves_first | apply place_moves_first]; auto; discriminate.
Qed.

(** C10, as the code has it.  With a non-empty goal and a non-empty approach
    axis whose lower-cased form is none of "z", "y", "-y", "x", "-x", [pick]
    and [place] raise a [TypeError] from the indexing with [None] and leave
    the robot, the gripper and the log untouched. *)
Theorem unknown_axis_raises_before_motion {B : Builtins}
    (g : FingerGripperController) (w : world) (goal : list float) (a : str)
    (d : option float) :
  goal <> [] ->
  a <> [] ->
  ~ In (lower a) known_axes ->
  pick (Some goal) (Some a) d (g, w)
  = (Raise (TypeError "list indices must be integers or slices, not NoneType"), (g, w))
  /\
  place (Some goal) (Some a) d (g, w)
  = (Raise (TypeError "list indices must be integers or slices, not NoneType"), (g, w)).
Proof.
  intros Hg Ha Hl. destruct goal as [|x goal]; [congruence|].
  pose proof (above_unknown_axis (x :: goal) a d (g, w) Ha Hl) as E.
  split; [unfold pick | unfold place];
    rewrite (DashboardFacts.bind_raise _ _ _ _ _ E); reflexivity.
Qed.

(** ** The calls of a pick and of a place *)

Lemma calls_app (l l' : list event) : calls (l ++ l') = calls l ++ calls l'.
Proof.
  induction l as [|e l IH]; simpl; [reflexivity|].
  destruct e; rewrite ?IH; reflexivity.
Qed.

Ltac tally :=
  cbn [fst snd trace]; repeat rewrite <- List.app_assoc; cbn [app];
  rewrite ?calls_app; cbn [calls app take]; rewrite ?app_nil_r.

Section Sequence.
Context {B : Builtins}.

Lemma pick_sequence (g : FingerGripperController) (w : world)
    (goal pose : list float) (a : option str) (d : option float) :
  goal <> [] ->
  above (Some goal) a d (g, w) = (Ok pose, (g, w)) ->
  exists n,
    calls (trace (snd (snd (pick (Some goal) a d (g, w)))))
    = calls (trace w) ++ take n (visit g pose goal (gripper_close g)) /\
    fst (snd (pick (Some goal) a d (g, w))) = g /\
    (fst (pick (Some goal) a d (g, w)) = Ok tt -> n = 4).
Proof.
  intros Hg Habove. unfold pick, visit.
  destruct goal as [|x goal]; [congruence|].
  rewrite (DashboardFacts.bind_run _ _ _ _ _ Habove). grun.
  destruct (oracle w (clock w)); grun;
    [|exists 1; tally; split; [reflexivity|split; [reflexivity|discriminate]]].
  destruct (oracle w (Datatypes.S (clock w))); grun;
    [|exists 2; tally; split; [reflexivity|split; [reflexivity|discriminate]]].
  destruct (gripper g); grun;
    [|exists 2; tally; split; [reflexivity|split; [reflexivity|discriminate]]].
  destruct (oracle w (Datatypes.S (Datatypes.S (clock w)))); grun;
    [|exists 3; tally; split; [reflexivity|split; [reflexivity|discriminate]]].
  destruct (oracle w (Datatypes.S (Datatypes.S (Datatypes.S (clock w))))); grun;
    (exists 4; tally; split; [reflexivity|split; [reflexivity|intros; reflexivity]]).
Qed.

Lemma place_sequence (g : FingerGripperController) (w : world)
    (goal pose : list float) (a : option str) (d : option float) :
  goal <> [] ->
  above (Some goal) a d (g, w) = (Ok pose, (g, w)) ->
  exists n,
    calls (trace (snd (snd (place (Some goal) a d (g, w)))))
    = calls (trace w) ++ take n (visit g pose goal (griper_open g)) /\
    fst (snd (place (Some goal) a d (g, w))) = g /\
    (fst (place (Some goal) a d (g, w)) = Ok tt -> n = 4).
Proof.
  intros Hg Habove. unfold place, visit.
  destruct goal as [|x goal]; [congruence|].
  rewrite (DashboardFacts.bind_run _ _ _ _ _ Habove). grun.
  destruct (oracle w (clock w)); grun;
    [|exists 1; tally; split; [reflexivity|split; [reflexivity|discriminate]]].
  destruct (oracle w (Datatypes.S (clock w))); grun;
    [|exists 2; tally; split; [reflexivity|split; [reflexivity|discriminate]]].
  destruct (gripper g); grun;
    [|exists 2; tally; split; [reflexivity|split; [reflexivity|discriminate]]].
  destruct (oracle w (Datatypes.S (Datatypes.S (clock w)))); grun;
    [|exists 3; tally; split; [reflexivity|split; [reflexivity|discriminate]]].
  destruct (oracle w (Datatypes.S (Datatypes.S (Datatypes.S (clock w))))); grun;
    (exists 4; tally; split; [reflexivity|split; [reflexivity|intros; reflexivity]]).
Qed.

End Sequence.

(** X11. The SDK calls of [pick] and of [place] are always a prefix of:
    move to the pose above the goal, move to the goal, move the gripper, move
    back to the same pose above.  [pick] sends the gripper to [gripper_close],
    [place] to [griper_open].  A call that returns has made all four, and the
    controller itself is never changed. *)
Theorem pick_and_place_call_sequence {B : Builtins}
    (g : FingerGripperController) (w : world) (goal pose : list float)
    (a : option str) (d : option float) :
  goal <> [] ->
  above (Some goal) a d (g, w) = (Ok pose, (g, w)) ->
  (exists n,
     calls (trace (snd (snd (pick (Some goal) a d (g, w)))))
     = calls (trace w) ++ take n (visit g pose goal (gripper_close g)) /\
     fst (snd (pick (Some goal) a d (g, w))) = g /\
     (fst (pick (Some goal) a d (g, w)) = Ok tt -> n = 4))
  /\
  (exists n,
     calls (trace (snd (snd (place (Some goal) a d (g, w)))))
     = calls (trace w) ++ take n (visit g pose goal (griper_open g)) /\
     fst (snd (place (Some goal) a d (g, w))) = g /\
     (fst (place (Some goal) a d (g, w)) = Ok tt -> n = 4)).
Proof.
  intros Hg Habove. split; [apply pick_sequence | apply place_sequence]; assumption.
Qed.

Section Start.
Context {B : Builtins}.

(** Without an approach distance the pose above the goal cannot be computed. *)
Lemma above_without_distance {S} (goal : option (list float)) (a : option str) (s : S) :
  exists e, above goal a None s = (Raise e, s).
Proof.
  unfold above, select_axis.
  destruct a as [[|c a]|];
    repeat match goal with
           | |- context [if Py.eqb ?x ?y then _ else _] => destruct (Py.eqb x y)
           end;
    grun; destruct goal as [l|]; try (eexists; reflexivity);
    match goal with
    | |- context [l !! ?i] => destruct (l !! i)
    end; eexists; reflexivity.
Qed.

Lemma pick_cannot_start (goal : option (list float)) (a : option str) (d : option float)
    (s : FingerGripperController * world) :
  given goal = false \/ d = None -> exists e, pick goal a d s = (Raise e, s).
Proof.
  intros H. unfold pick.
  destruct goal as [[|x l]|]; try (eexists; reflexivity).
  destruct H as [H| ->]; [discriminate H|].
  destruct (above_without_distance (Some (x :: l)) a s) as [e E].
  exists e. rewrite (DashboardFacts.bind_raise _ _ _ _ _ E). reflexivity.
Qed.

Lemma place_cannot_start (goal : option (list float)) (a : option str) (d : option float)
    (s : FingerGripperController * world) :
  given goal = false \/ d = None -> exists e, place goal a d s = (Raise e, s).
Proof.
  intros H. unfold place.
  destruct goal as [[|x l]|]; try (eexists; reflexivity).
  destruct H as [H| ->]; [discriminate H|].
  destruct (above_without_distance (Some (x :: l)) a s) as [e E].
  exists e. rewrite (DashboardFacts.bind_raise _ _ _ _ _ E). reflexivity.
Qed.

End Start.

(** X12. [transfer] looks at the target only after the pick: when the target
    is missing or no target approach distance is given, and the pick goes
    through, [transfer] raises right after printing that the pick is
    completed, the arm holding what it picked. *)
Theorem transfer_stops_after_the_pick {B : Builtins}
    (g : FingerGripperController) (w : world) (source target : option (list float))
    (source_approach_axis target_approach_axis : option str)
    (source_approach_distance target_approach_distance : option float)
    (s' : FingerGripperController * world) :
  given target = false \/ target_approach_distance = None ->
  pick source source_approach_axis source_approach_distance (g, w) = (Ok tt, s') ->
  exists e,
    transfer source target source_approach_axis target_approach_axis
      source_approach_distance target_approach_distance (g, w)
    = (Raise e, (fst s', record (Printed [Text (py "Pick up completed")]) (snd s'))).
Proof.
  intros H Hpick. unfold transfer.
  rewrite (DashboardFacts.bind_run _ _ _ _ _ Hpick).
  destruct (place_cannot_start target target_approach_axis target_approach_distance
              (fst s', record (Printed [Text (py "Pick up completed")]) (snd s')) H)
    as [e E].
  exists e. destruct s' as [g' w'].
  unfold World.print, emit. grun.
  revert E. grun. intros ->. reflexivity.
Qed.

(** X13. [transfer] needs a source approach distance: with its own default
    [None] it raises before anything is printed or moved, whatever the other
    arguments are. *)
Theorem transfer_needs_an_approach_distance {B : Builtins}
    (g : FingerGripperController) (w : world) (source target : option (list float))
    (source_approach_axis target_approach_axis : option str)
    (target_approach_distance : option float) :
  exists e,
    transfer source target source_approach_axis target_approach_axis
      None target_approach_distance (g, w)
    = (Raise e, (g, w)).
Proof.
  destruct (pick_cannot_start source source_approach_axis None (g, w)) as [e E]; [auto|].
  exists e. unfold transfer. rewrite (DashboardFacts.bind_raise _ _ _ _ _ E). reflexivity.
Qed.

Section Axes.
Context {B : Builtins} {S : Type}.

Lemma above_y (goal : list float) (a : str) (d y : float) (s : S) :
  a <> [] -> lower a = py "y" -> goal !! 1 = Some y ->
  above (Some goal) (Some a) (Some d) s
  = (Ok (alter (fun y => (y + d)%float) 1 goal), s).
Proof.
  intros Ha Hl Hy. unfold above, select_axis.
  destruct a as [|c a]; [congruence|]. rewrite Hl.
  change (Py.eqb (py "y") (py "z")) with false.
  change (Py.eqb (py "y") (py "y")) with true.
  grun. rewrite Hy, (insert_alter_lookup (fun y => (y + d)%float) _ _ _ Hy).
  reflexivity.
Qed.

Lemma above_x (goal : list float) (a : str) (d x : float) (s : S) :
  a <> [] -> lower a = py "x" -> goal !! 0 = Some x ->
  above (Some goal) (Some a) (Some d) s
  = (Ok (alter (fun x => (x + d)%float) 0 goal), s).
Proof.
  intros Ha Hl Hx. unfold above, select_axis.
  destruct a as [|c a]; [congruence|]. rewrite Hl.
  change (Py.eqb (py "x") (py "z")) with false.
  change (Py.eqb (py "x") (py "y")) with false.
  change (Py.eqb (py "x") (py "-y")) with false.
  change (Py.eqb (py "x") (py "x")) with true.
  grun. rewrite Hx, (insert_alter_lookup (fun x => (x + d)%float) _ _ _ Hx).
  reflexivity.
Qed.

Lemma above_minus_x (goal : list float) (a : str) (d x : float) (s : S) :
  a <> [] -> lower a = py "-x" -> goal !! 0 = Some x ->
  above (Some goal) (Some a) (Some d) s
  = (Ok (alter (fun x => (x - d)%float) 0 goal), s).
Proof.
  intros Ha Hl Hx. unfold above, select_axis.
  destruct a as [|c a]; [congruence|]. rewrite Hl.
  change (Py.eqb (py "-x") (py "z")) with false.
  change (Py.eqb (py "-x") (py "y")) with false.
  change (Py.eqb (py "-x") (py "-y")) with false.
  change (Py.eqb (py "-x") (py "x")) with false.
  change (Py.eqb (py "-x") (py "-x")) with true.
  grun. rewrite Hx.
  rewrite <- float_sub_add_opp, (insert_alter_lookup (fun x => (x - d)%float) _ _ _ Hx).
  reflexivity.
Qed.

(** A goal with too few coordinates for the axis. *)
Lemma above_short_z (goal : list float) (a : str) (d : option float) (s : S) :
  lower a = py "z" -> length goal <= 2 ->
  above (Some goal) (Some a) d s = (Raise (IndexError "list index out of range"), s).
Proof.
  intros Hl Hlen. unfold above, select_axis.
  assert (Hz : goal !! 2 = None) by (apply lookup_ge_None_2; lia).
  destruct a as [|c a].
  - grun. rewrite Hz. reflexivity.
  - rewrite Hl. change (Py.eqb (py "z") (py "z")) with true.
    grun. rewrite Hz. reflexivity.
Qed.

Lemma above_short_y (goal : list float) (a : str) (d : option float) (s : S) :
  lower a = py "y" -> length goal <= 1 ->
  above (Some goal) (Some a) d s = (Raise (IndexError "list index out of range"), s).
Proof.
  intros Hl Hlen. unfold above, select_axis.
  assert (Hz : goal !! 2 = None) by (apply lookup_ge_None_2; lia).
  assert (Hy : goal !! 1 = None) by (apply lookup_ge_None_2; lia).
  destruct a as [|c a].
  - grun. rewrite Hz. reflexivity.
  - rewrite Hl.
    change (Py.eqb (py "y") (py "z")) with false.
    change (Py.eqb (py "y") (py "y")) with true.
    grun. rewrite Hy. reflexivity.
Qed.

End Axes.

(** X14. For a goal of six coordinates, [pick] and [place] with an axis that
    reads "y" first move to the goal with the distance added to its
    y-coordinate, with "x" to the goal with the distance added to its
    x-coordinate, and with "-x" to the goal with the distance subtracted from
    its x-coordinate. *)
Theorem pick_and_place_approach_along_x_and_y {B : Builtins}
    (g : FingerGripperController) (w : world) (goal : list float) (a : str) (d : float) :
  length goal = 6 ->
  a <> [] ->
  let both pose :=
    moves_first_to (pick (Some goal) (Some a) (Some d)) g w pose /\
    moves_first_to (place (Some goal) (Some a) (Some d)) g w pose in
  (lower a = py "y" -> both (alter (fun y => (y + d)%float) 1 goal)) /\
  (lower a = py "x" -> both (alter (fun x => (x + d)%float) 0 goal)) /\
  (lower a = py "-x" -> both (alter (fun x => (x - d)%float) 0 goal)).
Proof.
  intros Hlen Ha both.
  destruct goal as [|x0 [|x1 rest]]; try discriminate Hlen.
  assert (Hg : x0 :: x1 :: rest <> []) by discriminate.
  split; [|split]; intros Hl; unfold both.
  - pose proof (above_y (x0 :: x1 :: rest) a d x1 (g, w) Ha Hl eq_refl) as E.
    split; [apply pick_moves_first | apply place_moves_first]; assumption.
  - pose proof (above_x (x0 :: x1 :: rest) a d x0 (g, w) Ha Hl eq_refl) as E.
    split; [apply pick_moves_first | apply place_moves_first]; assumption.
  - pose proof (above_minus_x (x0 :: x1 :: rest) a d x0 (g, w) Ha Hl eq_refl) as E.
    split; [apply pick_moves_first | apply place_moves_first]; assumption.
Qed.

(** X15. A goal with too few coordinates for the approach axis (at most two
    for "z", at most one for "y") makes [pick] and [place] raise [IndexError]
    before anything is printed or moved. *)
Theorem short_goal_raises_before_motion {B : Builtins}
    (g : FingerGripperController) (w : world) (goal : list float) (a : str)
    (d : option float) :
  goal <> [] ->
  lower a = py "z" /\ length goal <= 2 \/ lower a = py "y" /\ length goal <= 1 ->
  pick (Some goal) (Some a) d (g, w)
  = (Raise (IndexError "list index out of range"), (g, w))
  /\
  place (Some goal) (Some a) d (g, w)
  = (Raise (IndexError "list index out of range"), (g, w)).
Proof.
  intros Hg H.
  assert (E : above (Some goal) (Some a) d (g, w)
              = (Raise (IndexError "list index out of range"), (g, w))).
  { destruct H as [[Hl Hlen]|[Hl Hlen]]; [apply above_short_z | apply above_short_y];
      assumption. }
  destruct goal as [|x goal]; [congruence|].
  split; [unfold pick | unfold place];
    rewrite (DashboardFacts.bind_raise _ _ _ _ _ E); reflexivity.
Qed.

(** ** Connecting and disconnecting *)

(** X16. When the construction of the gripper driver or its [connect]
    raises, [connect_gripper] prints the error and returns: it does not ask
    whether the gripper is active, and it neither activates nor moves it. *)
Theorem connect_gripper_swallows_a_failed_connection
    (g : FingerGripperController) (w : world) (e : exn) :
  (oracle w (clock w) = Raises e \/
   exists v, oracle w (clock w) = Returns v /\ oracle w (Datatypes.S (clock w)) = Raises e) ->
  exists n,
    fst (connect_gripper (g, w)) = Ok tt /\
    calls (trace (snd (snd (connect_gripper (g, w)))))
    = calls (trace w) ++ take n [RobotiqGripper_new; gripper_connect (host g) (PORT g)] /\
    last (trace (snd (snd (connect_gripper (g, w)))))
    = Some (Printed [Text (py "Gripper error: "); Err e]).
Proof.
  unfold connect_gripper, set_gripper. grun.
  intros [H|(v & H & H')]; rewrite H; grun.
  - exists 1. tally. split; [reflexivity|]. split; [reflexivity|].
    rewrite last_app. reflexivity.
  - cbn [gripper fst snd]. grun. rewrite H'. grun.
    exists 2. tally. split; [reflexivity|]. split; [reflexivity|].
    rewrite last_app. reflexivity.
Qed.

(** X17. Once connected, [connect_gripper] asks whether the gripper is
    active: an active gripper is left alone, an inactive one is activated and
    then opened at [griper_open]. *)
Theorem connect_gripper_moves_only_an_inactive_gripper
    (g : FingerGripperController) (w : world) (v0 v1 active : value) :
  oracle w (clock w) = Returns v0 ->
  oracle w (Datatypes.S (clock w)) = Returns v1 ->
  oracle w (Datatypes.S (Datatypes.S (clock w))) = Returns active ->
  exists n,
    calls (trace (snd (snd (connect_gripper (g, w)))))
    = calls (trace w) ++ greeting g ++ take n (activation g) /\
    (truthy active = true -> n = 0 /\ fst (connect_gripper (g, w)) = Ok tt) /\
    (truthy active = false -> fst (connect_gripper (g, w)) = Ok tt -> n = 2).
Proof.
  intros H0 H1 H2. unfold connect_gripper, set_gripper, greeting, activation. grun.
  rewrite H0. grun. cbn [gripper fst snd host PORT]. grun. rewrite H1. grun.
  cbn [gripper fst snd]. grun. rewrite H2. grun.
  destruct (truthy active); grun.
  - exists 0. tally. split; [reflexivity|]. split; [auto|discriminate].
  - cbn [gripper fst snd griper_open gripper_speed gripper_force]. grun.
    destruct (oracle w (Datatypes.S (Datatypes.S (Datatypes.S (clock w))))); grun;
      [|exists 1; tally; split; [reflexivity|]; split; discriminate].
    cbn [gripper fst snd griper_open gripper_speed gripper_force]. grun.
    destruct (oracle w (Datatypes.S (Datatypes.S (Datatypes.S (Datatypes.S (clock w))))));
      grun; (exists 2; tally; split; [reflexivity|]; split; [discriminate|reflexivity]).
Qed.

(** X18. [disconnect_gripper] never raises and leaves the controller as it
    is: with a gripper driver it makes the one [disconnect] call, whose failure
    is printed; without one it makes no call. *)
Theorem disconnect_gripper_never_raises (g : FingerGripperController) (w : world) :
  exists w',
    disconnect_gripper (g, w) = (Ok tt, (g, w')) /\
    calls (trace w')
    = calls (trace w) ++ (if gripper g then [gripper_disconnect] else []).
Proof.
  unfold disconnect_gripper. grun.
  destruct (gripper g); grun.
  - destruct (oracle w (clock w)); grun; eexists; (split; [reflexivity|]); tally; reflexivity.
  - eexists. split; [reflexivity|]. tally. reflexivity.
Qed.

(** X19. When the gripper driver cannot be constructed, the controller is
    constructed all the same, without the attribute [gripper]; a [pick] on it
    moves the arm above the goal and to the goal, and only then raises
    [AttributeError]. *)
Theorem pick_without_a_gripper_moves_the_arm_first {B : Builtins}
    (hostname : str) (port : Z) (w : world) (e : exn) (v1 v2 : value)
    (goal pose : list float) (a : option str) (d : option float) :
  oracle w (clock w) = Raises e ->
  oracle w (Datatypes.S (clock w)) = Returns v1 ->
  oracle w (Datatypes.S (Datatypes.S (clock w))) = Returns v2 ->
  goal <> [] ->
  (forall s : FingerGripperController * world, above (Some goal) a d s = (Ok pose, s)) ->
  exists g w1 w2,
    init hostname port true w = (Ok g, w1) /\
    pick (Some goal) a d (g, w1)
    = (Raise (AttributeError "'FingerGripperController' object has no attribute 'gripper'"),
       (g, w2)) /\
    calls (trace w2)
    = calls (trace w)
      ++ [RobotiqGripper_new;
          ur_movel (Some pose) (acceleration g) (velocity g);
          ur_movel (Some goal) (acceleration g) (velocity g)].
Proof.
  intros H0 H1 H2 Hg Habove.
  unfold init, connect_gripper, set_gripper. cbn [negb]. grun. rewrite H0. grun.
  do 3 eexists. split; [reflexivity|].
  unfold pick. destruct goal as [|x goal]; [congruence|].
  rewrite (DashboardFacts.bind_run _ _ _ _ _ (Habove _)). grun.
  rewrite H1. grun. rewrite H2. grun. cbn [gripper]. grun.
  split; [reflexivity|]. tally. reflexivity.
Qed.

(** X30. A [transfer] that returns has picked at the source and then placed
    at the target: its SDK calls are the four calls of the pick, with the
    gripper sent to [gripper_close], followed by the four calls of the place,
    with the gripper sent to [griper_open]; the controller is unchanged and
    the last thing printed is that the place is completed. *)
Theorem transfer_picks_and_then_places {B : Builtins}
    (g : FingerGripperController) (w : world) (source target above_source above_target : list float)
    (source_approach_axis target_approach_axis : option str)
    (source_approach_distance target_approach_distance : option float)
    (s' : FingerGripperController * world) :
  (forall s : FingerGripperController * world,
     above (Some source) source_approach_axis source_approach_distance s
     = (Ok above_source, s)) ->
  (forall s : FingerGripperController * world,
     above (Some target) target_approach_axis target_approach_distance s
     = (Ok above_target, s)) ->
  transfer (Some source) (Some target) source_approach_axis target_approach_axis
    source_approach_distance target_approach_distance (g, w) = (Ok tt, s') ->
  fst s' = g /\
  calls (trace (snd s'))
  = calls (trace w)
    ++ visit g above_source source (gripper_close g)
    ++ visit g above_target target (griper_open g) /\
  last (trace (snd s')) = Some (Printed [Text (py "Place completed")]).
Proof.
  intros Hs Ht H. unfold transfer in H.
  apply DashboardFacts.bind_returns in H as ([] & [g1 w1] & E1 & H).
  apply DashboardFacts.bind_returns in H as ([] & s2 & E2 & H). injection E2 as <-.
  apply DashboardFacts.bind_returns in H as ([] & [g3 w3] & E3 & H). injection H as <-.
  assert (Hsource : source <> []) by (intros ->; discriminate E1).
  assert (Htarget : target <> []) by (intros ->; discriminate E3).
  destruct (pick_sequence g w source above_source source_approach_axis
              source_approach_distance Hsource (Hs _)) as (n1 & C1 & G1 & N1).
  rewrite E1 in C1, G1, N1. cbn [fst snd] in C1, G1, N1. subst g1.
  rewrite (N1 eq_refl) in C1.
  destruct (place_sequence g (record (Printed [Text (py "Pick up completed")]) w1)
              target above_target target_approach_axis
              target_approach_distance Htarget (Ht _)) as (n2 & C2 & G2 & N2).
  cbn [fst snd with_world world_of pair_HasWorld] in E3.
  rewrite E3 in C2, G2, N2. cbn [fst snd] in C2, G2, N2. subst g3.
  rewrite (N2 eq_refl) in C2.
  cbn [fst snd with_world world_of pair_HasWorld record trace].
  split; [reflexivity|]. split.
  - rewrite calls_app, C2. cbn [record trace]. rewrite calls_app, C1.
    cbn [calls take]. rewrite !app_nil_r, <- app_assoc. reflexivity.
  - rewrite last_app. reflexivity.
Qed.

End GripperFacts.

(* ===================================================================== *)
(** * The task facade *)
(* ===================================================================== *)

Module DriverFacts.
Import Driver PyFacts.

#[local] Opaque py.

Lemma try_except_raise {S A} (body : M S A) (handler : exn -> M S A) (s s' : S) (e : exn) :
  body s = (Raise e, s') -> try_except body handler s = handler e s'.
Proof. intros E. unfold try_except. rewrite E. reflexivity. Qed.

(** C7. Without a source or without a target, [gripper_transfer] raises at
    once: the facade, the robot and the log are as they were, so no homing
    move and no linear move has been sent. *)
Theorem gripper_transfer_requires_both_ends {B : Builtins}
    (home_ source target : option (list float))
    (source_approach_axis target_approach_axis : option str)
    (source_approach_distance target_approach_distance : option float)
    (gripper_open gripper_close : option Z) (f : frame) :
  given source = false \/ given target = false ->
  gripper_transfer home_ source target source_approach_axis target_approach_axis
    source_approach_distance target_approach_distance gripper_open gripper_close f
  = (Raise (Exception
             (py "Please provide both the source and target loactions to make a transfer")),
     f).
Proof.
  intros H. unfold gripper_transfer.
  assert (E : negb (given source) || negb (given target) = true)
    by (destruct H as [-> | ->]; [reflexivity | apply orb_true_r]).
  rewrite E. reflexivity.
Qed.

Lemma try_finally_unit {S} (body final : M S unit) (s s' : S) :
  body s = (Ok tt, s') -> try_finally body final s = final s'.
Proof.
  intros E. unfold try_finally. rewrite E.
  destruct (final s') as [[[]|e|] s'']; reflexivity.
Qed.

Lemma handler_run (e : exn) (f : frame) :
  World.print [Err e] f = (Ok tt, printed e f).
Proof. reflexivity. Qed.

Lemma caught {B : Builtins} (body : T unit) (f0 f1 : frame) (e : exn) :
  body f0 = (Raise e, f1) ->
  try_except body (fun err => World.print [Err err]) f0 = (Ok tt, printed e f1).
Proof. intros E. rewrite (try_except_raise _ _ _ _ _ E). apply handler_run. Qed.

Ltac cases_of m :=
  let e := fresh "e" in let f := fresh "f" in let E := fresh "E" in
  destruct m as [[[]|e|] f] eqn:E.

(** A method of the shape [entry; try: body; except: print; finally: final]
    raises only what its entry or its [finally] block raises. *)
Lemma raises_from_entry_or_finally (en body final : T unit) (f f' : frame) (e : exn) :
  (en;; try_finally (try_except body (fun err => World.print [Err err])) final) f
  = (Raise e, f') ->
  en f = (Raise e, f') \/ exists f1, final f1 = (Raise e, f').
Proof.
  unfold mbind, M_bind, bind, try_finally, try_except.
  cases_of (en f); [|auto|discriminate].
  cases_of (body f0); [| rewrite handler_run |discriminate];
    match goal with |- context [final ?x] => cases_of (final x) end;
    intros H; try discriminate H; right; eexists; rewrite <- H; eassumption.
Qed.

(** A method of the shape [entry; try: body; except: print] raises only what
    its entry raises. *)
Lemma raises_from_entry (en body : T unit) (f f' : frame) (e : exn) :
  (en;; try_except body (fun err => World.print [Err err])) f = (Raise e, f') ->
  en f = (Raise e, f').
Proof.
  unfold mbind, M_bind, bind, try_except.
  cases_of (en f); [|auto|discriminate].
  cases_of (body f0); [| rewrite handler_run |]; discriminate.
Qed.

(** C2, as the code has it.  In each of the seven task methods an exception
    raised inside the [try] is caught and printed, and the method goes on with
    its own aftermath: disconnecting the gripper and homing in
    [gripper_transfer], disconnecting only in [gripper_screw_transfer] and
    [pick_and_flip_object], homing only in [robotiq_screwdriver_transfer],
    nothing in [remove_cap], [place_cap] and [pipette_transfer].  The method
    ends as that aftermath ends; an exception that reaches the caller was
    raised before the [try] or by the aftermath, never inside the [try]. *)
Theorem task_exception_is_printed {B : Builtins} (t : task) (f : frame) :
  (forall f0 f1 e,
     entry t f = (Ok tt, f0) ->
     attempt t f0 = (Raise e, f1) ->
     run t f = aftermath t (printed e f1))
  /\
  (forall e f',
     run t f = (Raise e, f') ->
     entry t f = (Raise e, f') \/ exists f1, aftermath t f1 = (Raise e, f')).
Proof.
  split.
  - intros f0 f1 e Hentry Hattempt.
    destruct t; cbn [run entry attempt aftermath] in *.
    + unfold gripper_transfer.
      destruct (negb (given source) || negb (given target)); [discriminate|].
      rewrite (DashboardFacts.bind_run _ _ _ _ _ Hentry).
      apply try_finally_unit, caught, Hattempt.
    + unfold gripper_screw_transfer.
      rewrite (DashboardFacts.bind_run _ _ _ _ _ Hentry).
      apply try_finally_unit, caught, Hattempt.
    + unfold remove_cap.
      rewrite (DashboardFacts.bind_run _ _ _ _ _ Hentry).
      apply caught, Hattempt.
    + unfold place_cap.
      rewrite (DashboardFacts.bind_run _ _ _ _ _ Hentry).
      apply caught, Hattempt.
    + unfold pick_and_flip_object.
      rewrite (DashboardFacts.bind_run _ _ _ _ _ Hentry).
      apply try_finally_unit, caught, Hattempt.
    + unfold robotiq_screwdriver_transfer.
      rewrite (DashboardFacts.bind_run _ _ _ _ _ Hentry).
      rewrite (DashboardFacts.bind_run _ _ _ _ _ (caught _ _ _ _ Hattempt)).
      reflexivity.
    + unfold pipette_transfer.
      destruct (negb (given tip_loc) || negb (given source)); [discriminate|].
      injection Hentry as <-.
      apply try_finally_unit, caught, Hattempt.
  - intros e f'.
    destruct t; cbn [run entry aftermath].
    + unfold gripper_transfer.
      destruct (negb (given source) || negb (given target)); [auto|].
      apply raises_from_entry_or_finally.
    + apply raises_from_entry_or_finally.
    + intros H. left. exact (raises_from_entry _ _ _ _ _ H).
    + intros H. left. exact (raises_from_entry _ _ _ _ _ H).
    + apply raises_from_entry_or_finally.
    + unfold robotiq_screwdriver_transfer, mbind, M_bind, bind, try_except.
      cases_of (home home_ f); [|auto|discriminate].
      cases_of (robotiq_screwdriver_transfer_try f0);
        [| rewrite handler_run |discriminate]; intros H; right; eexists; exact H.
    + unfold pipette_transfer.
      destruct (negb (given tip_loc) || negb (given source)); [auto|].
      unfold try_finally, try_except.
      cases_of (pipette_transfer_try home_ f); [| rewrite handler_run |]; discriminate.
Qed.

(** The positions [override] leaves in the controller: the closing position
    is the one passed, when it is not zero; the opening position that [place]
    and [connect_gripper] read, [griper_open], is never written. *)
Lemma override_leaves_griper_open
    (gripper_open gripper_close : option Z) (f f' : frame)
    (g g' : Gripper.FingerGripperController) :
  gripper_controller f = Some g ->
  override gripper_open gripper_close f = (Ok tt, f') ->
  gripper_controller f' = Some g' ->
  Gripper.griper_open g' = Gripper.griper_open g /\
  (nonzero gripper_close = true -> Some (Gripper.gripper_close g') = gripper_close).
Proof.
  intros Hg. unfold override, on_gripper_controller, set_gripper_open, set_gripper_close.
  cbv [mbind mret M_bind M_ret bind ret modify].
  destruct gripper_open as [[|o|o]|], gripper_close as [[|c|c]|];
    cbn [nonzero Z.eqb negb gripper_controller default fst snd]; rewrite ?Hg;
    cbn [nonzero Z.eqb negb gripper_controller default fst snd];
    intros [= <-] H; cbn [gripper_controller] in H; rewrite ?Hg in H;
    injection H as <-;
    cbn [Gripper.griper_open Gripper.gripper_close id]; split; auto; discriminate.
Qed.

(** ** The polling loop of [run_urp_program] *)

(** The comparison of two readings is equality of the formatted angles. *)
Lemma angles_eqb_eq (a b : list str) : angles_eqb a b = true <-> a = b.
Proof.
  revert b; induction a as [|x a IH]; intros [|y b]; simpl; try easy.
  rewrite andb_true_iff, eqb_eq, IH. split.
  - intros [-> ->]; reflexivity.
  - intros [= -> ->]; auto.
Qed.

Section Polling.
Context {B : Builtins}.

(** A poll reports READY exactly when it reads what was remembered. *)
Lemma unchanged_same (f : frame) (j : nat) :
  unchanged f j = true <-> same_reading f j.
Proof.
  unfold unchanged, same_reading.
  destruct (remembered f j) as [previous|], (polled f j) as [current|].
  - rewrite angles_eqb_eq. split.
    + intros ->. eauto.
    + intros (angles & [= ->] & [= ->]). reflexivity.
  - split; [discriminate|]. intros (angles & _ & H). discriminate H.
  - split; [discriminate|]. intros (angles & H & _). discriminate H.
  - split; [discriminate|]. intros (angles & H & _). discriminate H.
Qed.

Lemma ready_count_nonneg (f : frame) (k : nat) : (0 <= ready_count f k)%Z.
Proof.
  induction k as [|k IH]; cbn [ready_count]; [lia|].
  destruct (unchanged f k); lia.
Qed.

(** The counter is at least [c] exactly when the last [c] polls were READY. *)
Lemma ready_count_window (f : frame) (k c : nat) :
  (Z.of_nat c <= ready_count f k)%Z
  <-> c <= k /\ forall i, k - c <= i < k -> unchanged f i = true.
Proof.
  revert c; induction k as [|k IH]; intros c; cbn [ready_count].
  - split; [intros H|intros [H _]]; [split; [lia|intros i Hi; lia] | lia].
  - destruct (unchanged f k) eqn:Hu.
    + destruct c as [|c].
      * pose proof (ready_count_nonneg f k). split; [intros _|lia].
        split; [lia|intros i Hi; lia].
      * specialize (IH c). split.
        -- intros H. destruct IH as [IH _]. destruct IH as [Hc Hw]; [lia|].
           split; [lia|]. intros i Hi.
           destruct (decide (i = k)) as [->|Hne]; [exact Hu|]. apply Hw. lia.
        -- intros [Hc Hw]. destruct IH as [_ IH].
           assert (Z.of_nat c <= ready_count f k)%Z; [|lia].
           apply IH. split; [lia|]. intros i Hi. apply Hw. lia.
    + split.
      * intros H. assert (c = 0) as -> by lia. split; [lia|intros i Hi; lia].
      * intros [Hc Hw]. destruct c as [|c]; [lia|].
        rewrite (Hw k) in Hu by lia. discriminate.
Qed.

Lemma six_ready_count (f : frame) (n : nat) :
  six_ready f n <-> (6 <= ready_count f (Datatypes.S n))%Z.
Proof.
  change 6%Z with (Z.of_nat 6). rewrite ready_count_window. unfold six_ready.
  split; intros [H1 H2]; (split; [lia|]); intros i Hi; apply unchanged_same, H2; lia.
Qed.

Lemma after_polls_0 (f : frame) : after_polls f 0 = f.
Proof.
  destruct f as [[h a v r] m g [o c t]]. unfold after_polls. simpl.
  rewrite Nat.add_0_r, app_nil_r. reflexivity.
Qed.

(** One pass of the loop body, from the state [k] polls have left. *)
Lemma poll_run (f : frame) (k : nat) (program_status : str) (ready_status_count : Z)
    (current : list str) :
  polled f k = Some current ->
  poll program_status ready_status_count (after_polls f k)
  = (Ok (if unchanged f k then
           (if (6 <=? ready_status_count + 1)%Z then py "READY" else program_status,
            (ready_status_count + 1)%Z)
         else (program_status, 0%Z)),
     after_polls f (Datatypes.S k)).
Proof.
  intros Hp. unfold unchanged. rewrite Hp.
  assert (Ho : exists l, oracle (outside f) (clock (outside f) + k) = Returns (VList l)
                         /\ current = List.map fmt2f l).
  { unfold polled in Hp.
    destruct (oracle (outside f) (clock (outside f) + k)) as [[| |l]|]; try discriminate.
    injection Hp as <-. eauto. }
  destruct Ho as (l & Ho & ->).
  assert (Hnext : after_polls f (Datatypes.S k)
    = {| this := {| hostname := hostname (this f); acceleration := acceleration (this f);
                    velocity := velocity (this f);
                    robot_current_joint_angles := Some (List.map fmt2f l) |};
         module := module f; gripper_controller := gripper_controller f;
         outside := {| oracle := oracle (outside f);
                       clock := Datatypes.S (clock (outside f) + k);
                       trace := ((trace (outside f) ++ polls_log f k)
                                 ++ [Called ur_getj (Returns (VList l))]) ++ [Slept 3] |} |}).
  { unfold after_polls. cbn [remembered polls_log]. rewrite Hp, Ho.
    rewrite <- !app_assoc, Nat.add_succ_r. reflexivity. }
  rewrite Hnext.
  unfold poll, get_movement_state, set_angles.
  cbv [mbind mret M_bind M_ret bind ret raise get modify sdk World.sleep emit
       world_of with_world frame_HasWorld record tick].
  cbn [after_polls outside oracle clock trace this module gripper_controller
       robot_current_joint_angles hostname acceleration velocity].
  rewrite Ho, (sleep_short 3%float eq_refl eq_refl).
  cbn [after_polls outside oracle clock trace this module gripper_controller
       robot_current_joint_angles hostname acceleration velocity].
  destruct (remembered f k) as [previous|].
  - destruct (angles_eqb previous (List.map fmt2f l)).
    + change (Py.eqb (py "READY") (py "READY")) with true. cbv iota. reflexivity.
    + change (Py.eqb (py "BUSY") (py "READY")) with false. cbv iota. reflexivity.
  - change (Py.eqb (py "BUSY") (py "READY")) with false. cbv iota. reflexivity.
Qed.

Lemma polling_unfold (fuel : nat) (ready_status_count : Z) (f : frame) :
  polling (Datatypes.S fuel) (py "BUSY") ready_status_count f
  = ('(program_status, ready_status_count) ← poll (py "BUSY") ready_status_count;
     polling fuel program_status ready_status_count) f.
Proof. reflexivity. Qed.

Lemma polling_done (fuel : nat) (ready_status_count : Z) (f : frame) :
  polling fuel (py "READY") ready_status_count f = (Ok tt, f).
Proof. destruct fuel; reflexivity. Qed.

(** While no six polls in a row were READY, the loop goes on. *)
Lemma polling_goes_on (f : frame) (n : nat) :
  (forall j, j < n -> is_Some (polled f j)) ->
  (forall k, k <= n -> (ready_count f k < 6)%Z) ->
  forall m k, k + m = n ->
    polling m (py "BUSY") (ready_count f k) (after_polls f k) = (Running, after_polls f n).
Proof.
  intros Hp Hc. induction m as [|m IH]; intros k Hk.
  - replace k with n by lia. reflexivity.
  - destruct (Hp k) as [current Hcur]; [lia|].
    rewrite polling_unfold, (DashboardFacts.bind_run _ _ _ _ _ (poll_run f k _ _ _ Hcur)).
    pose proof (Hc (Datatypes.S k)) as Hnext. cbn [ready_count] in Hnext.
    destruct (unchanged f k) eqn:Hu.
    + destruct (6 <=? ready_count f k + 1)%Z eqn:H6; [apply Z.leb_le in H6; lia|].
      rewrite <- (IH (Datatypes.S k)) by lia. cbn [ready_count]. rewrite Hu. reflexivity.
    + rewrite <- (IH (Datatypes.S k)) by lia. cbn [ready_count]. rewrite Hu. reflexivity.
Qed.

(** The poll that completes six READY polls in a row ends the loop. *)
Lemma polling_ends (f : frame) (n : nat) :
  (forall j, j <= n -> is_Some (polled f j)) ->
  (forall k, k <= n -> (ready_count f k < 6)%Z) ->
  (6 <= ready_count f (Datatypes.S n))%Z ->
  forall m k fuel, k + m = n -> m < fuel ->
    polling fuel (py "BUSY") (ready_count f k) (after_polls f k)
    = (Ok tt, after_polls f (Datatypes.S n)).
Proof.
  intros Hp Hc H6. induction m as [|m IH]; intros k fuel Hk Hfuel;
    (destruct fuel as [|fuel]; [lia|]);
    (destruct (Hp k) as [current Hcur]; [lia|]);
    rewrite polling_unfold, (DashboardFacts.bind_run _ _ _ _ _ (poll_run f k _ _ _ Hcur)).
  - assert (k = n) as -> by lia. cbn [ready_count] in H6.
    destruct (unchanged f n); [|lia].
    destruct (6 <=? ready_count f n + 1)%Z eqn:H; [|apply Z.leb_gt in H; lia].
    apply polling_done.
  - pose proof (Hc (Datatypes.S k)) as Hnext. cbn [ready_count] in Hnext.
    destruct (unchanged f k) eqn:Hu.
    + destruct (6 <=? ready_count f k + 1)%Z eqn:H; [apply Z.leb_le in H; lia|].
      rewrite <- (IH (Datatypes.S k) fuel) by lia. cbn [ready_count]. rewrite Hu.
      reflexivity.
    + rewrite <- (IH (Datatypes.S k) fuel) by lia. cbn [ready_count]. rewrite Hu.
      reflexivity.
Qed.

Lemma no_window_count (f : frame) (n : nat) :
  (forall m, m < n -> ~ six_ready f m) ->
  forall k, k <= n -> (ready_count f k < 6)%Z.
Proof.
  intros H [|k] Hk; [cbn; lia|].
  destruct (Z.lt_ge_cases (ready_count f (Datatypes.S k)) 6) as [|Hge]; [assumption|].
  exfalso. apply (H k); [lia|]. apply six_ready_count, Hge.
Qed.

End Polling.

(** C4. The polling loop of [run_urp_program], started with the status BUSY
    and the counter at zero, on a robot that answers every poll with joint
    angles: as long as no six polls in a row have found the joint angles
    unchanged (each reading, formatted with two decimals, equal to the one
    before it) the loop is still polling; the poll that completes the first
    six such polls in a row ends it, after one [getj] and one sleep of three
    seconds per poll; and in each pass a poll that reads what was remembered
    adds one to the counter while any other poll puts it back to zero. *)
Theorem polling_ends_after_six_ready_polls {B : Builtins} (f : frame) (n : nat) :
  (forall j, j <= n -> is_Some (polled f j)) ->
  (forall m, m < n -> ~ six_ready f m) ->
  (exists f', polling n (py "BUSY") 0 f = (Running, f')
              /\ clock (outside f') = clock (outside f) + n)
  /\
  (six_ready f n ->
   forall fuel, n < fuel ->
     exists f', polling fuel (py "BUSY") 0 f = (Ok tt, f')
                /\ clock (outside f') = clock (outside f) + Datatypes.S n
                /\ trace (outside f') = trace (outside f) ++ polls_log f (Datatypes.S n))
  /\
  (forall program_status ready_status_count,
     exists f',
       poll program_status ready_status_count f
       = (Ok (if decide (remembered f 0 = polled f 0) then
                (if (6 <=? ready_status_count + 1)%Z then py "READY" else program_status,
                 (ready_status_count + 1)%Z)
              else (program_status, 0%Z)), f')
       /\ trace (outside f')
          = trace (outside f)
            ++ [Called ur_getj (oracle (outside f) (clock (outside f))); Slept 3]).
Proof.
  intros Hp Hw.
  pose proof (no_window_count f n Hw) as Hc.
  split; [|split].
  - exists (after_polls f n). split; [|reflexivity].
    rewrite <- (after_polls_0 f) at 1.
    apply (polling_goes_on f n) with (m := n) (k := 0); auto.
    intros j Hj. apply Hp. lia.
  - intros H6 fuel Hfuel. exists (after_polls f (Datatypes.S n)).
    split; [|split; reflexivity].
    rewrite <- (after_polls_0 f) at 1.
    apply (polling_ends f n Hp Hc) with (m := n) (k := 0); [|lia|lia].
    apply six_ready_count, H6.
  - intros program_status ready_status_count.
    destruct (Hp 0) as [current Hcur]; [lia|].
    exists (after_polls f 1). split.
    + rewrite <- (after_polls_0 f) at 1. rewrite (poll_run f 0 _ _ _ Hcur).
      replace (unchanged f 0) with (bool_decide (remembered f 0 = polled f 0)).
      * destruct (decide (remembered f 0 = polled f 0)) as [E|E];
          [rewrite (bool_decide_eq_true_2 _ E)|rewrite (bool_decide_eq_false_2 _ E)];
          reflexivity.
      * destruct (decide (remembered f 0 = polled f 0)) as [E|E].
        -- rewrite (bool_decide_eq_true_2 _ E). symmetry. apply unchanged_same.
           exists current. rewrite E. auto.
        -- rewrite (bool_decide_eq_false_2 _ E). symmetry.
           destruct (unchanged f 0) eqn:Hu; [|reflexivity].
           apply unchanged_same in Hu as (angles & H1 & H2). congruence.
    + cbn [after_polls outside trace polls_log app]. rewrite Nat.add_0_r. reflexivity.
Qed.

(** ** How long the polling takes *)

Section Polls.
Context {B : Builtins}.

Ltac trun :=
  cbv [mbind mret M_bind M_ret bind ret raise get modify sdk World.sleep World.print emit
       world_of with_world frame_HasWorld record tick];
  cbn [outside oracle clock trace this module gripper_controller
       robot_current_joint_angles hostname acceleration velocity fst snd].

(** A pass of the loop that goes through has made one [getj] call, and has
    either put the counter back to zero or added one to it. *)
Lemma poll_returns (program_status : str) (ready_status_count : Z) (f f' : frame)
    (program_status' : str) (ready_status_count' : Z) :
  poll program_status ready_status_count f
  = (Ok (program_status', ready_status_count'), f') ->
  clock (outside f') = Datatypes.S (clock (outside f)) /\
  calls (trace (outside f')) = calls (trace (outside f)) ++ [ur_getj] /\
  (program_status' = program_status /\ ready_status_count' = 0%Z
   \/ ready_status_count' = (ready_status_count + 1)%Z /\
      program_status' = if (6 <=? ready_status_count + 1)%Z then py "READY"
                        else program_status).
Proof.
  unfold poll, get_movement_state, set_angles. trun.
  destruct (oracle (outside f) (clock (outside f))) as [[| |l]|e]; try discriminate.
  trun. rewrite (sleep_short 3%float eq_refl eq_refl). trun.
  assert (Hcalls : forall t, calls ((t ++ [Called ur_getj (Returns (VList l))]) ++ [Slept 3])
                             = calls t ++ [ur_getj])
    by (intros t; rewrite !GripperFacts.calls_app; cbn [calls]; rewrite app_nil_r; reflexivity).
  destruct (robot_current_joint_angles (this f)) as [previous|];
    [destruct (angles_eqb previous (List.map fmt2f l))|].
  - change (Py.eqb (py "READY") (py "READY")) with true. cbv iota.
    intros [= <- <- <-]. cbn [outside clock trace]. auto.
  - change (Py.eqb (py "BUSY") (py "READY")) with false. cbv iota.
    intros [= <- <- <-]. cbn [outside clock trace]. auto.
  - change (Py.eqb (py "BUSY") (py "READY")) with false. cbv iota.
    intros [= <- <- <-]. cbn [outside clock trace]. auto.
Qed.

Lemma polling_needs (fuel : nat) :
  forall (ready_status_count : Z) (f f' : frame),
    (0 <= ready_status_count)%Z ->
    polling fuel (py "BUSY") ready_status_count f = (Ok tt, f') ->
    exists k,
      (6 - ready_status_count <= Z.of_nat k)%Z /\
      clock (outside f') = clock (outside f) + k /\
      calls (trace (outside f')) = calls (trace (outside f)) ++ repeat ur_getj k.
Proof.
  induction fuel as [|fuel IH]; intros c f f' H0 H.
  - change ((Running, f) = (Ok tt, f')) in H. discriminate H.
  - rewrite polling_unfold in H. unfold mbind, M_bind, bind in H.
    destruct (poll (py "BUSY") c f) as [[[ps' c']|e|] f1] eqn:Hp; try discriminate H.
    apply poll_returns in Hp as (Hclock & Hcalls & [[-> ->]|[-> ->]]).
    + apply IH in H as (k & Hk & Hc & Ht); [|lia]. exists (Datatypes.S k).
      rewrite Hc, Ht, Hclock, Hcalls, <- app_assoc. cbn [repeat app].
      split; [lia|]. split; [lia|reflexivity].
    + destruct (6 <=? c + 1)%Z eqn:H6.
      * rewrite polling_done in H. injection H as <-. exists 1.
        rewrite Hclock, Hcalls. cbn [repeat]. apply Z.leb_le in H6.
        split; [lia|]. split; [lia|reflexivity].
      * apply IH in H as (k & Hk & Hc & Ht); [|lia]. exists (Datatypes.S k).
        rewrite Hc, Ht, Hclock, Hcalls, <- app_assoc. cbn [repeat app].
        split; [lia|]. split; [lia|reflexivity].
Qed.

Lemma sdk_then {A} (c : call) (k : value -> T A) (f f' : frame) (a : A) :
  (sdk c ≫= k) f = (Ok a, f') ->
  exists v f1,
    k v f1 = (Ok a, f') /\
    clock (outside f1) = Datatypes.S (clock (outside f)) /\
    calls (trace (outside f1)) = calls (trace (outside f)) ++ [c].
Proof.
  trun. destruct (oracle (outside f) (clock (outside f))) as [v|e]; [|discriminate].
  intros H. do 2 eexists. split; [exact H|]. cbn [outside clock trace].
  rewrite GripperFacts.calls_app. auto.
Qed.

Lemma sleep_then {A} (seconds : float) (k : unit -> T A) (f f' : frame) (a : A) :
  (sleep seconds ≫= k) f = (Ok a, f') ->
  exists f1,
    k tt f1 = (Ok a, f') /\
    clock (outside f1) = clock (outside f) /\
    calls (trace (outside f1)) = calls (trace (outside f)).
Proof.
  trun. destruct (sleep_error seconds); [discriminate|].
  intros H. eexists. split; [exact H|]. cbn [outside clock trace].
  rewrite GripperFacts.calls_app. cbn [calls]. rewrite app_nil_r. auto.
Qed.

Lemma print_then {A} (items : list pitem) (k : unit -> T A) (f f' : frame) (a : A) :
  (print items ≫= k) f = (Ok a, f') ->
  exists f1,
    k tt f1 = (Ok a, f') /\
    clock (outside f1) = clock (outside f) /\
    calls (trace (outside f1)) = calls (trace (outside f)).
Proof.
  trun. intros H. eexists. split; [exact H|]. cbn [outside clock trace].
  rewrite GripperFacts.calls_app. cbn [calls]. rewrite app_nil_r. auto.
Qed.

Lemma run_urp_program_returns (fuel : nat) (transfer_file_path : option str)
    (program_name : str) (f f' : frame) (log : list (str * str)) :
  run_urp_program fuel transfer_file_path (Some program_name) f = (Ok log, f') ->
  log = success_log program_name /\
  exists k,
    6 <= k /\
    calls (trace (outside f'))
    = calls (trace (outside f))
      ++ (if given transfer_file_path then [external "ur_dashboard.transfer_program"]
          else [])
      ++ [external "ur_dashboard.load_program"; external "ur_dashboard.run_program"]
      ++ repeat ur_getj k.
Proof.
  unfold run_urp_program. destruct program_name as [|c name]; [discriminate|].
  intros H.
  assert (H0 : exists f0,
             (sdk (external "ur_dashboard.load_program");;
              sleep 2;;
              sdk (external "ur_dashboard.run_program");;
              sleep 5;;
              print [Text (py "Running the URP program: "); Text (c :: name)];;
              polling fuel (py "BUSY") 0;;
              mret [(py "output_code", py "0");
                    (py "output_msg", py "Successfully finished " ++ c :: name);
                    (py "output_log", py "seconds_elapsed:" ++ decimal 0)]) f0
             = (Ok log, f') /\
             calls (trace (outside f0))
             = calls (trace (outside f))
               ++ (if given transfer_file_path
                   then [external "ur_dashboard.transfer_program"] else [])).
  { destruct transfer_file_path as [[|p path]|]; cbn [given].
    - exists f. rewrite app_nil_r. auto.
    - unfold mbind at 1, M_bind at 1, bind at 1 in H.
      destruct ((sdk (external "ur_dashboard.transfer_program");; sleep 2) f)
        as [[[]|e|] f0] eqn:E; try discriminate H.
      exists f0. split; [exact H|].
      apply sdk_then in E as (v & f1 & E & _ & H1).
      unfold World.sleep in E. destruct (sleep_error 2); [discriminate E|].
      injection E as <-. cbn [outside trace with_world frame_HasWorld record world_of].
      rewrite GripperFacts.calls_app, H1. cbn [calls]. rewrite app_nil_r. reflexivity.
    - exists f. rewrite app_nil_r. auto. }
  clear H. destruct H0 as (f0 & H & H0).
  apply sdk_then in H as (v1 & f1 & H & _ & H1).
  apply sleep_then in H as (f2 & H & _ & H2).
  apply sdk_then in H as (v3 & f3 & H & _ & H3).
  apply sleep_then in H as (f4 & H & _ & H4).
  apply print_then in H as (f5 & H & _ & H5).
  unfold mbind, M_bind, bind in H.
  destruct (polling fuel (py "BUSY") 0 f5) as [[[]|e|] f6] eqn:Hp; try discriminate H.
  injection H as <- <-.
  apply polling_needs in Hp as (k & Hk & _ & Ht); [|lia].
  split; [reflexivity|]. exists k. split; [lia|].
  rewrite Ht, H5, H4, H3, H2, H1, H0, <- !app_assoc. reflexivity.
Qed.

End Polls.

(** X22. When the polling loop of [run_urp_program] ends, it has made at
    least six polls, one [getj] call each. *)
Theorem polling_takes_six_polls {B : Builtins} (fuel : nat) (f f' : frame) :
  polling fuel (py "BUSY") 0 f = (Ok tt, f') ->
  exists k,
    6 <= k /\
    clock (outside f') = clock (outside f) + k /\
    calls (trace (outside f')) = calls (trace (outside f)) ++ repeat ur_getj k.
Proof.
  intros H. apply polling_needs in H as (k & Hk & H); [|lia]. exists k. split; [lia|exact H].
Qed.

(** X23. [run_urp_program] raises [ValueError] at once without a program
    name; and whenever it returns, its log reports output code 0, success and
    zero seconds elapsed, after the dashboard was asked to transfer the program
    (only with a file path), to load it and to run it, and after at least six
    polls. *)
Theorem run_urp_program_always_reports_success {B : Builtins}
    (fuel : nat) (transfer_file_path program_name : option str) (f : frame) :
  (given program_name = false ->
   run_urp_program fuel transfer_file_path program_name f
   = (Raise (ValueError (py "Provide program name!")), f))
  /\
  (forall log f',
     run_urp_program fuel transfer_file_path program_name f = (Ok log, f') ->
     exists name k,
       program_name = Some name /\
       log = success_log name /\
       6 <= k /\
       calls (trace (outside f'))
       = calls (trace (outside f))
         ++ (if given transfer_file_path then [external "ur_dashboard.transfer_program"]
             else [])
         ++ [external "ur_dashboard.load_program"; external "ur_dashboard.run_program"]
         ++ repeat ur_getj k).
Proof.
  split.
  - destruct program_name as [[|c name]|]; [reflexivity|discriminate|reflexivity].
  - intros log f' H. destruct program_name as [name|]; [|discriminate H].
    apply run_urp_program_returns in H as (Hlog & k & Hk & Hcalls).
    exists name, k. auto.
Qed.

(** X24. Two calls of [get_movement_state] in a row: the second reports
    READY exactly when both readings of the joint angles are the same once
    formatted with two decimals, and the facade remembers the second
    reading. *)
Theorem movement_state_is_ready_when_the_reading_repeats {B : Builtins}
    (f : frame) (first second : list float) :
  oracle (outside f) (clock (outside f)) = Returns (VList first) ->
  oracle (outside f) (Datatypes.S (clock (outside f))) = Returns (VList second) ->
  exists f',
    (get_movement_state;; get_movement_state) f
    = (Ok (if decide (List.map fmt2f first = List.map fmt2f second)
           then py "READY" else py "BUSY"), f') /\
    robot_current_joint_angles (this f') = Some (List.map fmt2f second) /\
    calls (trace (outside f')) = calls (trace (outside f)) ++ [ur_getj; ur_getj].
Proof.
  intros H1 H2. unfold get_movement_state, set_angles.
  cbv [mbind mret M_bind M_ret bind ret raise get modify sdk
       world_of with_world frame_HasWorld record tick].
  cbn [outside oracle clock trace this module gripper_controller
       robot_current_joint_angles hostname acceleration velocity fst snd].
  rewrite H1.
  cbn [outside oracle clock trace this module gripper_controller
       robot_current_joint_angles hostname acceleration velocity fst snd].
  rewrite H2.
  cbn [outside oracle clock trace this module gripper_controller
       robot_current_joint_angles hostname acceleration velocity fst snd].
  assert (E : (if angles_eqb (List.map fmt2f first) (List.map fmt2f second)
               then py "READY" else py "BUSY")
              = (if decide (List.map fmt2f first = List.map fmt2f second)
                 then py "READY" else py "BUSY")).
  { destruct (decide (List.map fmt2f first = List.map fmt2f second)) as [E|E].
    - apply angles_eqb_eq in E. rewrite E. reflexivity.
    - destruct (angles_eqb (List.map fmt2f first) (List.map fmt2f second)) eqn:E';
        [apply angles_eqb_eq in E'; contradiction|reflexivity]. }
  rewrite E. eexists. split; [reflexivity|]. split; [reflexivity|].
  cbn [outside trace]. rewrite !GripperFacts.calls_app. cbn [calls]. rewrite <- app_assoc. reflexivity.
Qed.

End DriverFacts.

(* ===================================================================== *)
(** * What the task methods never do *)
(* ===================================================================== *)

Module FootprintFacts.
Import Driver PyFacts DriverFacts Footprint.

#[local] Opaque py.

Section Only.
Context {S : Type} `{Lawful S}.

Lemma only_silent {A} (P : event -> Prop) (m : M S A) :
  (forall s, snd (m s) = s) -> only P m.
Proof. intros Hm s. exists []. rewrite Hm, app_nil_r. auto. Qed.

Lemma only_ret {A} (P : event -> Prop) (a : A) : only P (mret a : M S A).
Proof. apply only_silent. reflexivity. Qed.

Lemma only_raise {A} (P : event -> Prop) (e : exn) : only P (raise e : M S A).
Proof. apply only_silent. reflexivity. Qed.

Lemma only_get (P : event -> Prop) : only P (get : M S S).
Proof. apply only_silent. reflexivity. Qed.

Lemma only_bind {A C} (P : event -> Prop) (m : M S A) (k : A -> M S C) :
  only P m -> (forall a, only P (k a)) -> only P (m ≫= k).
Proof.
  intros Hm Hk s. unfold mbind, M_bind, bind.
  destruct (Hm s) as (l1 & E1 & F1).
  destruct (m s) as [[a|e|] s1]; cbn [snd] in *; [|exists l1; auto..].
  destruct (Hk a s1) as (l2 & E2 & F2).
  exists (l1 ++ l2). rewrite E2, E1, app_assoc. split; [reflexivity|].
  apply Forall_app; auto.
Qed.

(** What follows a computation that never returns does not matter. *)
Lemma only_bind_stops {A C} (P : event -> Prop) (m : M S A) (k : A -> M S C) :
  only P m -> stops m -> only P (m ≫= k).
Proof.
  intros Hm Hs s. unfold mbind, M_bind, bind.
  destruct (Hm s) as (l1 & E1 & F1). specialize (Hs s).
  destruct (m s) as [[a|e|] s1]; cbn [fst snd] in *; [|exists l1; auto..].
  exfalso. exact (Hs a eq_refl).
Qed.

Lemma stops_bind {A C} (m : M S A) (k : A -> M S C) :
  (forall a, stops (k a)) -> stops (m ≫= k).
Proof.
  intros Hk s c. unfold mbind, M_bind, bind.
  destruct (m s) as [[a|e|] s1]; cbn [fst]; [apply Hk|discriminate..].
Qed.

Lemma stops_bind_l {A C} (m : M S A) (k : A -> M S C) :
  stops m -> stops (m ≫= k).
Proof.
  intros Hm s c. unfold mbind, M_bind, bind. specialize (Hm s).
  destruct (m s) as [[a|e|] s1]; cbn [fst] in *; [|discriminate..].
  exfalso. exact (Hm a eq_refl).
Qed.

Lemma only_try_except {A} (P : event -> Prop) (body : M S A) (handler : exn -> M S A) :
  only P body -> (forall e, only P (handler e)) -> only P (try_except body handler).
Proof.
  intros Hb Hh s. unfold try_except.
  destruct (Hb s) as (l1 & E1 & F1).
  destruct (body s) as [[a|e|] s1]; cbn [snd] in *; [exists l1; auto| |exists l1; auto].
  destruct (Hh e s1) as (l2 & E2 & F2).
  exists (l1 ++ l2). rewrite E2, E1, app_assoc. split; [reflexivity|].
  apply Forall_app; auto.
Qed.

Lemma only_try_finally {A} (P : event -> Prop) (body : M S A) (final : M S unit) :
  only P body -> only P final -> only P (try_finally body final).
Proof.
  intros Hb Hf s. unfold try_finally.
  destruct (Hb s) as (l1 & E1 & F1).
  destruct (body s) as [[a|e|] s1]; cbn [snd] in *; [| |exists l1; auto];
    destruct (Hf s1) as (l2 & E2 & F2);
    (exists (l1 ++ l2); split; [|apply Forall_app; auto]);
    destruct (final s1) as [[[]|e'|] s2]; cbn [snd] in *;
    rewrite E2, E1, app_assoc; reflexivity.
Qed.

Lemma only_emit (P : event -> Prop) (e : event) : P e -> only P (emit e : M S unit).
Proof.
  intros He s. exists [e]. unfold emit, modify. cbn [snd].
  rewrite get_put. split; [reflexivity|]. auto.
Qed.

Lemma only_print (P : event -> Prop) (items : list pitem) :
  P (Printed items) -> only P (World.print items : M S unit).
Proof. apply only_emit. Qed.

Lemma only_sleep {B : Builtins} (P : event -> Prop) (seconds : float) :
  P (Slept seconds) -> only P (World.sleep seconds : M S unit).
Proof.
  intros He. unfold World.sleep.
  destruct (sleep_error seconds); [apply only_raise | apply only_emit, He].
Qed.

Lemma only_sdk (P : event -> Prop) (c : call) :
  (forall r, P (Called c r)) -> only P (sdk c : M S value).
Proof.
  intros Hc s. exists [Called c (oracle (world_of s) (clock (world_of s)))].
  unfold sdk.
  destruct (oracle (world_of s) (clock (world_of s))) eqn:E; cbn [snd];
    rewrite get_put; (split; [reflexivity|]); auto.
Qed.

Lemma only_modify (P : event -> Prop) (f : S -> S) :
  (forall s, trace (world_of (f s)) = trace (world_of s)) -> only P (modify f).
Proof. intros Hf s. exists []. unfold modify. cbn [snd]. rewrite Hf, app_nil_r. auto. Qed.

Lemma only_weaken {A} (P Q : event -> Prop) (m : M S A) :
  (forall e, P e -> Q e) -> only P m -> only Q m.
Proof.
  intros HPQ Hm s. destruct (Hm s) as (l & E & F). exists l. split; [exact E|].
  eapply Forall_impl; eauto.
Qed.

End Only.

(** ** The footprint of the task methods *)

Lemma only_on_gripper_controller {A} (P : event -> Prop) (m : Gripper.G A) :
  only P m -> only P (on_gripper_controller m).
Proof.
  intros Hm f. unfold on_gripper_controller.
  destruct (gripper_controller f) as [g|]; [|exists []; rewrite app_nil_r; auto].
  destruct (Hm (g, outside f)) as (l & E & F).
  destruct (m (g, outside f)) as [r [g' w]]. exists l. auto.
Qed.

Lemma stops_on_gripper_controller {A} (m : Gripper.G A) :
  stops m -> stops (on_gripper_controller m).
Proof.
  intros Hm f a. unfold on_gripper_controller.
  destruct (gripper_controller f) as [g|]; [|discriminate].
  specialize (Hm (g, outside f) a).
  destruct (m (g, outside f)) as [r [g' w]]. exact Hm.
Qed.

Lemma only_assign_gripper_controller (P : event -> Prop)
    (c : M world Gripper.FingerGripperController) :
  only P c -> only P (assign_gripper_controller c).
Proof.
  intros Hc f. unfold assign_gripper_controller.
  destruct (Hc (outside f)) as (l & E & F).
  destruct (c (outside f)) as [[g|e|] w]; exists l; auto.
Qed.

Lemma only_gripper_init (P : event -> Prop) (hostname : str) (port : Z) (ur : bool) :
  only P Gripper.connect_gripper -> only P (Gripper.init hostname port ur).
Proof.
  intros Hc w. unfold Gripper.init.
  destruct ur; cbn [negb]; [|exists []; rewrite app_nil_r; auto].
  match goal with
  | |- context [Gripper.connect_gripper (?g, w)] =>
      destruct (Hc (g, w)) as (l & E & F);
      destruct (Gripper.connect_gripper (g, w)) as [[a|e|] [g' w']]
  end; exists l; auto.
Qed.

Lemma iadd_item_silent {S} (l : option (list float)) (i : option nat) (d : option float)
    (s : S) :
  snd (iadd_item l i d s) = s.
Proof.
  unfold iadd_item. destruct l as [l|], i as [i|]; try reflexivity.
  destruct (l !! i), d; reflexivity.
Qed.

Ltac event :=
  cbv beta; first [reflexivity | vm_compute; reflexivity | repeat split; vm_compute; reflexivity].

Ltac footprint :=
  repeat
    (cbv beta zeta;
     lazymatch goal with
     | |- only _ (_ ≫= _) => apply only_bind; [|intros ?]
     | |- only _ (mret _) => apply only_ret
     | |- only _ (raise _) => apply only_raise
     | |- only _ get => apply only_get
     | |- only _ (try_except _ _) => apply only_try_except; [|intros ?]
     | |- only _ (try_finally _ _) => apply only_try_finally
     | |- only _ (World.print _) => apply only_print; event
     | |- only _ (World.sleep _) => apply only_sleep; event
     | |- only _ (sdk _) => apply only_sdk; intros ?; event
     | |- only _ (modify _) => apply only_modify; intros ?; reflexivity
     | |- only _ Gripper.self => apply only_silent; reflexivity
     | |- only _ (Gripper.on_gripper _) => unfold Gripper.on_gripper
     | |- only _ Gripper.set_gripper => unfold Gripper.set_gripper
     | |- only _ (set_gripper_open _) => unfold set_gripper_open
     | |- only _ (set_gripper_close _) => unfold set_gripper_close
     | |- only _ (iadd_item _ _ _) => apply only_silent; intros ?; apply iadd_item_silent
     | |- only _ (on_gripper_controller _) => apply only_on_gripper_controller
     | |- only _ (if ?b then _ else _) => destruct b
     | |- only _ (match ?x with _ => _ end) => destruct x
     end).

Lemma only_connect_gripper : only calm Gripper.connect_gripper.
Proof. unfold Gripper.connect_gripper. footprint. Qed.

Lemma only_disconnect_gripper : only calm Gripper.disconnect_gripper.
Proof. unfold Gripper.disconnect_gripper. footprint. Qed.

Lemma only_home (home_location : option (list float)) : only calm (home home_location).
Proof. unfold home. footprint. Qed.

Section Tasks.
Context {B : Builtins}.

Lemma only_new_gripper_controller : only calm new_gripper_controller.
Proof.
  unfold new_gripper_controller. footprint.
  - apply only_assign_gripper_controller, only_gripper_init, only_connect_gripper.
  - apply only_connect_gripper.
Qed.

Lemma only_override (gripper_open gripper_close : option Z) :
  only calm (override gripper_open gripper_close).
Proof. unfold override. footprint. Qed.

Lemma above_silent {S} (goal : option (list float)) (a : option str) (d : option float)
    (s : S) :
  snd (Gripper.above goal a d s) = s.
Proof.
  unfold Gripper.above, Gripper.select_axis.
  destruct a as [[|c a]|];
    repeat match goal with
           | |- context [if Py.eqb ?x ?y then _ else _] => destruct (Py.eqb x y)
           end;
    destruct d; GripperFacts.grun; destruct goal as [l|]; try reflexivity;
    match goal with
    | |- context [l !! ?i] => destruct (l !! i)
    end; reflexivity.
Qed.

Ltac footprint' :=
  repeat
    (footprint;
     lazymatch goal with
     | |- only _ (Gripper.above _ _ _) => apply only_silent; intros ?; apply above_silent
     | |- only _ (Gripper.pick _ _ _) => unfold Gripper.pick
     | |- only _ (Gripper.place _ _ _) => unfold Gripper.place
     | |- only _ (home _) => unfold home
     end).

Lemma calm_tool (e : event) : calm e -> tool_motion e = false.
Proof. intros [H _]. exact H. Qed.

Lemma calm_transfer (e : event) : calm e -> transfer_event e = false.
Proof. intros (_ & H & _). exact H. Qed.

Lemma calm_placing (e : event) : calm e -> placing e = false.
Proof. intros (_ & _ & H). exact H. Qed.

Lemma calm_retraction (e : event) : calm e -> retraction e = false.
Proof.
  intros [H _]. destruct e as [| | | | |c r]; try reflexivity.
  destruct c; try reflexivity; discriminate H.
Qed.

(** The call of [transfer] with the keyword [home] never gets into the body. *)
Lemma stops_at_the_keyword {A} (body : Gripper.G A) :
  with_keywords Gripper.transfer_parameters
    ["home"; "source"; "target"; "source_approach_axis"; "target_approach_axis";
     "source_approach_distance"; "target_approach_distance"]%string body
  = raise (TypeError "got an unexpected keyword argument").
Proof. reflexivity. Qed.

Lemma stops_raise {S A} `{Lawful S} (e : exn) : stops (raise e : M S A).
Proof. intros s a. discriminate. Qed.

Lemma only_gripper_transfer
    (home_ source target : option (list float))
    (source_approach_axis target_approach_axis : option str)
    (source_approach_distance target_approach_distance : option float)
    (gripper_open gripper_close : option Z) :
  only calm
    (gripper_transfer home_ source target source_approach_axis target_approach_axis
       source_approach_distance target_approach_distance gripper_open gripper_close).
Proof.
  unfold gripper_transfer.
  destruct (negb (given source) || negb (given target)); [apply only_raise|].
  apply only_bind; [apply only_home|intros _].
  apply only_try_finally.
  - apply only_try_except; [|intros e; footprint].
    unfold gripper_transfer_try.
    apply only_bind; [apply only_new_gripper_controller|intros _].
    apply only_bind; [apply only_override|intros _].
    rewrite stops_at_the_keyword.
    apply only_bind_stops.
    + apply only_on_gripper_controller, only_raise.
    + apply stops_on_gripper_controller, stops_raise.
  - apply only_bind; [|intros _; apply only_home].
    apply only_on_gripper_controller, only_disconnect_gripper.
Qed.

Lemma stops_at_the_lookup (name : string) :
  existsb (String.eqb name) Gripper.methods = false ->
  stops (on_gripper_controller (method_lookup name)).
Proof.
  intros H. apply stops_on_gripper_controller. unfold method_lookup. rewrite H.
  apply stops_raise.
Qed.

Lemma only_remove_cap (home_ source target : option (list float))
    (gripper_open gripper_close : option Z) :
  only calm (remove_cap home_ source target gripper_open gripper_close).
Proof.
  unfold remove_cap.
  apply only_bind; [apply only_home|intros _].
  apply only_try_except; [|intros e; footprint].
  unfold remove_cap_try.
  apply only_bind; [apply only_new_gripper_controller|intros _].
  apply only_bind; [apply only_override|intros _].
  apply only_bind_stops; [|apply stops_at_the_lookup; reflexivity].
  apply only_on_gripper_controller. unfold method_lookup. footprint.
Qed.

Lemma only_place_cap (home_ source target : option (list float))
    (gripper_open gripper_close : option Z) :
  only (fun e => retraction e = false)
    (place_cap home_ source target gripper_open gripper_close).
Proof.
  unfold place_cap.
  apply only_bind; [unfold home; footprint|intros _].
  apply only_try_except; [|intros e; footprint].
  unfold place_cap_try.
  apply only_bind;
    [apply (only_weaken calm); [apply calm_retraction|apply only_new_gripper_controller]
    |intros _].
  apply only_bind;
    [apply (only_weaken calm); [apply calm_retraction|apply only_override]|intros _].
  apply only_bind; [footprint'|intros _].
  apply only_bind; [footprint'|intros _].
  apply only_bind; [footprint'|intros f0].
  apply only_bind; [footprint'|intros above_goal].
  apply only_bind; [footprint'|intros _].
  apply only_bind; [footprint'|intros _].
  cbv zeta.
  apply only_bind; [footprint'|intros _].
  apply only_bind; [footprint'|intros _].
  apply only_bind; [footprint'|intros _].
  apply only_bind_stops; [|apply stops_at_the_lookup; reflexivity].
  apply only_on_gripper_controller. unfold method_lookup. footprint.
Qed.

(** ** The names bound at module level *)

Lemma keeps_silent {A} (m : T A) : (forall f, snd (m f) = f) -> keeps_module m.
Proof. intros H f. rewrite H. reflexivity. Qed.

Lemma keeps_bind {A C} (m : T A) (k : A -> T C) :
  keeps_module m -> (forall a, keeps_module (k a)) -> keeps_module (m ≫= k).
Proof.
  intros Hm Hk f. unfold mbind, M_bind, bind. specialize (Hm f).
  destruct (m f) as [[a|e|] f1]; cbn [snd] in *; [|exact Hm..].
  rewrite Hk. exact Hm.
Qed.

Lemma keeps_print (items : list pitem) : keeps_module (World.print items).
Proof. intros f. reflexivity. Qed.

Lemma keeps_sdk (c : call) : keeps_module (sdk c).
Proof.
  intros f. unfold sdk. destruct (oracle (world_of f) (clock (world_of f))); reflexivity.
Qed.

Lemma keeps_on_gripper_controller {A} (m : Gripper.G A) :
  keeps_module (on_gripper_controller m).
Proof.
  intros f. unfold on_gripper_controller.
  destruct (gripper_controller f) as [g|]; [|reflexivity].
  destruct (m (g, outside f)) as [r [g' w]]. reflexivity.
Qed.

Lemma keeps_assign_gripper_controller (c : M world Gripper.FingerGripperController) :
  keeps_module (assign_gripper_controller c).
Proof.
  intros f. unfold assign_gripper_controller.
  destruct (c (outside f)) as [[g|e|] w]; reflexivity.
Qed.

Lemma keeps_home (home_location : option (list float)) : keeps_module (home home_location).
Proof.
  unfold home. apply keeps_bind; [apply keeps_print|intros _]. cbv zeta.
  apply keeps_bind; [apply keeps_sdk|intros _]. apply keeps_print.
Qed.

Lemma only_from_only {A} (I : globals -> Prop) (P : event -> Prop) (m : T A) :
  only P m -> only_from I P m.
Proof. intros Hm f _. apply Hm. Qed.

Lemma only_from_bind {A C} (I : globals -> Prop) (P : event -> Prop)
    (m : T A) (k : A -> T C) :
  only P m -> keeps_module m -> (forall a, only_from I P (k a)) ->
  only_from I P (m ≫= k).
Proof.
  intros Hm Hk Hrest f Hf. unfold mbind, M_bind, bind.
  destruct (Hm f) as (l1 & E1 & F1). specialize (Hk f).
  destruct (m f) as [[a|e|] f1]; cbn [snd] in *; [|exists l1; auto..].
  destruct (Hrest a f1) as (l2 & E2 & F2); [rewrite Hk; exact Hf|].
  exists (l1 ++ l2). cbn [world_of frame_HasWorld] in E1.
  rewrite E2, E1, app_assoc. split; [reflexivity|]. apply Forall_app; auto.
Qed.

(** What is read from the frame satisfies what the frame satisfies. *)
Lemma only_from_get {C} (I : globals -> Prop) (P : event -> Prop) (k : frame -> T C) :
  (forall f, I (module f) -> only_from I P (k f)) -> only_from I P (get ≫= k).
Proof. intros Hk f Hf. exact (Hk f Hf f Hf). Qed.

Lemma only_from_try_except {A} (I : globals -> Prop) (P : event -> Prop)
    (body : T A) (handler : exn -> T A) :
  only_from I P body -> (forall e, only P (handler e)) ->
  only_from I P (try_except body handler).
Proof.
  intros Hb Hh f Hf. unfold try_except.
  destruct (Hb f Hf) as (l1 & E1 & F1).
  destruct (body f) as [[a|e|] f1]; cbn [snd] in *; [exists l1; auto| |exists l1; auto].
  destruct (Hh e f1) as (l2 & E2 & F2). cbn [world_of frame_HasWorld] in E2.
  exists (l1 ++ l2). rewrite E2, E1, app_assoc. split; [reflexivity|].
  apply Forall_app; auto.
Qed.

Lemma only_from_try_finally {A} (I : globals -> Prop) (P : event -> Prop)
    (body : T A) (final : T unit) :
  only_from I P body -> only P final -> only_from I P (try_finally body final).
Proof.
  intros Hb Hfin f Hf. unfold try_finally.
  destruct (Hb f Hf) as (l1 & E1 & F1).
  destruct (body f) as [[a|e|] f1]; cbn [snd] in *; [| |exists l1; auto];
    destruct (Hfin f1) as (l2 & E2 & F2); cbn [world_of frame_HasWorld] in E2;
    (exists (l1 ++ l2); split; [|apply Forall_app; auto]);
    destruct (final f1) as [[[]|e'|] f2]; cbn [snd] in *;
    rewrite E2, E1, app_assoc; reflexivity.
Qed.

Lemma keeps_new_gripper_controller : keeps_module new_gripper_controller.
Proof.
  unfold new_gripper_controller.
  apply keeps_bind; [apply keeps_silent; reflexivity|intros f].
  apply keeps_bind; [apply keeps_assign_gripper_controller|intros _].
  apply keeps_on_gripper_controller.
Qed.

Lemma keeps_override (gripper_open gripper_close : option Z) :
  keeps_module (override gripper_open gripper_close).
Proof.
  unfold override.
  apply keeps_bind; [|intros _];
    match goal with
    | |- keeps_module (if ?b then _ else _) => destruct b
    end; first [apply keeps_on_gripper_controller | apply keeps_silent; reflexivity].
Qed.

Lemma unplaced_start (gripper_open gripper_close : option Z) :
  only (fun e => placing e = false) new_gripper_controller /\
  only (fun e => placing e = false) (override gripper_open gripper_close) /\
  only (fun e => placing e = false) (on_gripper_controller Gripper.disconnect_gripper).
Proof.
  repeat split; apply (only_weaken calm); try apply calm_placing.
  - apply only_new_gripper_controller.
  - apply only_override.
  - apply only_on_gripper_controller, only_disconnect_gripper.
Qed.

Lemma only_from_pick_and_flip_object (home_ target : option (list float))
    (approach_axis : option str) (target_approach_distance : option float)
    (gripper_open gripper_close : option Z) :
  only_from (fun names => robot names = false) (fun e => placing e = false)
    (pick_and_flip_object home_ target approach_axis target_approach_distance
       gripper_open gripper_close).
Proof.
  destruct (unplaced_start gripper_open gripper_close) as (Hnew & Hover & Hdis).
  unfold pick_and_flip_object.
  apply only_from_bind; [footprint'|apply keeps_home|intros _].
  apply only_from_try_finally; [|exact Hdis].
  apply only_from_try_except; [|intros e; footprint].
  unfold pick_and_flip_object_try.
  apply only_from_bind; [exact Hnew|apply keeps_new_gripper_controller|intros _].
  apply only_from_bind; [exact Hover|apply keeps_override|intros _].
  apply only_from_bind; [footprint'|apply keeps_on_gripper_controller|intros _].
  apply only_from_bind; [footprint|apply keeps_sdk|intros cur_j].
  apply only_from_bind;
    [footprint|apply keeps_silent; intros f; apply iadd_item_silent|intros rotate_j].
  apply only_from_get. intros f Hf. rewrite Hf.
  apply only_from_only, only_bind_stops; [apply only_raise|apply stops_raise].
Qed.

Lemma only_from_gripper_screw_transfer
    (home_ target screwdriver_loc screw_loc : option (list float)) (screw_time : float)
    (gripper_open gripper_close : option Z) :
  only_from (fun names => hex_key names = None) (fun e => placing e = false)
    (gripper_screw_transfer home_ target screwdriver_loc screw_loc screw_time
       gripper_open gripper_close).
Proof.
  destruct (unplaced_start gripper_open gripper_close) as (Hnew & Hover & Hdis).
  unfold gripper_screw_transfer.
  apply only_from_bind; [footprint'|apply keeps_home|intros _].
  apply only_from_try_finally; [|exact Hdis].
  apply only_from_try_except; [|intros e; footprint].
  unfold gripper_screw_transfer_try.
  apply only_from_bind; [exact Hnew|apply keeps_new_gripper_controller|intros _].
  apply only_from_bind; [exact Hover|apply keeps_override|intros _].
  apply only_from_bind; [footprint'|apply keeps_on_gripper_controller|intros _].
  apply only_from_bind; [footprint'|apply keeps_home|intros _].
  apply only_from_get. intros f Hf. rewrite Hf.
  apply only_from_only. footprint'.
Qed.

End Tasks.

(** X20. [gripper_transfer] never transfers: whatever its arguments and the
    robot, it commands no linear move and never prints that the transfer is
    finished, since its call of [transfer] passes the keyword [home], which
    [transfer] does not have. *)
Theorem gripper_transfer_never_transfers {B : Builtins}
    (home_ source target : option (list float))
    (source_approach_axis target_approach_axis : option str)
    (source_approach_distance target_approach_distance : option float)
    (gripper_open gripper_close : option Z) (f : frame) :
  exists l,
    trace (outside (snd
      (gripper_transfer home_ source target source_approach_axis target_approach_axis
         source_approach_distance target_approach_distance gripper_open gripper_close f)))
    = trace (outside f) ++ l /\
    Forall (fun e => transfer_event e = false) l.
Proof.
  apply (only_weaken calm (fun e => transfer_event e = false)
           _ calm_transfer (only_gripper_transfer _ _ _ _ _ _ _ _ _) f).
Qed.

(** X21. [remove_cap] and [place_cap] stop at the method [open_gripper],
    which the controller does not have: [remove_cap] never moves the tool other
    than by homing, and [place_cap] never draws the tool back after it has
    turned the cap. *)
Theorem cap_tasks_stop_at_the_missing_method {B : Builtins}
    (home_ source target : option (list float))
    (gripper_open gripper_close : option Z) (f : frame) :
  (exists l,
     trace (outside (snd (remove_cap home_ source target gripper_open gripper_close f)))
     = trace (outside f) ++ l /\
     Forall (fun e => tool_motion e = false) l)
  /\
  (exists l,
     trace (outside (snd (place_cap home_ source target gripper_open gripper_close f)))
     = trace (outside f) ++ l /\
     Forall (fun e => retraction e = false) l).
Proof.
  split.
  - apply (only_weaken calm (fun e => tool_motion e = false)
             _ calm_tool (only_remove_cap _ _ _ _ _) f).
  - apply (only_place_cap _ _ _ _ _ f).
Qed.

(** X29. [pick_and_flip_object] and [gripper_screw_transfer] use names that
    are bound only when the file runs as a script, [robot] and [hex_key].  On
    a facade in a module where [robot] is not bound, [pick_and_flip_object]
    never gets to place what it picked; where [hex_key] is not bound,
    [gripper_screw_transfer] never gets to place the screwdriver back: in both
    the message by which [place] opens the gripper is never printed. *)
Theorem script_names_are_needed_to_place {B : Builtins}
    (home_ target screwdriver_loc screw_loc : option (list float))
    (approach_axis : option str) (target_approach_distance : option float)
    (screw_time : float) (gripper_open gripper_close : option Z) (f : frame) :
  (robot (module f) = false ->
   exists l,
     trace (outside (snd
       (pick_and_flip_object home_ target approach_axis target_approach_distance
          gripper_open gripper_close f)))
     = trace (outside f) ++ l /\
     Forall (fun e => placing e = false) l)
  /\
  (hex_key (module f) = None ->
   exists l,
     trace (outside (snd
       (gripper_screw_transfer home_ target screwdriver_loc screw_loc screw_time
          gripper_open gripper_close f)))
     = trace (outside f) ++ l /\
     Forall (fun e => placing e = false) l).
Proof.
  split; intros H.
  - exact (only_from_pick_and_flip_object _ _ _ _ _ _ f H).
  - exact (only_from_gripper_screw_transfer _ _ _ _ _ _ _ f H).
Qed.

End FootprintFacts.

(* ===================================================================== *)
(** * The connection to the arm *)
(* ===================================================================== *)

Module LinkFacts.
Import Link PyFacts.

#[local] Opaque py.

Ltac lrun :=
  cbv [mbind mret M_bind M_ret bind ret raise get modify try_except
       emit World.print World.sleep sdk record tick world_of with_world
       pair_HasWorld world_HasWorld self set_connection];
  cbn [fst snd oracle clock trace hostname PORT connection].

Lemma later_0 (w : world) : later w 0 [] = w.
Proof. destruct w as [o c t]. unfold later. cbn. rewrite Nat.add_0_r, app_nil_r. reflexivity. Qed.

Section Attempts.
Context {B : Builtins} (socket_error : exn -> bool).

Lemma attempt_refused (c : Connection) (w : world) (k : nat) (e : exn) :
  oracle w (clock w + k) = Raises e -> socket_error e = true ->
  attempt socket_error (c, later w k (refusals w k))
  = (Ok true, (c, later w (S k) (refusals w (S k)))).
Proof.
  intros Ho He. unfold attempt, later. lrun. rewrite Ho. lrun. rewrite He. lrun.
  rewrite (sleep_short 10%float eq_refl eq_refl). lrun.
  cbn [refusals]. rewrite Ho, Nat.add_succ_r, <- !app_assoc. reflexivity.
Qed.

Lemma attempt_answered (c : Connection) (w : world) (k : nat) (v : value) :
  oracle w (clock w + k) = Returns v ->
  attempt socket_error (c, later w k (refusals w k))
  = (Ok false,
     ({| hostname := hostname c; PORT := PORT c; connection := true |},
      later w (S k)
        (refusals w k ++ [Called (external "urx.Robot") (Returns v);
                          Printed [Text (py "Successful ur connection")]]))).
Proof.
  intros Ho. unfold attempt, later. lrun. rewrite Ho. lrun.
  rewrite Nat.add_succ_r, <- !app_assoc. reflexivity.
Qed.

Lemma attempt_raises (c : Connection) (w : world) (k : nat) (e : exn) :
  oracle w (clock w + k) = Raises e -> socket_error e = false ->
  attempt socket_error (c, later w k (refusals w k))
  = (Raise e,
     (c, later w (S k) (refusals w k ++ [Called (external "urx.Robot") (Raises e)]))).
Proof.
  intros Ho He. unfold attempt, later. lrun. rewrite Ho. lrun. rewrite He. lrun.
  rewrite Nat.add_succ_r, <- !app_assoc. reflexivity.
Qed.

(** After [k] refused attempts the loop is where it would be with [k] passes
    less, [k] calls and [k] sleeps later. *)
Lemma attempts_refused (c : Connection) (w : world) (k : nat) :
  forall n, k <= n -> refused socket_error w k ->
    attempts socket_error n (c, w)
    = attempts socket_error (n - k) (c, later w k (refusals w k)).
Proof.
  induction k as [|k IH]; intros n Hn Hr.
  - rewrite Nat.sub_0_r. cbn [refusals]. rewrite later_0. reflexivity.
  - rewrite (IH n) by (try lia; intros j Hj; apply Hr; lia).
    destruct (Hr k) as (e & Ho & He); [lia|].
    replace (n - k) with (S (n - S k)) by lia. cbn [attempts].
    rewrite (DashboardFacts.bind_run _ _ _ _ _ (attempt_refused c w k e Ho He)).
    reflexivity.
Qed.

End Attempts.

(** X25. When all ten attempts of [connect_ur] fail with a socket error, it
    returns without an exception and without a connection, after ten calls and
    ten sleeps of ten seconds. *)
Theorem connect_ur_gives_up_silently {B : Builtins}
    (socket_error : exn -> bool) (c : Connection) (w : world) :
  refused socket_error w 10 ->
  connect_ur socket_error (c, w) = (Ok tt, (c, later w 10 (refusals w 10))).
Proof.
  intros Hr. unfold connect_ur.
  rewrite (attempts_refused socket_error c w 10 10) by (try lia; exact Hr).
  reflexivity.
Qed.

(** X26. [connect_ur] ends at the first attempt that does not fail with a
    socket error: with a connection when the attempt succeeds, and with the
    exception, which is not caught, otherwise. *)
Theorem connect_ur_ends_at_the_first_answer {B : Builtins}
    (socket_error : exn -> bool) (c : Connection) (w : world) (k : nat) :
  k < 10 ->
  refused socket_error w k ->
  match oracle w (clock w + k) with
  | Returns v =>
      connect_ur socket_error (c, w)
      = (Ok tt,
         ({| hostname := hostname c; PORT := PORT c; connection := true |},
          later w (S k)
            (refusals w k ++ [Called (external "urx.Robot") (Returns v);
                              Printed [Text (py "Successful ur connection")]])))
  | Raises e =>
      socket_error e = false ->
      connect_ur socket_error (c, w)
      = (Raise e,
         (c, later w (S k) (refusals w k ++ [Called (external "urx.Robot") (Raises e)])))
  end.
Proof.
  intros Hk Hr. unfold connect_ur.
  rewrite (attempts_refused socket_error c w k 10) by (try lia; exact Hr).
  replace (10 - k) with (S (9 - k)) by lia. cbn [attempts].
  destruct (oracle w (clock w + k)) as [v|e] eqn:Ho.
  - rewrite (DashboardFacts.bind_run _ _ _ _ _ (attempt_answered socket_error c w k v Ho)).
    reflexivity.
  - intros He.
    rewrite (DashboardFacts.bind_raise _ _ _ _ _ (attempt_raises socket_error c w k e Ho He)).
    reflexivity.
Qed.

End LinkFacts.

(* ===================================================================== *)
(** * The constructor of the facade *)
(* ===================================================================== *)

Module FacadeFacts.
Import Driver PyFacts LinkFacts.

#[local] Opaque py.

Section Construction.
Context {B : Builtins} (socket_error : exn -> bool).

Lemma first_reading_returns (name : str) (w w' : world) (ur : UR) :
  first_reading name w = (Ok ur, w') ->
  hostname ur = name /\ acceleration ur = 0.5%float /\ velocity ur = 0.5%float /\
  is_Some (robot_current_joint_angles ur) /\
  calls (trace w') = calls (trace w) ++ [ur_getj].
Proof.
  unfold first_reading, get_movement_state, set_angles, under_construction.
  cbv [mbind mret M_bind M_ret bind ret raise get modify sdk
       world_of with_world frame_HasWorld record tick].
  cbn [outside oracle clock trace this].
  destruct (oracle w (clock w)) as [[| |l]|e]; try discriminate.
  cbn [outside oracle clock trace this module gripper_controller
       robot_current_joint_angles hostname acceleration velocity].
  intros [= <- <-]. cbn [hostname acceleration velocity robot_current_joint_angles trace].
  rewrite GripperFacts.calls_app. repeat split; eauto.
Qed.

End Construction.

(** X27. On a robot that refuses all ten connection attempts the constructor
    of the facade raises [AttributeError] from [set_tcp] on [None], after the
    dashboard client was constructed and the ten attempts were made. *)
Theorem facade_of_an_unreachable_robot {B : Builtins}
    (socket_error : exn -> bool) (name : str) (PORT : Z) (w : world) (v : value) :
  name <> [] ->
  oracle w (clock w) = Returns v ->
  let w1 := Link.later w 1 [Called (external "UR_DASHBOARD") (Returns v)] in
  Link.refused socket_error w1 10 ->
  init socket_error (Some name) PORT w
  = (Raise (AttributeError "'NoneType' object has no attribute 'set_tcp'"),
     Link.later w1 10 (Link.refusals w1 10)).
Proof.
  intros Hn Ho w1 Hr. unfold init. destruct name as [|c name]; [congruence|].
  assert (E1 : (sdk (external "UR_DASHBOARD") : M world value) w = (Ok v, w1)).
  { unfold sdk. cbn [world_of with_world world_HasWorld]. rewrite Ho.
    unfold w1, Link.later, tick, record. cbn [oracle clock trace].
    rewrite Nat.add_1_r. reflexivity. }
  rewrite (DashboardFacts.bind_run _ _ _ _ _ E1).
  assert (E2 : Link.init socket_error (c :: name) PORT w1
               = (Ok {| Link.hostname := c :: name; Link.PORT := PORT;
                        Link.connection := false |},
                  Link.later w1 10 (Link.refusals w1 10))).
  { unfold Link.init, Link.connect_ur.
    rewrite (attempts_refused socket_error _ w1 10 10) by (try lia; exact Hr).
    reflexivity. }
  rewrite (DashboardFacts.bind_run _ _ _ _ _ E2). reflexivity.
Qed.

(** X28. The constructor of the facade raises [TypeError] at once without a
    hostname; a facade it returns has the hostname passed, acceleration and
    velocity 0.5, and joint angles remembered from a [getj] call that was its
    last SDK call. *)
Theorem constructed_facade_has_read_the_joints {B : Builtins}
    (socket_error : exn -> bool) (hostname : option str) (PORT : Z) (w : world) :
  (given hostname = false ->
   init socket_error hostname PORT w
   = (Raise (TypeError "Hostname cannot be None Type!"), w))
  /\
  (forall ur w',
     init socket_error hostname PORT w = (Ok ur, w') ->
     hostname = Some (Driver.hostname ur) /\
     acceleration ur = 0.5%float /\ velocity ur = 0.5%float /\
     is_Some (robot_current_joint_angles ur) /\
     last (calls (trace w')) = Some ur_getj).
Proof.
  split.
  - destruct hostname as [[|c name]|]; [reflexivity|discriminate|reflexivity].
  - intros ur w'. unfold init. destruct hostname as [[|c name]|]; try discriminate.
    intros H.
    apply DashboardFacts.bind_returns in H as (v & w1 & _ & H).
    apply DashboardFacts.bind_returns in H as (link & w2 & _ & H).
    apply DashboardFacts.bind_returns in H as ([] & w3 & _ & H).
    apply first_reading_returns in H as (Hh & Ha & Hv & Hj & Hc).
    rewrite Hh, Hc, last_app. auto.
Qed.

End FacadeFacts.

(* ===================================================================== *)
(** * The dashboard client run against concrete robots *)
(* ===================================================================== *)

Module DashboardRuns.
Import Dashboard DashboardFacts.

(** The banner in front of one response. *)
Lemma send_command_cuts_banner_prefix_witness :
  exists text d',
    send_command (B := ascii_runtime) greeting_once (py "robotmode") 0.5 fresh
    = (Ok (Some text), d') /\
    text = strip (slice_from 45 (banner ++ [LF] ++ py "Robotmode: RUNNING" ++ [LF])) /\
    (contains text banner
     <-> contains (slice_from 45 (banner ++ [LF] ++ py "Robotmode: RUNNING" ++ [LF])) banner).
Proof.
  apply (send_command_cuts_banner_prefix (B := ascii_runtime) greeting_once).
  - reflexivity.
  - reflexivity.
  - reflexivity.
  - reflexivity.
  - exists [], ([LF] ++ py "Robotmode: RUNNING" ++ [LF]). reflexivity.
Defined.

(** C5 as stated fails: a response that carries the banner twice comes back
    with the second banner still in it. *)
Lemma banner_survives_send_command :
  contains (banner ++ [LF] ++ banner ++ [LF] ++ py "Robotmode: RUNNING" ++ [LF]) banner /\
  exists text,
    fst (send_command (B := ascii_runtime) greeting_twice (py "robotmode") 0.5 fresh)
    = Ok (Some text) /\
    contains text banner.
Proof.
  split.
  - exists [], ([LF] ++ banner ++ [LF] ++ py "Robotmode: RUNNING" ++ [LF]).
    reflexivity.
  - exists (banner ++ [LF] ++ py "Robotmode: RUNNING"). split.
    + vm_compute. reflexivity.
    + exists [], ([LF] ++ py "Robotmode: RUNNING"). reflexivity.
Qed.


(** Without a socket object nothing is sent.  Behind a host on which
    [socket.socket] raises, a client whose connection is [None] makes a
    connect attempt, prints the attribute that [None] lacks and returns [None],
    although the robot would answer; [initialize] then ends in its first
    query. *)
Lemma nothing_is_sent_without_a_socket :
  exchange starved_host (py "robotmode") 0 = Received (py "Robotmode: RUNNING" ++ [LF]) /\
  send_command (B := ascii_runtime) starved_host (py "robotmode") 0.5 unconnected
  = (Ok None,
     {| connection := false;
        events :=
          [Printed [Text (py ">> robotmode")];
           SocketConnect;
           Printed [Text (py "UR dashboard could not establish connection")];
           Printed [Err (Foreign "OSError" (py "[Errno 24] Too many open files"))];
           Printed [Err (AttributeError "'NoneType' object has no attribute 'sendall'")]] |}) /\
  fst (initialize (B := ascii_runtime) starved_host 5 unconnected)
  = Raise (AttributeError "'NoneType' object has no attribute 'split'").
Proof. repeat split; vm_compute; reflexivity. Qed.

(** A running robot in automatic mode. *)
Lemma initialize_when_ready_witness :
  exists d',
    initialize (B := ascii_runtime) (running_robot (py "AUTOMATIC")) 1 fresh = (Ok tt, d') /\
    commands (events d') = commands (events fresh) ++ status_queries.
Proof.
  apply (initialize_when_ready (B := ascii_runtime) (running_robot (py "AUTOMATIC"))
           0 fresh (py "RUNNING") (py "NORMAL") (py "AUTOMATIC")).
  - reflexivity.
  - reflexivity.
  - reflexivity.
  - reflexivity.
  - reflexivity.
  - reflexivity.
  - intros H. vm_compute in H. discriminate H.
Defined.

(** C1 as stated fails: a robot that reports RUNNING and NORMAL but is in
    manual mode is sent [set operational mode automatic] before [initialize]
    returns. *)
Lemma initialize_switches_a_running_robot :
  ready_at (B := ascii_runtime) (running_robot (py "MANUAL")) fresh 0 /\
  fst (initialize (B := ascii_runtime) (running_robot (py "MANUAL")) 1 fresh) = Ok tt /\
  commands (events (snd (initialize (B := ascii_runtime) (running_robot (py "MANUAL")) 1 fresh)))
  = status_queries ++ [py "set operational mode automatic"].
Proof.
  split; [|split].
  - exists (py "RUNNING"), (py "NORMAL"). repeat split; vm_compute; reflexivity.
  - vm_compute. reflexivity.
  - vm_compute. reflexivity.
Qed.






(** The reply of a running robot comes back without its line end. *)
Lemma send_command_returns_trimmed_text_witness :
  strip (py "Robotmode: RUNNING") = py "Robotmode: RUNNING" /\
  forall c, head (py "Robotmode: RUNNING") = Some c \/ last (py "Robotmode: RUNNING") = Some c ->
            is_space c = false.
Proof.
  apply (send_command_returns_trimmed_text (B := ascii_runtime) greeting_once
           (py "robotmode") 0.5 fresh
           (snd (send_command (B := ascii_runtime) greeting_once (py "robotmode") 0.5 fresh))).
  vm_compute. reflexivity.
Defined.

(** The robot mode of a running robot. *)
Lemma status_queries_read_the_value_witness :
  exists d',
    robot_mode (B := ascii_runtime) (running_robot (py "AUTOMATIC")) fresh
    = (Ok (py "RUNNING"), d').
Proof.
  assert (Hl : solid (py "Robotmode:")).
  { split; [intros H; vm_compute in H; discriminate H|].
    intros c Hc. vm_compute in Hc. intuition (subst; reflexivity). }
  assert (Hv : solid (py "RUNNING")).
  { split; [intros H; vm_compute in H; discriminate H|].
    intros c Hc. vm_compute in Hc. intuition (subst; reflexivity). }
  assert (Ht : blank [LF]).
  { intros c Hc. vm_compute in Hc. intuition (subst; reflexivity). }
  apply (proj1 (status_queries_read_the_value (B := ascii_runtime)
                  (running_robot (py "AUTOMATIC")) fresh
                  (py "Robotmode:") (py "RUNNING") [LF] eq_refl Hl Hv Ht)).
  left. reflexivity.
Defined.

(** A robot in protective stop: the stop is unlocked and the pass starts
    over. *)
Lemma initialize_recovers_by_safety_status_witness :
  exists d' rest,
    initialize (B := ascii_runtime) (stopped_robot (py "PROTECTIVE_STOP")) 1 fresh
    = initialize (B := ascii_runtime) (stopped_robot (py "PROTECTIVE_STOP")) 0 d' /\
    commands (events d')
    = commands (events fresh) ++ status_queries
      ++ [py "unlock protective stop"] ++ rest /\
    (forall c, In c rest ->
               c = py "set operational mode automatic" \/ c = py "brake release").
Proof.
  apply (initialize_recovers_by_safety_status (B := ascii_runtime)
           (stopped_robot (py "PROTECTIVE_STOP")) 0 fresh
           (py "RUNNING") (py "PROTECTIVE_STOP") (py "AUTOMATIC")).
  - reflexivity.
  - reflexivity.
  - reflexivity.
  - reflexivity.
  - intros H. vm_compute in H. discriminate H.
Defined.





End DashboardRuns.

(* ===================================================================== *)
(** * The finger gripper run on concrete poses *)
(* ===================================================================== *)

Module GripperRuns.
Import Gripper GripperFacts.

(** Pick and place at the scenario pose along "z" with distance 0.05 approach
    through [0.1, 0.2, 0.35, 0, 0, 0]. *)
Lemma pick_and_place_approach_pose_witness :
  moves_first_to
    (pick (B := ascii_runtime) (Some scenario_pose) (Some (py "z")) (Some 0.05%float))
    connected_controller (obliging (VBool true)) [0.1; 0.2; 0.35; 0; 0; 0]%float
  /\
  moves_first_to
    (place (B := ascii_runtime) (Some scenario_pose) (Some (py "z")) (Some 0.05%float))
    connected_controller (obliging (VBool true)) [0.1; 0.2; 0.35; 0; 0; 0]%float.
Proof.
  assert (Ha : py "z" <> []) by (intros H; vm_compute in H; discriminate H).
  destruct (pick_and_place_approach_pose (B := ascii_runtime) connected_controller
              (obliging (VBool true)) scenario_pose (py "z") 0.05%float eq_refl Ha)
    as [_ Hz].
  exact (Hz eq_refl).
Defined.

(** An axis "-z" stops [pick] and [place] before anything moves. *)
Lemma unknown_axis_raises_before_motion_witness :
  pick (B := ascii_runtime) (Some scenario_pose) (Some (py "-z")) (Some 0.05%float)
    (connected_controller, obliging (VBool true))
  = (Raise (TypeError "list indices must be integers or slices, not NoneType"),
     (connected_controller, obliging (VBool true)))
  /\
  place (B := ascii_runtime) (Some scenario_pose) (Some (py "-z")) (Some 0.05%float)
    (connected_controller, obliging (VBool true))
  = (Raise (TypeError "list indices must be integers or slices, not NoneType"),
     (connected_controller, obliging (VBool true))).
Proof.
  apply (unknown_axis_raises_before_motion (B := ascii_runtime)).
  - discriminate.
  - intros H; vm_compute in H; discriminate H.
  - intros H; vm_compute in H; intuition discriminate.
Defined.

(** C10 as stated fails: "Z" and the empty string are outside the five names,
    yet [pick] takes the z axis for both and moves the arm. *)
Lemma pick_moves_with_other_axis_names :
  ~ In (py "Z") known_axes /\ ~ In [] known_axes /\
  calls (trace (snd (snd
    (pick (B := ascii_runtime) (Some scenario_pose) (Some (py "Z")) (Some 0.05%float)
       (connected_controller, obliging (VBool true))))))
  = [ur_movel (Some [0.1; 0.2; 0.35; 0; 0; 0]%float) 0.5 0.2;
     ur_movel (Some scenario_pose) 0.5 0.2;
     gripper_move_and_wait_for_pos 130 150 0;
     ur_movel (Some [0.1; 0.2; 0.35; 0; 0; 0]%float) 0.5 0.2]
  /\
  calls (trace (snd (snd
    (pick (B := ascii_runtime) (Some scenario_pose) (Some []) (Some 0.05%float)
       (connected_controller, obliging (VBool true))))))
  = [ur_movel (Some [0.1; 0.2; 0.35; 0; 0; 0]%float) 0.5 0.2;
     ur_movel (Some scenario_pose) 0.5 0.2;
     gripper_move_and_wait_for_pos 130 150 0;
     ur_movel (Some [0.1; 0.2; 0.35; 0; 0; 0]%float) 0.5 0.2].
Proof.
  repeat split; try (vm_compute; reflexivity);
    intros H; vm_compute in H; intuition discriminate.
Qed.

(** A pick and a place at the scenario pose that go through. *)
Lemma pick_and_place_call_sequence_witness :
  (exists n,
     calls (trace (snd (snd
       (pick (B := ascii_runtime) (Some scenario_pose) (Some (py "z")) (Some 0.05%float)
          (connected_controller, obliging (VBool true))))))
     = calls (trace (obliging (VBool true)))
       ++ take n (visit connected_controller [0.1; 0.2; 0.35; 0; 0; 0]%float scenario_pose
                    (gripper_close connected_controller)) /\
     fst (snd (pick (B := ascii_runtime) (Some scenario_pose) (Some (py "z"))
                 (Some 0.05%float) (connected_controller, obliging (VBool true))))
     = connected_controller /\
     (fst (pick (B := ascii_runtime) (Some scenario_pose) (Some (py "z")) (Some 0.05%float)
             (connected_controller, obliging (VBool true))) = Ok tt -> n = 4))
  /\
  (exists n,
     calls (trace (snd (snd
       (place (B := ascii_runtime) (Some scenario_pose) (Some (py "z")) (Some 0.05%float)
          (connected_controller, obliging (VBool true))))))
     = calls (trace (obliging (VBool true)))
       ++ take n (visit connected_controller [0.1; 0.2; 0.35; 0; 0; 0]%float scenario_pose
                    (griper_open connected_controller)) /\
     fst (snd (place (B := ascii_runtime) (Some scenario_pose) (Some (py "z"))
                 (Some 0.05%float) (connected_controller, obliging (VBool true))))
     = connected_controller /\
     (fst (place (B := ascii_runtime) (Some scenario_pose) (Some (py "z")) (Some 0.05%float)
             (connected_controller, obliging (VBool true))) = Ok tt -> n = 4)).
Proof.
  apply (pick_and_place_call_sequence (B := ascii_runtime)).
  - discriminate.
  - reflexivity.
Defined.

(** A transfer without a target: the pick is made, and that is all. *)
Lemma transfer_stops_after_the_pick_witness :
  exists e,
    transfer (B := ascii_runtime) (Some scenario_pose) None (Some (py "z")) (Some (py "z"))
      (Some 0.05%float) (Some 0.05%float) (connected_controller, obliging (VBool true))
    = (Raise e,
       (fst (snd (pick (B := ascii_runtime) (Some scenario_pose) (Some (py "z"))
                    (Some 0.05%float) (connected_controller, obliging (VBool true)))),
        record (Printed [Text (py "Pick up completed")])
          (snd (snd (pick (B := ascii_runtime) (Some scenario_pose) (Some (py "z"))
                       (Some 0.05%float) (connected_controller, obliging (VBool true))))))).
Proof.
  apply (transfer_stops_after_the_pick (B := ascii_runtime)).
  - left. reflexivity.
  - vm_compute. reflexivity.
Defined.

(** Along "x" the approach pose is the goal moved in its first coordinate. *)
Lemma pick_and_place_approach_along_x_and_y_witness :
  moves_first_to
    (pick (B := ascii_runtime) (Some scenario_pose) (Some (py "x")) (Some 0.05%float))
    connected_controller (obliging (VBool true))
    (alter (fun x => (x + 0.05)%float) 0 scenario_pose)
  /\
  moves_first_to
    (place (B := ascii_runtime) (Some scenario_pose) (Some (py "x")) (Some 0.05%float))
    connected_controller (obliging (VBool true))
    (alter (fun x => (x + 0.05)%float) 0 scenario_pose).
Proof.
  assert (Ha : py "x" <> []) by (intros H; vm_compute in H; discriminate H).
  exact (proj1 (proj2 (pick_and_place_approach_along_x_and_y (B := ascii_runtime)
                         connected_controller (obliging (VBool true)) scenario_pose
                         (py "x") 0.05%float eq_refl Ha)) eq_refl).
Defined.

(** A goal of two coordinates approached along "z". *)
Lemma short_goal_raises_before_motion_witness :
  pick (B := ascii_runtime) (Some [0.1; 0.2]%float) (Some (py "z")) (Some 0.05%float)
    (connected_controller, obliging (VBool true))
  = (Raise (IndexError "list index out of range"),
     (connected_controller, obliging (VBool true)))
  /\
  place (B := ascii_runtime) (Some [0.1; 0.2]%float) (Some (py "z")) (Some 0.05%float)
    (connected_controller, obliging (VBool true))
  = (Raise (IndexError "list index out of range"),
     (connected_controller, obliging (VBool true))).
Proof.
  apply (short_goal_raises_before_motion (B := ascii_runtime)).
  - discriminate.
  - left. split; [reflexivity|]. cbn. lia.
Defined.

(** A gripper that cannot be reached at all. *)
Lemma connect_gripper_swallows_a_failed_connection_witness :
  exists n,
    fst (connect_gripper (unconnected_controller, refusing Link.timed_out)) = Ok tt /\
    calls (trace (snd (snd (connect_gripper (unconnected_controller,
                                             refusing Link.timed_out)))))
    = calls (trace (refusing Link.timed_out))
      ++ take n [RobotiqGripper_new;
                 gripper_connect (host unconnected_controller) (PORT unconnected_controller)] /\
    last (trace (snd (snd (connect_gripper (unconnected_controller,
                                            refusing Link.timed_out)))))
    = Some (Printed [Text (py "Gripper error: "); Err Link.timed_out]).
Proof.
  apply connect_gripper_swallows_a_failed_connection.
  left. reflexivity.
Defined.

(** A gripper that is active already. *)
Lemma connect_gripper_moves_only_an_inactive_gripper_witness :
  exists n,
    calls (trace (snd (snd (connect_gripper (unconnected_controller,
                                             obliging (VBool true))))))
    = calls (trace (obliging (VBool true)))
      ++ greeting unconnected_controller ++ take n (activation unconnected_controller) /\
    (truthy (VBool true) = true ->
     n = 0 /\ fst (connect_gripper (unconnected_controller, obliging (VBool true))) = Ok tt) /\
    (truthy (VBool true) = false ->
     fst (connect_gripper (unconnected_controller, obliging (VBool true))) = Ok tt -> n = 2).
Proof.
  apply (connect_gripper_moves_only_an_inactive_gripper unconnected_controller
           (obliging (VBool true)) (VBool true) (VBool true) (VBool true));
    reflexivity.
Defined.

(** The driver cannot be constructed, the arm answers. *)
Lemma pick_without_a_gripper_moves_the_arm_first_witness :
  exists g w1 w2,
    init (py "164.54.116.129") 63352 true (Link.late 1) = (Ok g, w1) /\
    pick (B := ascii_runtime) (Some scenario_pose) (Some (py "z")) (Some 0.05%float) (g, w1)
    = (Raise (AttributeError "'FingerGripperController' object has no attribute 'gripper'"),
       (g, w2)) /\
    calls (trace w2)
    = calls (trace (Link.late 1))
      ++ [RobotiqGripper_new;
          ur_movel (Some [0.1; 0.2; 0.35; 0; 0; 0]%float) (acceleration g) (velocity g);
          ur_movel (Some scenario_pose) (acceleration g) (velocity g)].
Proof.
  apply (pick_without_a_gripper_moves_the_arm_first (B := ascii_runtime)
           (py "164.54.116.129") 63352 (Link.late 1) Link.timed_out VNone VNone).
  - reflexivity.
  - reflexivity.
  - reflexivity.
  - discriminate.
  - intros s. reflexivity.
Defined.

(** A transfer between two poses on a robot on which every call succeeds. *)
Lemma transfer_picks_and_then_places_witness :
  fst (snd (transfer (B := ascii_runtime) (Some scenario_pose)
              (Some [0.3; 0.2; 0.3; 0; 0; 0]%float) (Some (py "z")) (Some (py "z"))
              (Some 0.05%float) (Some 0.05%float)
              (connected_controller, obliging (VBool true))))
  = connected_controller /\
  calls (trace (snd (snd (transfer (B := ascii_runtime) (Some scenario_pose)
                            (Some [0.3; 0.2; 0.3; 0; 0; 0]%float) (Some (py "z"))
                            (Some (py "z")) (Some 0.05%float) (Some 0.05%float)
                            (connected_controller, obliging (VBool true))))))
  = calls (trace (obliging (VBool true)))
    ++ visit connected_controller [0.1; 0.2; 0.35; 0; 0; 0]%float scenario_pose
         (gripper_close connected_controller)
    ++ visit connected_controller [0.3; 0.2; 0.35; 0; 0; 0]%float
         [0.3; 0.2; 0.3; 0; 0; 0]%float (griper_open connected_controller) /\
  last (trace (snd (snd (transfer (B := ascii_runtime) (Some scenario_pose)
                           (Some [0.3; 0.2; 0.3; 0; 0; 0]%float) (Some (py "z"))
                           (Some (py "z")) (Some 0.05%float) (Some 0.05%float)
                           (connected_controller, obliging (VBool true))))))
  = Some (Printed [Text (py "Place completed")]).
Proof.
  apply (transfer_picks_and_then_places (B := ascii_runtime) connected_controller
           (obliging (VBool true)) scenario_pose [0.3; 0.2; 0.3; 0; 0; 0]%float
           [0.1; 0.2; 0.35; 0; 0; 0]%float [0.3; 0.2; 0.35; 0; 0; 0]%float
           (Some (py "z")) (Some (py "z")) (Some 0.05%float) (Some 0.05%float)).
  - intros s. reflexivity.
  - intros s. reflexivity.
  - vm_compute. reflexivity.
Defined.

End GripperRuns.

(* ===================================================================== *)
(** * The task facade run as the script runs it *)
(* ===================================================================== *)

Module DriverRuns.
Import Driver DriverFacts.

(** A transfer without a source. *)
Lemma gripper_transfer_requires_both_ends_witness :
  gripper_transfer (B := ascii_runtime) (Some script_home) None (Some script_hex_key)
    (Some (py "z")) (Some (py "y")) None None (Some 190%Z) (Some 240%Z) script_frame
  = (Raise (Exception
             (py "Please provide both the source and target loactions to make a transfer")),
     script_frame).
Proof.
  apply (gripper_transfer_requires_both_ends (B := ascii_runtime)).
  left. reflexivity.
Defined.

(** [remove_cap] as the script calls it: the exception of its [try] is
    printed, and nothing follows. *)
Lemma task_exception_is_printed_witness :
  run (B := ascii_runtime) script_remove_cap script_frame
  = aftermath script_remove_cap
      (printed (AttributeError "open_gripper")
         (snd (attempt (B := ascii_runtime) script_remove_cap
                 (snd (entry script_remove_cap script_frame))))).
Proof.
  apply (proj1 (task_exception_is_printed (B := ascii_runtime) script_remove_cap script_frame)
           (snd (entry script_remove_cap script_frame))).
  - vm_compute. reflexivity.
  - vm_compute. reflexivity.
Defined.

(** C2 as stated fails: in [remove_cap], as the script calls it, a step of
    the [try] raises, the exception is printed, and that is the end: the
    gripper is not disconnected and the robot is not homed again.  And in
    [gripper_transfer], when the constructor of the controller raises, the
    [finally] block finds [gripper_controller] unbound: that exception reaches
    the caller, and the robot is not homed again either. *)
Lemma task_cleanup_is_not_uniform :
  fst (run (B := ascii_runtime) script_remove_cap script_frame) = Ok tt /\
  last (trace (outside (snd (run (B := ascii_runtime) script_remove_cap script_frame))))
  = Some (Printed [Err (AttributeError "open_gripper")]) /\
  calls (trace (outside (snd (run (B := ascii_runtime) script_remove_cap script_frame))))
  = [ur_movej script_home 2 2;
     RobotiqGripper_new; gripper_connect (py "164.54.116.129") 63352; gripper_is_active;
     RobotiqGripper_new; gripper_connect (py "164.54.116.129") 63352; gripper_is_active]
  /\
  fst (run (B := ascii_runtime) script_gripper_transfer mute_gripper_frame)
  = Raise (UnboundLocalError "gripper_controller") /\
  calls (trace (outside (snd (run (B := ascii_runtime) script_gripper_transfer
                                mute_gripper_frame))))
  = [ur_movej script_home 2 2;
     RobotiqGripper_new; gripper_connect (py "164.54.116.129") 63352; gripper_is_active].
Proof. repeat split; vm_compute; reflexivity. Qed.

(** C3 fails on the code: [gripper_screw_transfer] as the script calls it,
    with [gripper_open = 120] and [gripper_close = 200], closes the gripper at
    200 and opens it at 0. *)
Theorem gripper_screw_transfer_opens_at_zero :
  gripper_positions
    (trace (outside (snd
       (gripper_screw_transfer (B := ascii_runtime)
          (Some script_home) (Some script_assembly_above) (Some script_hex_key)
          (Some script_cell_screw) 10 (Some 120%Z) (Some 200%Z) script_frame))))
  = [200%Z; 0%Z].
Proof. vm_compute. reflexivity. Qed.

Lemma settling_frame_answers (j : nat) :
  is_Some (polled (B := ascii_runtime) settling_frame j).
Proof. eexists. reflexivity. Defined.

Lemma settling_frame_first_reading : ~ same_reading (B := ascii_runtime) settling_frame 0.
Proof. intros (angles & H & _). discriminate H. Defined.

Lemma settling_frame_comes_to_rest : ~ same_reading (B := ascii_runtime) settling_frame 2.
Proof.
  intros (angles & H1 & H2). vm_compute in H1, H2.
  injection H1 as <-. discriminate H2.
Defined.

Lemma settling_frame_at_rest (i : nat) :
  same_reading (B := ascii_runtime) settling_frame (3 + i).
Proof. eexists. split; reflexivity. Defined.

(** An arm that comes to rest between the second and the third poll: the
    second poll reads the angles of the first, the third reads new ones and
    puts the counter back to zero, and the six polls after it read the same.
    The loop is still polling after eight polls and ends with the ninth. *)
Lemma polling_ends_after_six_ready_polls_witness :
  (exists f', polling (B := ascii_runtime) 8 (py "BUSY") 0 settling_frame = (Running, f')
              /\ clock (outside f') = clock (outside settling_frame) + 8)
  /\
  (exists f', polling (B := ascii_runtime) 20 (py "BUSY") 0 settling_frame = (Ok tt, f')
              /\ clock (outside f') = clock (outside settling_frame) + 9
              /\ trace (outside f')
                 = trace (outside settling_frame)
                   ++ polls_log settling_frame 9).
Proof.
  assert (Hw : forall m, m < 8 -> ~ six_ready (B := ascii_runtime) settling_frame m).
  { intros m Hm [H5 Hall].
    destruct (decide (m = 5)) as [->|Hne].
    - exact (settling_frame_first_reading (Hall 0 ltac:(lia))).
    - exact (settling_frame_comes_to_rest (Hall 2 ltac:(lia))). }
  assert (H8 : six_ready (B := ascii_runtime) settling_frame 8).
  { split; [lia|]. intros i Hi.
    replace i with (3 + (i - 3)) by lia. apply settling_frame_at_rest. }
  destruct (polling_ends_after_six_ready_polls (B := ascii_runtime) settling_frame 8
              (fun j _ => settling_frame_answers j) Hw) as (H1 & H2 & _).
  split; [exact H1 | exact (H2 H8 20 ltac:(lia))].
Defined.

(** On an arm at rest the loop ends with the seventh poll. *)
Lemma polling_takes_six_polls_witness :
  exists k,
    6 <= k /\
    clock (outside (snd (polling (B := ascii_runtime) 10 (py "BUSY") 0 resting_frame)))
    = clock (outside resting_frame) + k /\
    calls (trace (outside (snd (polling (B := ascii_runtime) 10 (py "BUSY") 0 resting_frame))))
    = calls (trace (outside resting_frame)) ++ repeat ur_getj k.
Proof.
  apply (polling_takes_six_polls (B := ascii_runtime) 10 resting_frame).
  vm_compute. reflexivity.
Defined.

(** A program that is on the robot already, run on an arm at rest. *)
Lemma run_urp_program_always_reports_success_witness :
  exists name k,
    Some (py "cell.urp") = Some name /\
    success_log (py "cell.urp") = success_log name /\
    6 <= k /\
    calls (trace (outside (snd (run_urp_program (B := ascii_runtime) 10 None
                                  (Some (py "cell.urp")) resting_frame))))
    = calls (trace (outside resting_frame))
      ++ []
      ++ [external "ur_dashboard.load_program"; external "ur_dashboard.run_program"]
      ++ repeat ur_getj k.
Proof.
  apply (proj2 (run_urp_program_always_reports_success (B := ascii_runtime) 10 None
                  (Some (py "cell.urp")) resting_frame)).
  vm_compute. reflexivity.
Defined.

(** Two readings of an arm at rest. *)
Lemma movement_state_is_ready_when_the_reading_repeats_witness :
  exists f',
    (get_movement_state (B := ascii_runtime);; get_movement_state (B := ascii_runtime))
      resting_frame
    = (Ok (if decide (List.map (fmt2f (Builtins := ascii_runtime)) resting_joints
                      = List.map (fmt2f (Builtins := ascii_runtime)) resting_joints)
           then py "READY" else py "BUSY"), f') /\
    robot_current_joint_angles (this f')
    = Some (List.map (fmt2f (Builtins := ascii_runtime)) resting_joints) /\
    calls (trace (outside f')) = calls (trace (outside resting_frame)) ++ [ur_getj; ur_getj].
Proof.
  apply (movement_state_is_ready_when_the_reading_repeats (B := ascii_runtime)
           resting_frame resting_joints resting_joints); reflexivity.
Defined.

(** The calls of the script on a facade whose module binds neither name. *)
Lemma script_names_are_needed_to_place_witness :
  (exists l,
     trace (outside (snd
       (pick_and_flip_object (B := ascii_runtime) (Some script_home)
          (Some script_assembly_deck) (Some (py "y")) None (Some 190%Z) (Some 240%Z)
          library_frame)))
     = trace (outside library_frame) ++ l /\
     Forall (fun e => placing e = false) l)
  /\
  (exists l,
     trace (outside (snd
       (gripper_screw_transfer (B := ascii_runtime) (Some script_home)
          (Some script_assembly_above) (Some script_hex_key) (Some script_cell_screw) 10
          (Some 120%Z) (Some 200%Z) library_frame)))
     = trace (outside library_frame) ++ l /\
     Forall (fun e => placing e = false) l).
Proof.
  destruct (FootprintFacts.script_names_are_needed_to_place (B := ascii_runtime)
              (Some script_home) (Some script_assembly_deck) (Some script_hex_key)
              (Some script_cell_screw) (Some (py "y")) None 10 (Some 190%Z) (Some 240%Z)
              library_frame) as [H1 _].
  destruct (FootprintFacts.script_names_are_needed_to_place (B := ascii_runtime)
              (Some script_home) (Some script_assembly_above) (Some script_hex_key)
              (Some script_cell_screw) (Some (py "y")) None 10 (Some 120%Z) (Some 200%Z)
              library_frame) as [_ H2].
  split; [exact (H1 eq_refl) | exact (H2 eq_refl)].
Defined.

End DriverRuns.

(* ===================================================================== *)
(** * The connection and the constructor run against concrete robots *)
(* ===================================================================== *)

Module LinkRuns.
Import Link LinkFacts FacadeFacts.

(** A robot that times out on every attempt. *)
Lemma connect_ur_gives_up_silently_witness :
  connect_ur (B := ascii_runtime) timeouts (unconnected, refusing timed_out)
  = (Ok tt, (unconnected, later (refusing timed_out) 10 (refusals (refusing timed_out) 10))).
Proof.
  apply (connect_ur_gives_up_silently (B := ascii_runtime)).
  intros j Hj. exists timed_out. split; reflexivity.
Defined.

(** A robot that answers the fourth attempt. *)
Lemma connect_ur_ends_at_the_first_answer_witness :
  connect_ur (B := ascii_runtime) timeouts (unconnected, late 3)
  = (Ok tt,
     ({| hostname := hostname unconnected; PORT := PORT unconnected; connection := true |},
      later (late 3) 4
        (refusals (late 3) 3 ++ [Called (external "urx.Robot") (Returns VNone);
                                 Printed [Text (py "Successful ur connection")]]))).
Proof.
  apply (connect_ur_ends_at_the_first_answer (B := ascii_runtime) timeouts unconnected
           (late 3) 3).
  - lia.
  - intros j Hj. exists timed_out. split; [|reflexivity].
    destruct j as [|[|[|j]]]; [reflexivity..|lia].
Defined.

(** The dashboard client is constructed, the arm never answers. *)
Lemma facade_of_an_unreachable_robot_witness :
  Driver.init (B := ascii_runtime) timeouts (Some (py "164.54.116.129")) 29999 early
  = (Raise (AttributeError "'NoneType' object has no attribute 'set_tcp'"),
     later (later early 1 [Called (external "UR_DASHBOARD") (Returns VNone)]) 10
       (refusals (later early 1 [Called (external "UR_DASHBOARD") (Returns VNone)]) 10)).
Proof.
  apply (facade_of_an_unreachable_robot (B := ascii_runtime) timeouts
           (py "164.54.116.129") 29999 early VNone).
  - intros H. vm_compute in H. discriminate H.
  - reflexivity.
  - intros j Hj. exists timed_out. split; reflexivity.
Defined.

(** The facade of an arm at rest on which every call succeeds. *)
Lemma constructed_facade_has_read_the_joints_witness :
  Some (py "164.54.116.129")
  = Some (Driver.hostname
            {| Driver.hostname := py "164.54.116.129";
               Driver.acceleration := 0.5; Driver.velocity := 0.5;
               Driver.robot_current_joint_angles :=
                 Some (List.map (fmt2f (Builtins := ascii_runtime)) Driver.resting_joints) |}) /\
  0.5%float = 0.5%float /\ 0.5%float = 0.5%float /\
  is_Some (Some (List.map (fmt2f (Builtins := ascii_runtime)) Driver.resting_joints)) /\
  last (calls (trace (snd (Driver.init (B := ascii_runtime) timeouts
                             (Some (py "164.54.116.129")) 29999
                             (obliging (VList Driver.resting_joints))))))
  = Some ur_getj.
Proof.
  apply (proj2 (constructed_facade_has_read_the_joints (B := ascii_runtime) timeouts
                  (Some (py "164.54.116.129")) 29999
                  (obliging (VList Driver.resting_joints)))
           {| Driver.hostname := py "164.54.116.129";
              Driver.acceleration := 0.5; Driver.velocity := 0.5;
              Driver.robot_current_joint_angles :=
                Some (List.map (fmt2f (Builtins := ascii_runtime)) Driver.resting_joints) |}).
  vm_compute. reflexivity.
Defined.

End LinkRuns.
